(** * Business Protection Core of the Instabids homeowner swarm

    A shallow embedding of the three security components of
    [src/core/security]:

    - [cost_breaker.py]      the cost circuit breaker          (module [CostBreaker])
    - [violation_tracker.py] the violation escalation tracker  (module [Tracker])
    - [contact_filter.py]    the contact protection filter     (module [Filter])

    followed by the worlds and inputs the statements are run on (modules
    [CostBreakerScenarios], [TrackerScenarios], [FilterScenarios]) and by the
    properties themselves (modules [CostBreakerFacts], [TrackerFacts],
    [FilterFacts]; further invariants of the three components and of their
    callers in [CostBreakerInvariants], [TrackerInvariants],
    [FilterInvariants] and [CallerFacts]).

    Python floats are IEEE binary64 numbers and are embedded as Rocq's
    primitive floats, so every comparison and addition below is the one the
    interpreter performs.  [datetime.utcnow()] is an input of each call (one
    reading per call, in microseconds since the epoch).  Calls into the MCP
    tools may return a reply or raise; a raised exception is a value of
    [Outcome].  The MCP clients are interfaces with the implementation of
    the module as one instance.  A method that a class calls on itself is
    looked up on [self] at the call: such methods are fields of an interface
    too, and where neither the class nor the repository defines one, the
    instance of the class as it ships raises the AttributeError of the
    failed lookup. *)

From Stdlib Require Import List String Ascii ZArith Bool Lia PeanoNat.
From Stdlib Require Import Floats.
From Stdlib Require Import Permutation Sorted.
Import ListNotations.

Set Warnings "-inexact-float".

(** ** Exceptions as values *)

Inductive PyExc : Type :=
| AttributeError (msg : string)
| TypeError (msg : string)
| ValueError (msg : string)
| KeyError (msg : string)
| NotImplementedError (msg : string)
| ConnectionError (msg : string).

Inductive Outcome (A : Type) : Type :=
| Ok (a : A)
| Raise (e : PyExc).
Arguments Ok {A} a.
Arguments Raise {A} e.

Definition raised {A} (o : Outcome A) : bool :=
  match o with Ok _ => false | Raise _ => true end.

(** [l[-n:]] for a positive literal [n]. *)
Definition last_n {A} (n : nat) (l : list A) : list A :=
  skipn (List.length l - n) l.

(** [datetime] values: microseconds since the epoch, UTC. *)
Definition datetime := Z.
Bind Scope Z_scope with datetime.
Definition date_of (t : datetime) : Z := (t / 86400000000)%Z.
Definition hour_of (t : datetime) : Z := ((t / 3600000000) mod 24)%Z.
(** [(a - b).seconds]: the seconds field of the normalised [timedelta]. *)
Definition delta_seconds (a b : datetime) : Z := (((a - b) / 1000000) mod 86400)%Z.

(* ===================================================================== *)
(** * cost_breaker.py *)
(* ===================================================================== *)

Module CostBreaker.

Local Open Scope string_scope.
Local Open Scope list_scope.
Local Open Scope float_scope.

(** Values that travel in MCP parameter dictionaries. *)
Inductive Val : Type :=
| VStr (s : string)
| VNum (f : float)
| VBool (b : bool)
| VTime (t : datetime)
| VNone.

Definition Params := list (string * Val).

(** The reply dictionaries of the MCP tools, by key. *)
Record Reply : Type := mkReply {
  status : option string;
  r_daily_cost : option float;
  r_new_total : option Val;
  r_log_id : option string;
  r_history : option (list Params)
}.

Definition reply_status (s : string) : Reply :=
  mkReply (Some s) None None None None.

Fixpoint get (k : string) (p : Params) : option Val :=
  match p with
  | [] => None
  | (k', v) :: p' => if String.eqb k k' then Some v else get k p'
  end.

(** The MCP tool interface the breaker holds in [self.mcp]. *)
Class MCP : Type := { call_mcp_tool : string -> string -> Params -> Outcome Reply }.

(** [class MCPCostBreaker], the implementation shipped in the module. *)
Definition _redis_operation (operation : string) (params : Params) : Reply :=
  if String.eqb operation "increment_cost" then
    mkReply (Some "success") None
            (Some (match get "amount" params with Some v => v | None => VNum 0 end))
            None None
  else if String.eqb operation "get_daily_cost" then
    mkReply (Some "success") (Some 125.45) None None None
  else reply_status "success".

Definition _supabase_operation (operation : string) (params : Params) : Reply :=
  if String.eqb operation "log_cost_event" then
    mkReply (Some "success") None None (Some "cost_log_123") None
  else if String.eqb operation "get_cost_history" then
    mkReply (Some "success") None None None (Some [])
  else reply_status "success".

#[export] Instance MCPCostBreaker : MCP := {|
  call_mcp_tool tool_name operation params :=
    if String.eqb tool_name "redis" then Ok (_redis_operation operation params)
    else if String.eqb tool_name "supabase" then Ok (_supabase_operation operation params)
    else Raise (ValueError "Unsupported MCP tool")
|}.

Inductive CostViolationType : Type :=
| PER_EVENT_EXCEEDED
| DAILY_LIMIT_EXCEEDED
| HOURLY_RATE_EXCEEDED
| SUSPICIOUS_PATTERN
| EMERGENCY_SHUTDOWN.

Definition CostViolationType_value (t : CostViolationType) : string :=
  match t with
  | PER_EVENT_EXCEEDED => "per_event_exceeded"
  | DAILY_LIMIT_EXCEEDED => "daily_limit_exceeded"
  | HOURLY_RATE_EXCEEDED => "hourly_rate_exceeded"
  | SUSPICIOUS_PATTERN => "suspicious_pattern"
  | EMERGENCY_SHUTDOWN => "emergency_shutdown"
  end.

(** The two f-strings passed to [_trigger_emergency_shutdown], with the
    interpolated amount kept as a number. *)
Inductive ShutdownReason : Type :=
| ProjectionExceedsThreshold (projected_daily : float)
| ThresholdExceeded (daily_cost : float).

(** A violation dictionary: the keys every violation has, the key
    [estimated_cost] read back by the pattern detector, and the rest. *)
Record Violation : Type := mkViolation {
  v_type : CostViolationType;
  v_timestamp : datetime;
  v_estimated_cost : option float;
  v_rest : Params
}.

(** The [reason] f-strings of a decision. *)
Inductive Reason : Type :=
| SystemInEmergencyShutdown (why : option ShutdownReason)
| PerEventLimitExceeded (estimated_cost limit : float)
| DailyLimitWouldBeExceeded (projected_daily limit : float)
| HourlyLimitWouldBeExceeded (projected_hourly limit : float)
| CostApprovalGranted
| CostBreakerSystemError (e : PyExc).

Record Costs : Type := mkCosts {
  c_daily_cost : float;
  c_daily_limit : float;
  c_daily_remaining : float;
  c_hourly_cost : float;
  c_hourly_limit : float;
  c_hourly_remaining : float;
  c_per_event_limit : float;
  c_emergency_threshold : float
}.

Record Decision : Type := mkDecision {
  approved : bool;
  reason : Reason;
  current_costs : Costs;
  warnings : list string
}.

(** The attributes of a [CostCircuitBreaker] instance. *)
Record Breaker : Type := mkBreaker {
  daily_limit : float;
  per_event_limit : float;
  hourly_limit : float;
  emergency_threshold : float;
  daily_cost : float;
  hourly_cost : float;
  current_hour : Z;
  last_reset : Z;
  is_shutdown : bool;
  shutdown_reason : option ShutdownReason;
  violation_history : list Violation
}.

Definition set_daily_cost (x : float) (b : Breaker) : Breaker :=
  mkBreaker (daily_limit b) (per_event_limit b) (hourly_limit b) (emergency_threshold b)
            x (hourly_cost b) (current_hour b) (last_reset b)
            (is_shutdown b) (shutdown_reason b) (violation_history b).
Definition set_hourly_cost (x : float) (b : Breaker) : Breaker :=
  mkBreaker (daily_limit b) (per_event_limit b) (hourly_limit b) (emergency_threshold b)
            (daily_cost b) x (current_hour b) (last_reset b)
            (is_shutdown b) (shutdown_reason b) (violation_history b).
Definition set_current_hour (x : Z) (b : Breaker) : Breaker :=
  mkBreaker (daily_limit b) (per_event_limit b) (hourly_limit b) (emergency_threshold b)
            (daily_cost b) (hourly_cost b) x (last_reset b)
            (is_shutdown b) (shutdown_reason b) (violation_history b).
Definition set_last_reset (x : Z) (b : Breaker) : Breaker :=
  mkBreaker (daily_limit b) (per_event_limit b) (hourly_limit b) (emergency_threshold b)
            (daily_cost b) (hourly_cost b) (current_hour b) x
            (is_shutdown b) (shutdown_reason b) (violation_history b).
Definition set_shutdown (x : bool) (r : option ShutdownReason) (b : Breaker) : Breaker :=
  mkBreaker (daily_limit b) (per_event_limit b) (hourly_limit b) (emergency_threshold b)
            (daily_cost b) (hourly_cost b) (current_hour b) (last_reset b)
            x r (violation_history b).
Definition set_violation_history (x : list Violation) (b : Breaker) : Breaker :=
  mkBreaker (daily_limit b) (per_event_limit b) (hourly_limit b) (emergency_threshold b)
            (daily_cost b) (hourly_cost b) (current_hour b) (last_reset b)
            (is_shutdown b) (shutdown_reason b) x.

(** [CostCircuitBreaker.__init__] with its default arguments spelled out at
    the call site; [now] is the clock at construction. *)
Definition init (now : datetime)
    (daily_limit per_event_limit hourly_limit emergency_threshold : float) : Breaker :=
  mkBreaker daily_limit per_event_limit hourly_limit emergency_threshold
            0 0 (hour_of now) (date_of now) false None [].

Definition default_daily_limit : float := 1000.
Definition default_per_event_limit : float := 0.05.
Definition default_hourly_limit : float := 100.
Definition default_emergency_threshold : float := 2000.

(** [max(0, x)]: Python keeps the first argument unless the second is
    strictly greater. *)
Definition max0 (x : float) : float := if 0 <? x then x else 0.

Definition _get_current_costs (self : Breaker) : Costs :=
  mkCosts (daily_cost self) (daily_limit self)
          (max0 (daily_limit self - daily_cost self))
          (hourly_cost self) (hourly_limit self)
          (max0 (hourly_limit self - hourly_cost self))
          (per_event_limit self) (emergency_threshold self).

Section WithMCP.
Context {mcp : MCP}.

Definition _update_cost_tracking (now : datetime) (self : Breaker) : Breaker :=
  let current_date := date_of now in
  let current_hour' := hour_of now in
  let self :=
    if (last_reset self <? current_date)%Z
    then set_last_reset current_date (set_daily_cost 0 self) else self in
  let self :=
    if negb (current_hour' =? current_hour self)%Z
    then set_current_hour current_hour' (set_hourly_cost 0 self) else self in
  match call_mcp_tool "redis" "get_daily_cost" [("date", VTime now)] with
  | Ok daily_result =>
      match status daily_result with
      | Some st =>
          if String.eqb st "success"
          then set_daily_cost
                 (match r_daily_cost daily_result with Some d => d | None => 0 end) self
          else self
      | None => self
      end
  | Raise _ => self   (* except Exception: logged *)
  end.

(** [_alert_administrators] only writes to the log. *)
Definition _alert_administrators (violation : Violation) (self : Breaker) : Breaker := self.

Definition _log_cost_violation (violation : Violation) (self : Breaker) : Breaker :=
  let h := violation_history self ++ [violation] in
  let h := if (100 <? List.length h)%nat then last_n 100 h else h in
  let self := set_violation_history h self in
  match call_mcp_tool "supabase" "log_cost_violation"
          [("violation_type", VStr (CostViolationType_value (v_type violation)));
           ("timestamp", VTime (v_timestamp violation))] with
  | Ok _ =>
      match v_type violation with
      | DAILY_LIMIT_EXCEEDED | EMERGENCY_SHUTDOWN => _alert_administrators violation self
      | _ => self
      end
  | Raise _ => self   (* except Exception: logged *)
  end.

Definition _log_approved_operation (now : datetime) (cost : float)
    (operation_type : string) (context : Params) (self : Breaker) : Breaker :=
  match call_mcp_tool "supabase" "log_approved_operation"
          [("cost", VNum cost); ("operation_type", VStr operation_type);
           ("timestamp", VTime now);
           ("daily_total_after", VNum (daily_cost self + cost))] with
  | Ok _ => self
  | Raise _ => self   (* except Exception: logged *)
  end.

Definition _trigger_emergency_shutdown (now : datetime) (why : ShutdownReason)
    (self : Breaker) : Breaker :=
  let self := set_shutdown true (Some why) self in
  let shutdown_event :=
    mkViolation EMERGENCY_SHUTDOWN now None
      [("daily_cost", VNum (daily_cost self));
       ("threshold", VNum (emergency_threshold self))] in
  let self := _log_cost_violation shutdown_event self in
  match call_mcp_tool "redis" "publish_event"
          [("stream", VStr "system:emergency");
           ("event_type", VStr "cost_circuit_breaker_shutdown")] with
  | Ok _ => _alert_administrators shutdown_event self
  | Raise _ => self   (* except Exception: logged *)
  end.

Definition _detect_suspicious_patterns (now : datetime) (estimated_cost : float)
    (operation_type : string) (self : Breaker) : option string :=
  let recent_expensive :=
    filter (fun v => (delta_seconds now (v_timestamp v) <? 300)%Z)
           (last_n 10 (violation_history self)) in
  if (per_event_limit self * 0.8 <? estimated_cost)
     && (3 <? List.length recent_expensive)%nat
  then Some "HIGH_FREQUENCY_EXPENSIVE_OPERATIONS"
  else
    let recent_costs :=
      map (fun v => match v_estimated_cost v with Some c => c | None => 0 end)
          (last_n 5 (violation_history self)) in
    if (5 <? List.length (violation_history self))%nat
       && forallb (fun c => per_event_limit self * 0.5 <? c) recent_costs
    then Some "RAPID_COST_ESCALATION"
    else None.

(** [check_cost_approval].  Every helper it calls catches its own
    exceptions, so the outer [except] clause (the SYSTEM_ERROR answer) is
    never entered and has no branch here. *)
Definition check_cost_approval (now : datetime) (estimated_cost : float)
    (operation_type : string) (context : Params) (self : Breaker)
    : Decision * Breaker :=
  if is_shutdown self then
    (mkDecision false (SystemInEmergencyShutdown (shutdown_reason self))
                (_get_current_costs self) ["EMERGENCY_SHUTDOWN_ACTIVE"], self)
  else
    let self := _update_cost_tracking now self in
    if per_event_limit self <? estimated_cost then
      let violation :=
        mkViolation PER_EVENT_EXCEEDED now (Some estimated_cost)
          (("limit", VNum (per_event_limit self))
           :: ("operation_type", VStr operation_type) :: context) in
      let self := _log_cost_violation violation self in
      (mkDecision false (PerEventLimitExceeded estimated_cost (per_event_limit self))
                  (_get_current_costs self) ["PER_EVENT_LIMIT_EXCEEDED"], self)
    else
      let projected_daily := daily_cost self + estimated_cost in
      if daily_limit self <? projected_daily then
        let violation :=
          mkViolation DAILY_LIMIT_EXCEEDED now (Some estimated_cost)
            [("current_daily", VNum (daily_cost self));
             ("projected_total", VNum projected_daily);
             ("limit", VNum (daily_limit self))] in
        let self := _log_cost_violation violation self in
        let self :=
          if emergency_threshold self <? projected_daily
          then _trigger_emergency_shutdown now
                 (ProjectionExceedsThreshold projected_daily) self
          else self in
        (mkDecision false (DailyLimitWouldBeExceeded projected_daily (daily_limit self))
                    (_get_current_costs self) ["DAILY_LIMIT_EXCEEDED"], self)
      else
        let projected_hourly := hourly_cost self + estimated_cost in
        if hourly_limit self <? projected_hourly then
          let violation :=
            mkViolation HOURLY_RATE_EXCEEDED now (Some estimated_cost)
              [("current_hourly", VNum (hourly_cost self));
               ("projected_hourly", VNum projected_hourly);
               ("limit", VNum (hourly_limit self))] in
          let self := _log_cost_violation violation self in
          (mkDecision false
                      (HourlyLimitWouldBeExceeded projected_hourly (hourly_limit self))
                      (_get_current_costs self) ["HOURLY_RATE_EXCEEDED"], self)
        else
          let pattern_warning :=
            _detect_suspicious_patterns now estimated_cost operation_type self in
          let warnings :=
            match pattern_warning with Some w => [w] | None => [] end in
          let self :=
            _log_approved_operation now estimated_cost operation_type context self in
          (mkDecision true CostApprovalGranted (_get_current_costs self) warnings, self).

Definition record_actual_cost (now : datetime) (actual_cost : float)
    (operation_type : string) (self : Breaker) : Breaker :=
  let self := set_daily_cost (daily_cost self + actual_cost) self in
  let self := set_hourly_cost (hourly_cost self + actual_cost) self in
  match call_mcp_tool "redis" "increment_cost" [("amount", VNum actual_cost)] with
  | Raise _ => self   (* except Exception: logged *)
  | Ok _ =>
      match call_mcp_tool "supabase" "log_cost_event"
              [("cost", VNum actual_cost); ("operation_type", VStr operation_type);
               ("timestamp", VTime now);
               ("daily_total", VNum (daily_cost self));
               ("hourly_total", VNum (hourly_cost self))] with
      | Raise _ => self
      | Ok _ =>
          if emergency_threshold self <? daily_cost self
          then _trigger_emergency_shutdown now (ThresholdExceeded (daily_cost self)) self
          else self
      end
  end.

Inductive ResetReason : Type :=
| InvalidAdministrativeKey
| ResetSuccessfully
| ResetFailed (e : PyExc).

Record ResetResult : Type := mkReset { success : bool; reset_reason : ResetReason }.

Definition ADMIN_KEY : string := "admin_reset_key_placeholder".

Definition reset_circuit_breaker (now : datetime) (admin_key reason : string)
    (self : Breaker) : ResetResult * Breaker :=
  if negb (String.eqb admin_key ADMIN_KEY) then
    (mkReset false InvalidAdministrativeKey, self)
  else
    let self := set_shutdown false None self in
    match call_mcp_tool "supabase" "log_admin_action"
            [("type", VStr "circuit_breaker_reset"); ("reason", VStr reason);
             ("timestamp", VTime now); ("admin_key_used", VBool true)] with
    | Ok _ => (mkReset true ResetSuccessfully, self)
    | Raise e => (mkReset false (ResetFailed e), self)
    end.

End WithMCP.

End CostBreaker.

(* ===================================================================== *)
(** * violation_tracker.py *)
(* ===================================================================== *)

Module Tracker.

Local Open Scope string_scope.
Local Open Scope list_scope.
Local Open Scope Z_scope.

Inductive ViolationSeverity : Type := LOW | MEDIUM | HIGH | CRITICAL.

Definition ViolationSeverity_value (s : ViolationSeverity) : string :=
  match s with
  | LOW => "low" | MEDIUM => "medium" | HIGH => "high" | CRITICAL => "critical"
  end.

(** [ViolationSeverity(text)]: the member with that value, or ValueError. *)
Definition ViolationSeverity_of (text : string) : Outcome ViolationSeverity :=
  if String.eqb text "low" then Ok LOW
  else if String.eqb text "medium" then Ok MEDIUM
  else if String.eqb text "high" then Ok HIGH
  else if String.eqb text "critical" then Ok CRITICAL
  else Raise (ValueError "not a valid ViolationSeverity").

Inductive EnforcementAction : Type :=
| WARNING
| CONTENT_BLOCK
| MESSAGING_RESTRICTION
| ACCOUNT_SUSPENSION
| PERMANENT_BAN
| ADMIN_ALERT.

Definition EnforcementAction_value (a : EnforcementAction) : string :=
  match a with
  | WARNING => "warning"
  | CONTENT_BLOCK => "content_block"
  | MESSAGING_RESTRICTION => "messaging_restriction"
  | ACCOUNT_SUSPENSION => "account_suspension"
  | PERMANENT_BAN => "permanent_ban"
  | ADMIN_ALERT => "admin_alert"
  end.

Definition EnforcementAction_of (text : string) : Outcome EnforcementAction :=
  if String.eqb text "warning" then Ok WARNING
  else if String.eqb text "content_block" then Ok CONTENT_BLOCK
  else if String.eqb text "messaging_restriction" then Ok MESSAGING_RESTRICTION
  else if String.eqb text "account_suspension" then Ok ACCOUNT_SUSPENSION
  else if String.eqb text "permanent_ban" then Ok PERMANENT_BAN
  else if String.eqb text "admin_alert" then Ok ADMIN_ALERT
  else Raise (ValueError "not a valid EnforcementAction").

Record ViolationRecord : Type := mkRecord {
  id : string;
  user_id : string;
  violation_type : string;
  severity : ViolationSeverity;
  content : string;
  detection_method : string;
  timestamp : datetime;
  action_taken : EnforcementAction;
  escalation_level : Z;
  resolved : bool
}.

Record UserViolationProfile : Type := mkProfile {
  p_user_id : string;
  total_violations : nat;
  p_escalation_level : Z;
  last_violation : option datetime;
  account_status : string;
  violations : list ViolationRecord
}.

(** Scalar values of Redis fields. *)
Inductive Val : Type :=
| VStr (s : string)
| VInt (z : Z)
| VBool (b : bool)
| VTime (t : datetime)
| VNone.

Definition Fields := list (string * Val).

(** Truth value of a field, as [if x:] reads it. *)
Definition truthy (v : Val) : bool :=
  match v with
  | VStr s => negb (String.eqb s "")
  | VInt z => negb (z =? 0)
  | VBool b => b
  | VTime _ => true
  | VNone => false
  end.

Fixpoint fields_get (k : string) (f : Fields) : option Val :=
  match f with
  | [] => None
  | (k', v) :: f' => if String.eqb k k' then Some v else fields_get k f'
  end.

(** A row of [security_violations] as the SELECT of
    [get_user_violation_profile] returns it.  The timestamp column is [None]
    when its text is not what [datetime.fromisoformat] accepts. *)
Record Row : Type := mkRow {
  row_id : string;
  row_violation_type : string;
  row_severity : string;
  row_action_taken : string;
  row_escalation_level : Z;
  row_timestamp : option datetime;
  row_resolved : bool
}.

(** The argument dictionaries of [mcp.call_tool], one constructor for each
    statement or command the tracker issues. *)
Inductive Request : Type :=
| SelectViolations (user_id : string)
| InsertViolation (violation : ViolationRecord)
| InsertBan (user_id reason : string) (banned_at : datetime) (permanent : bool)
| SelectTrends
| Xadd (stream : string) (fields : Fields)
| Hset (key : string) (fields : Fields)
| Expire (key : string) (seconds : Z)
| Hgetall (key : string).

(** What [mcp.call_tool] hands back. *)
Inductive Value : Type :=
| RNone
| RRows (rows : list Row)
| RHash (fields : Fields)
| ROther.

(** [if result:] *)
Definition value_truthy (v : Value) : bool :=
  match v with
  | RNone => false
  | RRows rows => match rows with [] => false | _ => true end
  | RHash f => match f with [] => false | _ => true end
  | ROther => true
  end.

Record Rule : Type := mkRule {
  action : EnforcementAction;
  duration_hours : option Z;
  description : string
}.

Definition escalation_rules : list (Z * Rule) :=
  [ (1, mkRule WARNING None "First violation - warning issued");
    (2, mkRule MESSAGING_RESTRICTION (Some 24)
               "Second violation - 24h messaging restriction");
    (3, mkRule ACCOUNT_SUSPENSION (Some 168)
               "Third violation - 1 week account suspension");
    (4, mkRule PERMANENT_BAN None "Fourth violation - permanent ban") ].

(** [self.escalation_rules[level]] *)
Fixpoint rules_lookup (rules : list (Z * Rule)) (level : Z) : Outcome Rule :=
  match rules with
  | [] => Raise (KeyError "escalation_rules")
  | (k, r) :: rules' => if k =? level then Ok r else rules_lookup rules' level
  end.

(** [max(self.escalation_rules.keys())] *)
Definition max_level : Z :=
  fold_left Z.max (map fst (tl escalation_rules)) (fst (hd (0, mkRule WARNING None "") escalation_rules)).

Definition severity_multipliers (s : ViolationSeverity) : Z :=
  match s with
  | LOW => 1
  | MEDIUM => 2
  | HIGH => 3
  | CRITICAL => 5
  end.

Record Metrics : Type := mkMetrics {
  violations_processed : Z;
  users_warned : Z;
  users_restricted : Z;
  users_suspended : Z;
  users_banned : Z;
  false_positives : Z
}.

Definition initial_metrics : Metrics := mkMetrics 0 0 0 0 0 0.

Definition _update_action_metrics (a : EnforcementAction) (m : Metrics) : Metrics :=
  match a with
  | WARNING =>
      mkMetrics (violations_processed m) (users_warned m + 1) (users_restricted m)
                (users_suspended m) (users_banned m) (false_positives m)
  | MESSAGING_RESTRICTION =>
      mkMetrics (violations_processed m) (users_warned m) (users_restricted m + 1)
                (users_suspended m) (users_banned m) (false_positives m)
  | ACCOUNT_SUSPENSION =>
      mkMetrics (violations_processed m) (users_warned m) (users_restricted m)
                (users_suspended m + 1) (users_banned m) (false_positives m)
  | PERMANENT_BAN =>
      mkMetrics (violations_processed m) (users_warned m) (users_restricted m)
                (users_suspended m) (users_banned m + 1) (false_positives m)
  | _ => m
  end.

(** ** Effects: the world behind the MCP tools *)

(** A computation that reads and changes the world behind the MCP tools and
    either returns or raises. *)
Definition M (W A : Type) : Type := W -> Outcome A * W.

Definition ret {W A} (a : A) : M W A := fun w => (Ok a, w).

Definition bind {W A B} (m : M W A) (k : A -> M W B) : M W B :=
  fun w => match m w with
           | (Ok a, w') => k a w'
           | (Raise e, w') => (Raise e, w')
           end.

Definition throw {W A} (e : PyExc) : M W A := fun w => (Raise e, w).

(** [try: m  except Exception as e: handler e] *)
Definition try_except {W A} (m : M W A) (handler : PyExc -> M W A) : M W A :=
  fun w => match m w with
           | (Ok a, w') => (Ok a, w')
           | (Raise e, w') => handler e w'
           end.

Definition lift {W A} (o : Outcome A) : M W A := fun w => (o, w).

Declare Scope monad_scope.
Delimit Scope monad_scope with monad.
Notation "x <- m ;; k" := (bind m (fun x => k))
  (at level 61, m at next level, right associativity) : monad_scope.
Notation "m ;;; k" := (bind m (fun _ => k))
  (at level 61, right associativity) : monad_scope.
Local Open Scope monad_scope.

(** What the tracker needs from outside the module: the MCP client, and the
    three methods it calls on itself that the class does not define. *)
Class Env (W : Type) : Type := {
  call_tool : string -> Request -> M W Value;
  _update_user_escalation_level : string -> Z -> M W unit;
  _block_content : ViolationRecord -> M W unit;
  _log_enforcement_action : ViolationRecord -> EnforcementAction -> M W unit
}.

Section WithEnv.
Context {W : Type} {env : Env W}.

(** [restriction and restriction.get(key)] as a condition; [.get] on
    something that is not a dictionary raises AttributeError. *)
Definition flag_set (v : Value) (key : string) : Outcome bool :=
  if value_truthy v then
    match v with
    | RHash f => Ok (match fields_get key f with Some x => truthy x | None => false end)
    | _ => Raise (AttributeError "get")
    end
  else Ok false.

Definition _get_account_status (user_id : string) (escalation_level : Z) : M W string :=
  try_except
    (restriction <- call_tool "redis" (Hgetall ("user:restrictions:" ++ user_id)) ;;
     r <- lift (flag_set restriction "restricted") ;;
     if (r : bool) then ret "restricted" else
     suspension <- call_tool "redis" (Hgetall ("user:suspension:" ++ user_id)) ;;
     s <- lift (flag_set suspension "suspended") ;;
     if (s : bool) then ret "suspended" else
     ban <- call_tool "redis" (Hgetall ("user:ban:" ++ user_id)) ;;
     b <- lift (flag_set ban "banned") ;;
     if (b : bool) then ret "banned" else ret "active")
    (fun _ => ret "unknown").

(** One turn of the loop over the rows of the history. *)
Definition row_record (user_id : string) (row : Row) : Outcome ViolationRecord :=
  match ViolationSeverity_of (row_severity row) with
  | Raise e => Raise e
  | Ok sev =>
      match row_timestamp row with
      | None => Raise (ValueError "Invalid isoformat string")
      | Some ts =>
          match EnforcementAction_of (row_action_taken row) with
          | Raise e => Raise e
          | Ok act =>
              Ok (mkRecord (row_id row) user_id (row_violation_type row) sev
                           "[STORED_CONTENT]" "stored" ts act
                           (row_escalation_level row) (row_resolved row))
          end
      end
  end.

(** The loop: records in order, the highest escalation level seen, the most
    recent timestamp. *)
Fixpoint scan_rows (user_id : string) (rows : list Row)
    (violations : list ViolationRecord) (current_escalation_level : Z)
    (last_violation : option datetime)
    : Outcome (list ViolationRecord * Z * option datetime) :=
  match rows with
  | [] => Ok (violations, current_escalation_level, last_violation)
  | row :: rows' =>
      match row_record user_id row with
      | Raise e => Raise e
      | Ok violation =>
          let level :=
            if current_escalation_level <? escalation_level violation
            then escalation_level violation else current_escalation_level in
          let last :=
            match last_violation with
            | None => Some (timestamp violation)
            | Some t => if t <? timestamp violation
                        then Some (timestamp violation) else Some t
            end in
          scan_rows user_id rows' (violations ++ [violation]) level last
      end
  end.

Definition default_profile (user_id : string) : UserViolationProfile :=
  mkProfile user_id 0%nat 0 None "active" [].

Definition get_user_violation_profile (user_id : string) : M W UserViolationProfile :=
  try_except
    (result <- call_tool "supabase" (SelectViolations user_id) ;;
     scanned <-
       (if value_truthy result then
          match result with
          | RRows rows => lift (scan_rows user_id rows [] 0 None)
          | _ => throw (TypeError "rows")
          end
        else ret ([], 0, None)) ;;
     let '(violations, current_escalation_level, last_violation) := scanned in
     account_status <- _get_account_status user_id current_escalation_level ;;
     ret (mkProfile user_id (List.length violations) current_escalation_level
                    last_violation account_status violations))
    (fun _ => ret (default_profile user_id)).

Definition _store_violation_record (violation : ViolationRecord) : M W bool :=
  try_except
    (call_tool "supabase" (InsertViolation violation) ;;; ret true)
    (fun _ => ret false).

Definition _send_warning_message (violation : ViolationRecord) : M W bool :=
  try_except
    (call_tool "redis"
       (Xadd "notifications:user_warnings"
          [("type", VStr "security_warning");
           ("user_id", VStr (user_id violation));
           ("title", VStr "Content Policy Violation Detected");
           ("violation_type", VStr (violation_type violation));
           ("detected", VTime (timestamp violation));
           ("violation_number", VInt (escalation_level violation));
           ("severity", VStr "warning")]) ;;;
     ret true)
    (fun _ => ret false).

(** [if duration_hours:] *)
Definition has_duration (duration_hours : option Z) : option Z :=
  match duration_hours with
  | Some h => if h =? 0 then None else Some h
  | None => None
  end.

Definition expiry (now : datetime) (duration_hours : option Z) : Val :=
  match has_duration duration_hours with
  | Some h => VTime (now + h * 3600000000)
  | None => VNone
  end.

Definition _restrict_messaging (now : datetime) (user_id : string)
    (duration_hours : option Z) : M W bool :=
  try_except
    (call_tool "redis"
       (Hset ("user:restrictions:" ++ user_id)
          [("restricted", VBool true);
           ("reason", VStr "contact_policy_violation");
           ("expires_at", expiry now duration_hours);
           ("restricted_at", VTime now)]) ;;;
     match has_duration duration_hours with
     | Some h =>
         call_tool "redis" (Expire ("user:restrictions:" ++ user_id) (h * 3600)) ;;;
         ret true
     | None => ret true
     end)
    (fun _ => ret false).

Definition _suspend_account (now : datetime) (user_id : string)
    (duration_hours : option Z) : M W bool :=
  try_except
    (call_tool "redis"
       (Hset ("user:suspension:" ++ user_id)
          [("suspended", VBool true);
           ("reason", VStr "repeated_contact_policy_violations");
           ("expires_at", expiry now duration_hours);
           ("suspended_at", VTime now)]) ;;;
     match has_duration duration_hours with
     | Some h =>
         call_tool "redis" (Expire ("user:suspension:" ++ user_id) (h * 3600)) ;;;
         ret true
     | None => ret true
     end)
    (fun _ => ret false).

Definition _ban_account_permanently (now : datetime) (user_id : string) : M W bool :=
  try_except
    (call_tool "redis"
       (Hset ("user:ban:" ++ user_id)
          [("banned", VBool true);
           ("reason", VStr "repeated_severe_contact_policy_violations");
           ("banned_at", VTime now);
           ("permanent", VBool true)]) ;;;
     call_tool "supabase"
       (InsertBan user_id "repeated_severe_contact_policy_violations" now true) ;;;
     ret true)
    (fun _ => ret false).

Definition _send_admin_alert (violation : ViolationRecord) : M W bool :=
  try_except
    (call_tool "redis"
       (Xadd "admin:security_alerts"
          [("type", VStr "high_severity_violation");
           ("user_id", VStr (user_id violation));
           ("violation_type", VStr (violation_type violation));
           ("severity", VStr (ViolationSeverity_value (severity violation)));
           ("escalation_level", VInt (escalation_level violation));
           ("action_taken", VStr (EnforcementAction_value (action_taken violation)));
           ("timestamp", VTime (timestamp violation));
           ("requires_review",
            VBool (match severity violation with CRITICAL => true | _ => false end))]) ;;;
     ret true)
    (fun _ => ret false).

Definition _apply_enforcement_action (now : datetime) (violation : ViolationRecord)
    (user_profile : UserViolationProfile) : M W bool :=
  try_except
    (rule <- lift (rules_lookup escalation_rules (escalation_level violation)) ;;
     let duration_hours := duration_hours rule in
     match action_taken violation with
     | WARNING => _send_warning_message violation ;;; ret tt
     | CONTENT_BLOCK => _block_content violation
     | MESSAGING_RESTRICTION =>
         _restrict_messaging now (user_id violation) duration_hours ;;; ret tt
     | ACCOUNT_SUSPENSION =>
         _suspend_account now (user_id violation) duration_hours ;;; ret tt
     | PERMANENT_BAN => _ban_account_permanently now (user_id violation) ;;; ret tt
     | ADMIN_ALERT => ret tt
     end ;;;
     _log_enforcement_action violation (action_taken violation) ;;;
     ret true)
    (fun _ => ret false).

(** The escalation step of [process_violation]: add the severity points to
    the profile's level and cap at the highest rung. *)
Definition new_escalation_level (user_profile : UserViolationProfile)
    (severity : ViolationSeverity) : Z :=
  Z.min (p_escalation_level user_profile + severity_multipliers severity) max_level.

(** [process_violation]; [uuid] is the text of [uuid.uuid4()], [now] the
    clock, [self] the tracker's metrics.  The [except] clause logs and
    re-raises, so a raised exception simply passes through. *)
Definition process_violation (uuid : string) (now : datetime) (self : Metrics)
    (user_id violation_type content : string) (severity : ViolationSeverity)
    (detection_method : string) : M W (ViolationRecord * Metrics) :=
  user_profile <- get_user_violation_profile user_id ;;
  let new_escalation_level := new_escalation_level user_profile severity in
  rule <- lift (rules_lookup escalation_rules new_escalation_level) ;;
  let violation_record :=
    mkRecord uuid user_id violation_type severity (String.substring 0 500 content)
             detection_method now (action rule) new_escalation_level false in
  _store_violation_record violation_record ;;;
  _apply_enforcement_action now violation_record user_profile ;;;
  _update_user_escalation_level user_id new_escalation_level ;;;
  match severity with
  | HIGH | CRITICAL => _send_admin_alert violation_record ;;; ret tt
  | _ => ret tt
  end ;;;
  let self :=
    mkMetrics (violations_processed self + 1) (users_warned self)
              (users_restricted self) (users_suspended self) (users_banned self)
              (false_positives self) in
  let self := _update_action_metrics (action_taken violation_record) self in
  ret (violation_record, self).

End WithEnv.

(** [class MCPClient] of the module: [call_tool] is a bare [pass]. *)
Definition MCPClient_call_tool {W} (tool_name : string) (args : Request) : M W Value :=
  ret RNone.

(** [self.name(...)] for a method the class does not define: the attribute
    lookup raises AttributeError before anything is called. *)
Definition undefined_method {W A} (name : string) : M W A :=
  throw (AttributeError ("'ViolationTracker' object has no attribute '" ++ name ++ "'")).

(** [ViolationTracker] as the module has it, over an MCP client.
    [_update_user_escalation_level], [_block_content] and
    [_log_enforcement_action] are called on [self] (lines 158, 291 and 303)
    and defined nowhere, in the class or in the repository. *)
Definition ViolationTracker_env {W} (call_tool : string -> Request -> M W Value) : Env W := {|
  call_tool := call_tool;
  _update_user_escalation_level _ _ := undefined_method "_update_user_escalation_level";
  _block_content _ := undefined_method "_block_content";
  _log_enforcement_action _ _ := undefined_method "_log_enforcement_action"
|}.

End Tracker.

(* ===================================================================== *)
(** * contact_filter.py *)
(* ===================================================================== *)

Module Filter.

Local Open Scope char_scope.
Local Open Scope list_scope.

(** ** Text

    A Python [str] is a sequence of code points.  The embedding covers the
    code points below 256, one [ascii] each, where the Unicode tables behind
    [\d], [\w], [\s], [str.lower] and [str.strip] are the short ones written
    out below; a statement about every text is a statement about every text
    of such code points. *)
Definition str := list ascii.

Definition py (s : string) : str := list_ascii_of_string s.

Definition code (c : ascii) : N := N_of_ascii c.

Definition between (lo hi : N) (c : ascii) : bool :=
  (lo <=? code c)%N && (code c <=? hi)%N.

(** [\d]: decimal digits. *)
Definition is_digit (c : ascii) : bool := between 48 57 c.

(** [str.isalnum] below 256. *)
Definition is_alnum (c : ascii) : bool :=
  between 48 57 c || between 65 90 c || between 97 122 c
  || (code c =? 170)%N || between 178 179 c || (code c =? 181)%N
  || between 185 186 c || between 188 190 c
  || between 192 214 c || between 216 246 c || between 248 255 c.

(** [\w]: alphanumeric or underscore. *)
Definition is_word (c : ascii) : bool := is_alnum c || (code c =? 95)%N.

(** [\s] and [str.isspace] below 256. *)
Definition is_space (c : ascii) : bool :=
  between 9 13 c || between 28 32 c || (code c =? 133)%N || (code c =? 160)%N.

Definition is_upper (c : ascii) : bool :=
  between 65 90 c || between 192 214 c || between 216 222 c.

Definition is_lower_cased (c : ascii) : bool :=
  between 97 122 c || between 224 246 c || between 248 254 c.

(** One character of [str.lower].  Below 256 a code point lowers to one
    code point: the capitals add 32, everything else (the multiplication
    sign, the sharp s and the micro sign included) stays. *)
Definition lower_char (c : ascii) : ascii :=
  if is_upper c then ascii_of_N (code c + 32) else c.

(** The other case of a cased character. *)
Definition swapcase (c : ascii) : ascii :=
  if is_upper c then ascii_of_N (code c + 32)
  else if is_lower_cased c then ascii_of_N (code c - 32)
  else c.

(** [str.lower] on the texts of the embedding.  That the result has the
    length of the text is a fact of these texts only: on a text with U+0130,
    which lowers to two code points, [content.lower()] is longer than
    [content].  [scan_content] takes the spans of the intent layer on
    [content.lower()] and applies them to [content]; the embedding does the
    same, and no statement below rests on the two having one length. *)
Definition lower (s : str) : str := map lower_char s.

Fixpoint lstrip (s : str) : str :=
  match s with
  | c :: s' => if is_space c then lstrip s' else s
  | [] => []
  end.

(** [str.strip()] *)
Definition strip (s : str) : str := rev (lstrip (rev (lstrip s))).

(** [s.split(sep)] for a one-character separator. *)
Fixpoint split_on (sep : ascii) (s : str) : list str :=
  match s with
  | [] => [[]]
  | c :: s' =>
      if Ascii.eqb c sep then [] :: split_on sep s'
      else match split_on sep s' with
           | piece :: pieces => (c :: piece) :: pieces
           | [] => [[c]]
           end
  end.

Fixpoint starts_with (p s : str) : bool :=
  match p, s with
  | [], _ => true
  | _ :: _, [] => false
  | a :: p', b :: s' => Ascii.eqb a b && starts_with p' s'
  end.

(** [p in s] *)
Fixpoint contains (p s : str) : bool :=
  starts_with p s ||
  match s with
  | [] => false
  | _ :: s' => contains p s'
  end.

(** ** Regular expressions: the fragment of [re] the pattern tables use *)

Inductive item : Type :=
| Lit (c : ascii)
| Range (lo hi : ascii)
| Digit
| Word
| Space.

(** One character: a literal, an escape class, or a bracketed set. *)
Record cset : Type := mkSet { negated : bool; items : list item }.

Inductive regex : Type :=
| Eps
| One (cs : cset)
| Seq (r1 r2 : regex)
| Alt (r1 r2 : regex)
| Rep (cs : cset) (lo : nat) (hi : option nat)
| Opt (r : regex)
| WordB
| Fail.

Definition item_match (i : item) (c : ascii) : bool :=
  match i with
  | Lit x => Ascii.eqb c x
  | Range lo hi => between (code lo) (code hi) c
  | Digit => is_digit c
  | Word => is_word c
  | Space => is_space c
  end.

(** Membership under [re.IGNORECASE]: either case of the character may be
    listed; negation applies to the outcome. *)
Definition cset_match (cs : cset) (c : ascii) : bool :=
  xorb (negated cs)
       (existsb (fun i => item_match i c || item_match i (swapcase c)) (items cs)).

Definition word_at (c : option ascii) : bool :=
  match c with Some x => is_word x | None => false end.

(** The matcher is a backtracking one in continuation style: [k prev rest]
    is what remains to be matched, [prev] the character before the current
    position.  Alternatives are tried in order and repetitions are greedy,
    so the first success is the match [re] reports. *)
Definition cont := option ascii -> str -> option str.

Fixpoint rep (cs : cset) (lo : nat) (hi : option nat) (prev : option ascii) (s : str)
    (k : cont) : option str :=
  let stop := match lo with O => k prev s | S _ => None end in
  match s with
  | c :: s' =>
      if cset_match cs c && match hi with Some O => false | _ => true end
      then match rep cs (pred lo) (option_map pred hi) (Some c) s' k with
           | Some r => Some r
           | None => stop
           end
      else stop
  | [] => stop
  end.

Fixpoint run (r : regex) (prev : option ascii) (s : str) (k : cont) : option str :=
  match r with
  | Eps => k prev s
  | One cs =>
      match s with
      | c :: s' => if cset_match cs c then k (Some c) s' else None
      | [] => None
      end
  | Seq r1 r2 => run r1 prev s (fun prev' s' => run r2 prev' s' k)
  | Alt r1 r2 =>
      match run r1 prev s k with
      | Some x => Some x
      | None => run r2 prev s k
      end
  | Rep cs lo hi => rep cs lo hi prev s k
  | Opt r1 =>
      match run r1 prev s k with
      | Some x => Some x
      | None => k prev s
      end
  | WordB => if xorb (word_at prev) (word_at (hd_error s)) then k prev s else None
  | Fail => None
  end.

(** The length of the match of [r] at the head of [s], if there is one. *)
Definition match_here (r : regex) (prev : option ascii) (s : str) : option nat :=
  match run r prev s (fun _ rest => Some rest) with
  | Some rest => Some (List.length s - List.length rest)
  | None => None
  end.

(** [re.finditer]: the spans of the successive leftmost matches, from
    position [pos] on; [skip] characters still belong to the last match. *)
Fixpoint finditer_from (r : regex) (skip : nat) (prev : option ascii) (pos : nat)
    (s : str) : list (nat * nat) :=
  match s with
  | [] =>
      match skip, match_here r prev [] with
      | O, Some _ => [(pos, pos)]
      | _, _ => []
      end
  | c :: s' =>
      match skip with
      | S n => finditer_from r n (Some c) (S pos) s'
      | O =>
          match match_here r prev s with
          | Some len =>
              (pos, pos + len) :: finditer_from r (pred len) (Some c) (S pos) s'
          | None => finditer_from r 0 (Some c) (S pos) s'
          end
      end
  end.

Definition finditer (r : regex) (s : str) : list (nat * nat) :=
  finditer_from r 0 None 0 s.

(** [s[start:end]] *)
Definition slice (s : str) (start stop : nat) : str :=
  firstn (stop - start) (skipn start s).

(** ** Reading a pattern *)

Definition escape_item (c : ascii) : item :=
  match c with
  | "d" => Digit
  | "w" => Word
  | "s" => Space
  | _ => Lit c
  end.

Fixpoint parse_items (s : str) (acc : list item) : option (list item * str) :=
  match s with
  | [] => None
  | "]" :: s' => Some (rev acc, s')
  | "\" :: s' =>
      match s' with
      | c :: s'' => parse_items s'' (escape_item c :: acc)
      | [] => None
      end
  | c :: s' =>
      match s' with
      | "-" :: d :: s'' =>
          if Ascii.eqb d "]" then parse_items s' (Lit c :: acc)
          else if Ascii.eqb d "\" then None
          else parse_items s'' (Range c d :: acc)
      | _ => parse_items s' (Lit c :: acc)
      end
  end.

Definition parse_set (s : str) : option (regex * str) :=
  match s with
  | "^" :: s' =>
      match parse_items s' [] with
      | Some (its, rest) => Some (One (mkSet true its), rest)
      | None => None
      end
  | _ =>
      match parse_items s [] with
      | Some (its, rest) => Some (One (mkSet false its), rest)
      | None => None
      end
  end.

Fixpoint parse_nat (s : str) (acc : nat) : nat * str :=
  match s with
  | c :: s' =>
      if is_digit c then parse_nat s' (10 * acc + (N.to_nat (code c) - 48))
      else (acc, s)
  | [] => (acc, s)
  end.

(** A quantifier after the atom [a].  Counted and starred repetition is
    read for one-character atoms, the question mark for any atom. *)
Definition parse_quant (a : regex) (s : str) : option (regex * str) :=
  match s with
  | "?" :: s' =>
      Some (match a with One cs => Rep cs 0 (Some 1) | _ => Opt a end, s')
  | "*" :: s' =>
      match a with One cs => Some (Rep cs 0 None, s') | _ => None end
  | "+" :: s' =>
      match a with One cs => Some (Rep cs 1 None, s') | _ => None end
  | "{" :: s' =>
      match a with
      | One cs =>
          let (lo, s1) := parse_nat s' 0 in
          match s1 with
          | "}" :: s2 => Some (Rep cs lo (Some lo), s2)
          | "," :: "}" :: s2 => Some (Rep cs lo None, s2)
          | "," :: s2 =>
              let (hi, s3) := parse_nat s2 0 in
              match s3 with
              | "}" :: s4 => Some (Rep cs lo (Some hi), s4)
              | _ => None
              end
          | _ => None
          end
      | _ => None
      end
  | _ => Some (a, s)
  end.

Definition literal (c : ascii) : regex := One (mkSet false [Lit c]).

Definition parse_escape (c : ascii) : regex :=
  match c with
  | "b" => WordB
  | "d" => One (mkSet false [Digit])
  | "w" => One (mkSet false [Word])
  | "s" => One (mkSet false [Space])
  | _ => literal c
  end.

Fixpoint parse_alt (fuel : nat) (s : str) : option (regex * str) :=
  match fuel with
  | O => None
  | S fuel' =>
      match parse_seq fuel' s with
      | Some (r1, "|" :: s') =>
          match parse_alt fuel' s' with
          | Some (r2, s'') => Some (Alt r1 r2, s'')
          | None => None
          end
      | other => other
      end
  end
with parse_seq (fuel : nat) (s : str) : option (regex * str) :=
  match fuel with
  | O => None
  | S fuel' =>
      match s with
      | [] => Some (Eps, [])
      | "|" :: _ => Some (Eps, s)
      | ")" :: _ => Some (Eps, s)
      | _ =>
          match parse_atom fuel' s with
          | Some (a, s1) =>
              match parse_quant a s1 with
              | Some (q, s2) =>
                  match parse_seq fuel' s2 with
                  | Some (Eps, s3) => Some (q, s3)
                  | Some (r, s3) => Some (Seq q r, s3)
                  | None => None
                  end
              | None => None
              end
          | None => None
          end
      end
  end
with parse_atom (fuel : nat) (s : str) : option (regex * str) :=
  match fuel with
  | O => None
  | S fuel' =>
      match s with
      | "(" :: "?" :: ":" :: s' =>
          match parse_alt fuel' s' with
          | Some (r, ")" :: s'') => Some (r, s'')
          | _ => None
          end
      | "[" :: s' => parse_set s'
      | "\" :: c :: s' => Some (parse_escape c, s')
      | "(" :: _ | ")" :: _ | "*" :: _ | "+" :: _ | "?" :: _ | "{" :: _
      | "." :: _ | "^" :: _ | "$" :: _ | "|" :: _ => None
      | c :: s' => Some (literal c, s')
      | [] => None
      end
  end.

(** [re.compile(pattern, re.IGNORECASE)]; a pattern outside the fragment
    compiles to [Fail] (the tables contain none, see [all_patterns_compile]). *)
Definition compile (pattern : string) : regex :=
  match parse_alt (3 * String.length pattern + 3) (py pattern) with
  | Some (r, []) => r
  | _ => Fail
  end.

Definition compiles (pattern : string) : bool :=
  match parse_alt (3 * String.length pattern + 3) (py pattern) with
  | Some (_, []) => true
  | _ => false
  end.

(** ** The pattern tables *)

Local Open Scope string_scope.
Local Open Scope list_scope.

Definition phone_patterns : list string :=
  [ "\b\d{3}[-.]?\d{3}[-.]?\d{4}\b";
    "\(\d{3}\)\s*\d{3}[-.]?\d{4}";
    "\b\d{3}\s+\d{3}\s+\d{4}\b";
    "\+1[-.\s]?\d{3}[-.\s]?\d{3}[-.\s]?\d{4}";
    "\+\d{1,3}[-.\s]?\d{3,4}[-.\s]?\d{3,4}[-.\s]?\d{3,4}";
    "\b\d{3}[^\d\w]{1,3}\d{3}[^\d\w]{1,3}\d{4}\b";
    "(?:call|text|phone)[\s:]*\d{3}";
    "(?:five|six|seven|eight|nine)[\s-]*(?:zero|one|two|three|four|five|six|seven|eight|nine)[\s-]*(?:zero|one|two|three|four|five|six|seven|eight|nine)";
    (* the source lists two more members in each class, the keycap code
       points U+FE0F and U+20E3, which no text below 256 contains *)
    "[0-9]{3,}[-\s]*[0-9]{3,}[-\s]*[0-9]{3,}";
    "\d\s+\d\s+\d\s+[-\s]*\d\s+\d\s+\d\s+[-\s]*\d\s+\d\s+\d\s+\d";
    "\d{3}[^\w\s]\d{3}[^\w\s]\d{4}" ].

Definition email_patterns : list string :=
  [ "\b[A-Za-z0-9._%+-]+@[A-Za-z0-9.-]+\.[A-Z|a-z]{2,}\b";
    "\b[A-Za-z0-9._%+-]+\s*\[?at\]?\s*[A-Za-z0-9.-]+\s*\[?dot\]?\s*[A-Z|a-z]{2,}\b";
    "\b[A-Za-z0-9._%+-]+\s*@\s*[A-Za-z0-9.-]+\s*\.\s*[A-Z|a-z]{2,}\b";
    "(?:email|gmail|yahoo|hotmail|outlook)[\s:]*[A-Za-z0-9._%+-]+";
    "\b[A-Za-z0-9._%+-]+\s+at\s+[A-Za-z0-9.-]+\s+dot\s+[A-Z|a-z]{2,}\b";
    "\b[A-Za-z0-9._%+-]+\s*\[at\]\s*[A-Za-z0-9.-]+\s*\[dot\]\s*[A-Z|a-z]{2,}\b" ].

Definition social_patterns : list string :=
  [ "@[A-Za-z0-9_]+";
    "(?:instagram|facebook|twitter|linkedin|snapchat|tiktok)[\s:/@]*[A-Za-z0-9._]+";
    "(?:find|follow|add|connect)\s+me\s+on\s+(?:instagram|facebook|twitter|linkedin)";
    "(?:fb|ig|twitter|linkedin)[\s:]*[A-Za-z0-9._]+";
    "(?:dm|message)\s+me\s+on" ].

Definition intent_patterns : list string :=
  [ "(?:call|text|email|contact|reach)\s+me\s+(?:at|on|directly)";
    "(?:my|the)\s+(?:number|phone|cell|email|contact)";
    "(?:give|send)\s+me\s+(?:your|a)\s+(?:call|text|email|number)";
    "let[\'s]*\s+(?:talk|chat|discuss)\s+(?:offline|directly|outside|privately)";
    "(?:bypass|skip|avoid)\s+(?:the\s+)?platform";
    "(?:direct|personal|private)\s+(?:contact|communication)";
    "(?:take\s+this\s+)?(?:offline|outside)";
    "(?:whatsapp|telegram|signal|discord|messenger)\s+me";
    "(?:send|share)\s+(?:your|my)\s+(?:contact|info|details)";
    "(?:meet|talk)\s+(?:outside|away\s+from)\s+(?:here|platform)";
    "(?:continue\s+)?(?:conversation|discussion)\s+(?:elsewhere|privately)" ].

Definition obfuscation_patterns : list string :=
  [ "(?:zero|one|two|three|four|five|six|seven|eight|nine)[\s-]*(?:zero|one|two|three|four|five|six|seven|eight|nine)";
    "\d\s*[\-\.]*\s*\d\s*[\-\.]*\s*\d";
    "[0-9]\s*[^\w\s]\s*[0-9]";
    "(?:gmail|yahoo|hotmail)\s+(?:dot|period)\s+(?:com|org|net)";
    "phone\s*(?:number\s*)?(?:is\s*)?[:]*\s*\d";
    "(?:call|text)\s+(?:me\s+)?(?:at\s+)?\d";
    "\d+[^\w\d\s]+\d+[^\w\d\s]+\d+" ].

(** ** Violations and results *)

(** A violation dictionary.  The pattern layers fill [v_pattern] and
    [v_position]; the sentence layer fills [v_analysis] instead. *)
Record Violation : Type := mkViolation {
  v_type : string;
  v_pattern : option string;
  v_match : str;
  v_position : option (nat * nat);
  v_confidence : float;
  v_analysis : option string
}.

Record ScanResult : Type := mkResult {
  violations_found : bool;
  violation_types : list string;
  detected_patterns : list Violation;
  confidence_scores : list (string * float);
  user_id : string;
  content_original : str;
  content_filtered : str;
  risk_level : string;
  scan_timestamp : datetime
}.

(** The loop shared by [_detect_phones], [_detect_emails] and
    [_detect_contact_intent]: every pattern in turn, every match of it. *)
Definition detect_with (type : string) (confidence : float) (patterns : list string)
    (content : str) : list Violation :=
  flat_map
    (fun pattern =>
       map (fun span : nat * nat =>
              mkViolation type (Some pattern) (slice content (fst span) (snd span))
                          (Some span) confidence None)
           (finditer (compile pattern) content))
    patterns.

Definition _detect_phones (content : str) : list Violation :=
  detect_with "phone_number" 0.95%float phone_patterns content.

Definition _detect_emails (content : str) : list Violation :=
  detect_with "email_address" 0.90%float email_patterns content.

Definition _detect_contact_intent (content : str) : list Violation :=
  detect_with "contact_intent" 0.85%float intent_patterns content.

Definition any_in (needles : list string) (sentence : str) : bool :=
  existsb (fun n => contains (py n) sentence) needles.

Definition _analyze_context (content : str) (user_id : string)
    (context : option (list (string * string))) : list Violation :=
  flat_map
    (fun sentence =>
       let sentence := lower (strip sentence) in
       (if any_in ["call me"; "text me"; "email me"; "contact me"] sentence
        then [mkViolation "contact_imperative" None sentence None 0.85%float
                          (Some "imperative_contact_request")]
        else [])
       ++
       (if any_in ["my number is"; "email me at"; "reach me at"] sentence
        then [mkViolation "contact_provision" None sentence None 0.90%float
                          (Some "providing_contact_info")]
        else []))
    (split_on "."%char content).

Definition _get_replacement_text (violation_type : string) : string :=
  if String.eqb violation_type "phone_number" then "[PHONE NUMBER BLOCKED]"
  else if String.eqb violation_type "email_address" then "[EMAIL BLOCKED]"
  else if String.eqb violation_type "social_media" then "[SOCIAL MEDIA BLOCKED]"
  else if String.eqb violation_type "contact_intent" then "[CONTACT REQUEST BLOCKED]"
  else if String.eqb violation_type "contact_provision" then "[CONTACT INFO BLOCKED]"
  else if String.eqb violation_type "contact_imperative" then "[CONTACT REQUEST BLOCKED]"
  else "[CONTACT INFO BLOCKED]".

Definition start_of (v : Violation) : nat :=
  match v_position v with Some (start, _) => start | None => 0 end.

(** [sorted(..., key=start, reverse=True)]: descending, and stable, so
    violations with the same start keep their order. *)
Fixpoint insert_sorted (v : Violation) (l : list Violation) : list Violation :=
  match l with
  | [] => [v]
  | x :: l' =>
      if (start_of v <=? start_of x)%nat then x :: insert_sorted v l' else v :: l
  end.

Definition sorted_reverse (l : list Violation) : list Violation :=
  fold_left (fun acc v => insert_sorted v acc) l [].

Definition has_position (v : Violation) : bool :=
  match v_position v with Some _ => true | None => false end.

Definition _apply_content_filtering (content : str) (violations : list Violation) : str :=
  let violations_sorted := sorted_reverse (filter has_position violations) in
  fold_left
    (fun filtered_content violation =>
       match v_position violation with
       | Some (start, stop) =>
           firstn start filtered_content
           ++ py (_get_replacement_text (v_type violation))
           ++ skipn stop filtered_content
       | None => filtered_content
       end)
    violations_sorted content.

Definition type_in (types : list string) (v : Violation) : bool :=
  existsb (String.eqb (v_type v)) types.

Definition _calculate_risk_level (violations : list Violation) : string :=
  match violations with
  | [] => "low"
  | _ =>
      if existsb (type_in ["phone_number"; "email_address"; "contact_provision"]) violations
      then "high"
      else if existsb (type_in ["contact_intent"; "contact_imperative"]) violations
      then "medium"
      else "low"
  end.

(** [list(set(types))]: each type once (Python leaves the order open; the
    order of first occurrence is used here). *)
Fixpoint distinct (l : list string) : list string :=
  match l with
  | [] => []
  | x :: l' => x :: filter (fun y => negb (String.eqb x y)) (distinct l')
  end.

(** The two detectors [scan_content] calls on [self] (lines 172 and 178).
    A call returns the violations found or raises. *)
Class Detectors : Type := {
  _detect_social_media : str -> Outcome (list Violation);
  _detect_obfuscation : str -> Outcome (list Violation)
}.

(** What a caller may pass for [content]. *)
Inductive PyVal : Type :=
| PyStr (s : str)
| PyBytes (b : list ascii)
| PyInt (z : Z)
| PyNone.

Section WithDetectors.
Context {detectors : Detectors}.

(** The body of [scan_content] for a [str], in the order of the source:
    the phone and e-mail layers, then [_detect_social_media], the intent
    layer, [_detect_obfuscation], the sentence layer, and the result.
    There is no [try] around any of it, so what a layer raises leaves the
    function.  [_log_violation] catches whatever its MCP calls raise and
    touches nothing of the result. *)
Definition scan_text (now : datetime) (content : str) (user_id : string)
    (context : option (list (string * string))) : Outcome ScanResult :=
  let content_lower := lower content in
  let phone_violations := _detect_phones content in
  let email_violations := _detect_emails content in
  match _detect_social_media content with
  | Raise e => Raise e
  | Ok social_violations =>
      let intent_violations := _detect_contact_intent content_lower in
      match _detect_obfuscation content_lower with
      | Raise e => Raise e
      | Ok obfuscation_violations =>
          let context_violations := _analyze_context content user_id context in
          let all_violations :=
            phone_violations ++ email_violations ++ social_violations ++
            intent_violations ++ obfuscation_violations ++ context_violations in
          Ok match all_violations with
             | [] => mkResult false [] [] [] user_id content content "low" now
             | _ =>
                 mkResult true (distinct (map v_type all_violations)) all_violations []
                          user_id content
                          (_apply_content_filtering content all_violations)
                          (_calculate_risk_level all_violations) now
             end
      end
  end.

(** [scan_content]: [content.lower()] exists on [str] and [bytes] only, and
    a [str] pattern cannot search [bytes]. *)
Definition scan_content (now : datetime) (content : PyVal) (user_id : string)
    (context : option (list (string * string))) : Outcome ScanResult :=
  match content with
  | PyStr s => scan_text now s user_id context
  | PyBytes _ => Raise (TypeError "cannot use a string pattern on a bytes-like object")
  | PyInt _ => Raise (AttributeError "'int' object has no attribute 'lower'")
  | PyNone => Raise (AttributeError "'NoneType' object has no attribute 'lower'")
  end.

End WithDetectors.

(** [self.name(...)] for a method [ContactProtectionFilter] does not define:
    the attribute lookup raises AttributeError. *)
Definition undefined_detector (name : string) : PyExc :=
  AttributeError ("'ContactProtectionFilter' object has no attribute '" ++ name ++ "'").

(** [ContactProtectionFilter] as the module has it: [_detect_social_media]
    and [_detect_obfuscation] are defined nowhere, in the class or in the
    repository (the tables [social_patterns] and [obfuscation_patterns] are
    initialised and never read). *)
#[export] Instance ContactProtectionFilter_detectors : Detectors := {|
  _detect_social_media _ := Raise (undefined_detector "_detect_social_media");
  _detect_obfuscation _ := Raise (undefined_detector "_detect_obfuscation")
|}.

End Filter.

(* ===================================================================== *)
(** * Callers and concrete breakers *)
(* ===================================================================== *)

Module CostBreakerScenarios.
Import CostBreaker.

Local Open Scope string_scope.
Local Open Scope list_scope.
Local Open Scope float_scope.

(** A caller's view of the breaker: the three public operations, each with
    the MCP client and the clock of the moment it is made. *)
Inductive Call : Type :=
| DoCheck (mcp : MCP) (now : datetime) (estimated_cost : float)
        (operation_type : string) (context : Params)
| DoRecord (mcp : MCP) (now : datetime) (actual_cost : float) (operation_type : string)
| DoReset (mcp : MCP) (now : datetime) (admin_key reason : string).

Definition step (c : Call) (b : Breaker) : Breaker :=
  match c with
  | DoCheck mcp now est op ctx => snd (check_cost_approval (mcp := mcp) now est op ctx b)
  | DoRecord mcp now cost op => record_actual_cost (mcp := mcp) now cost op b
  | DoReset mcp now key why => snd (reset_circuit_breaker (mcp := mcp) now key why b)
  end.

Definition run (calls : list Call) (b : Breaker) : Breaker :=
  fold_left (fun b c => step c b) calls b.

(** A reset made with the administrative key. *)
Definition authorized (c : Call) : bool :=
  match c with
  | DoReset _ _ key _ => String.eqb key ADMIN_KEY
  | _ => false
  end.

(** The configured limits of a breaker. *)
Definition limits (b : Breaker) : float * float * float * float :=
  (daily_limit b, per_event_limit b, hourly_limit b, emergency_threshold b).

(** The committed totals of a breaker. *)
Definition totals (b : Breaker) : float * float := (daily_cost b, hourly_cost b).

(** A stand-in for the MCP client whose cost store reports [d] as the
    day's figure and acknowledges everything else. *)
Definition cost_store_reporting (d : float) : MCP := {|
  call_mcp_tool tool_name operation params :=
    if String.eqb tool_name "redis" && String.eqb operation "get_daily_cost"
    then Ok (mkReply (Some "success") (Some d) None None None)
    else Ok (reply_status "success")
|}.

(** [CostCircuitBreaker(daily_limit=100, per_event_limit=50,
    emergency_threshold=150)] built at the epoch. *)
Definition breaker_150 : Breaker := init 0 100 50 default_hourly_limit 150.

(** [CostCircuitBreaker(daily_limit=130, per_event_limit=50,
    emergency_threshold=150)] built at the epoch. *)
Definition breaker_130_150 : Breaker := init 0 130 50 default_hourly_limit 150.

(** [CostCircuitBreaker(daily_limit=100, per_event_limit=5)] built at the
    epoch. *)
Definition breaker_5_100 : Breaker :=
  init 0 100 5 default_hourly_limit default_emergency_threshold.

(** The same limits with the emergency threshold at 120. *)
Definition breaker_5_100_120 : Breaker := init 0 100 5 default_hourly_limit 120.

Definition one_day : datetime := 86400000000%Z.

(** A stand-in for the MCP client whose audit log cannot be written. *)
Definition admin_log_down : MCP := {|
  call_mcp_tool tool_name operation params :=
    if String.eqb operation "log_admin_action"
    then Raise (ConnectionError "supabase")
    else call_mcp_tool (MCP := MCPCostBreaker) tool_name operation params
|}.

End CostBreakerScenarios.

(* ===================================================================== *)
(** * A reference world for the tracker *)
(* ===================================================================== *)

Module TrackerScenarios.
Import Tracker.

Local Open Scope string_scope.
Local Open Scope list_scope.
Local Open Scope Z_scope.
Local Open Scope monad_scope.

(** Modelled from the spec: the Persistent Store and the Event Bus behind
    the MCP tools (section 6), which the repository leaves to the MCP
    servers.  The table keeps the inserted violation records, Redis keeps
    hashes and streams, and [fails] is the set of requests the servers
    refuse, as a fault plan. *)
Record Store : Type := mkStore {
  security_violations : list ViolationRecord;
  user_bans : list string;
  hashes : list (string * Fields);
  streams : list (string * Fields);
  fails : string -> Request -> bool
}.

Definition empty_store (fails : string -> Request -> bool) : Store :=
  mkStore [] [] [] [] fails.

Definition row_of (v : ViolationRecord) : Row :=
  mkRow (id v) (violation_type v) (ViolationSeverity_value (severity v))
        (EnforcementAction_value (action_taken v)) (escalation_level v)
        (Some (timestamp v)) (resolved v).

(** ORDER BY timestamp DESC *)
Fixpoint insert_desc (v : ViolationRecord) (l : list ViolationRecord) : list ViolationRecord :=
  match l with
  | [] => [v]
  | x :: l' => if timestamp x <? timestamp v then v :: l else x :: insert_desc v l'
  end.

Definition order_desc (l : list ViolationRecord) : list ViolationRecord :=
  fold_right insert_desc [] l.

Fixpoint hash_lookup (key : string) (h : list (string * Fields)) : Fields :=
  match h with
  | [] => []
  | (k, f) :: h' => if String.eqb k key then f else hash_lookup key h'
  end.

Definition store_call_tool (tool_name : string) (args : Request) : M Store Value :=
  fun s =>
    if fails s tool_name args then (Raise (ConnectionError tool_name), s) else
    match args with
    | SelectViolations uid =>
        (Ok (RRows (map row_of
                      (firstn 50
                         (order_desc
                            (filter (fun v => String.eqb (user_id v) uid)
                                    (security_violations s)))))), s)
    | InsertViolation v =>
        (Ok RNone,
         mkStore (security_violations s ++ [v]) (user_bans s) (hashes s) (streams s)
                 (fails s))
    | InsertBan uid _ _ _ =>
        (Ok RNone,
         mkStore (security_violations s) (uid :: user_bans s) (hashes s) (streams s)
                 (fails s))
    | SelectTrends => (Ok (RRows []), s)
    | Xadd stream fields =>
        (Ok RNone,
         mkStore (security_violations s) (user_bans s) (hashes s)
                 (streams s ++ [(stream, fields)]) (fails s))
    | Hset key fields =>
        (Ok RNone,
         mkStore (security_violations s) (user_bans s) ((key, fields) :: hashes s)
                 (streams s) (fails s))
    | Expire _ _ => (Ok RNone, s)
    | Hgetall key => (Ok (RHash (hash_lookup key (hashes s))), s)
    end.

(** The tracker of the module over the reference store: the MCP tools
    answer from the store, and the three methods the class does not define
    raise AttributeError when called. *)
#[export] Instance store_env : Env Store := ViolationTracker_env store_call_tool.

Definition no_faults (tool_name : string) (args : Request) : bool := false.

(** The store refuses every INSERT into [security_violations]. *)
Definition insert_refused (tool_name : string) (args : Request) : bool :=
  match args with InsertViolation _ => true | _ => false end.

(** The store refuses every SELECT on [security_violations]. *)
Definition select_refused (tool_name : string) (args : Request) : bool :=
  match args with SelectViolations _ => true | _ => false end.

Definition with_faults (fails : string -> Request -> bool) (s : Store) : Store :=
  mkStore (security_violations s) (user_bans s) (hashes s) (streams s) fails.

(** Consecutive violations of one user, each with its own identifier and
    clock reading; the outcomes in order, and the final store.  A caller
    that catches what a call raises goes on with the next one. *)
Fixpoint process_all {W} {env : Env W} (uid : string)
    (calls : list (string * datetime * ViolationSeverity)) (self : Metrics) (w : W)
    : list (Outcome (ViolationRecord * Metrics)) * W :=
  match calls with
  | [] => ([], w)
  | (uuid, now, sev) :: calls' =>
      match process_violation uuid now self uid "contact_info" "call me" sev "automated" w with
      | (Ok (r, self'), w') =>
          let (rest, w'') := process_all uid calls' self' w' in
          (Ok (r, self') :: rest, w'')
      | (Raise e, w') =>
          let (rest, w'') := process_all uid calls' self w' in
          (Raise e :: rest, w'')
      end
  end.

(** What came back from a call: the record's level and action, or the
    exception. *)
Definition answer (o : Outcome (ViolationRecord * Metrics))
    : Outcome (Z * EnforcementAction) :=
  match o with
  | Ok (r, _) => Ok (escalation_level r, action_taken r)
  | Raise e => Raise e
  end.

(** The levels and actions of the records the table holds, in the order of
    their insertion. *)
Definition stored_levels (s : Store) : list (Z * EnforcementAction) :=
  map (fun v => (escalation_level v, action_taken v)) (security_violations s).

(** What the undefined level update raises. *)
Definition no_level_update : PyExc :=
  AttributeError "'ViolationTracker' object has no attribute '_update_user_escalation_level'".

Definition four_low : list (string * datetime * ViolationSeverity) :=
  [("id-1", 1000, LOW); ("id-2", 2000, LOW); ("id-3", 3000, LOW); ("id-4", 4000, LOW)].

(** The store after three low violations of one user. *)
Definition escalated_store : Store :=
  snd (process_all "user-1" (firstn 3 four_low) initial_metrics (empty_store no_faults)).

(** A critical violation processed while the store refuses the INSERT. *)
Definition refused_call : Outcome (ViolationRecord * Metrics) * Store :=
  process_violation "id-1" 1000 initial_metrics "user-1" "contact_info"
                    "call me at 555-123-4567" CRITICAL "automated"
                    (empty_store insert_refused).

(** The same call on a store that accepts it. *)
Definition accepted_call : Outcome (ViolationRecord * Metrics) * Store :=
  process_violation "id-1" 1000 initial_metrics "user-1" "contact_info"
                    "call me at 555-123-4567" CRITICAL "automated"
                    (empty_store no_faults).

(** The tracker over the [MCPClient] of the module, whose [call_tool]
    returns None. *)
Definition stub_env : Env Store := ViolationTracker_env MCPClient_call_tool.

End TrackerScenarios.

(* ===================================================================== *)
(** * Texts and views for the filter *)
(* ===================================================================== *)

Module FilterScenarios.
Import Filter.

Local Open Scope string_scope.
Local Open Scope list_scope.

Definition all_patterns : list string :=
  phone_patterns ++ email_patterns ++ social_patterns ++ intent_patterns
  ++ obfuscation_patterns.

(** Can [r] succeed without consuming a character? *)
Fixpoint nullable (r : regex) : bool :=
  match r with
  | Eps | WordB | Opt _ => true
  | One _ | Fail => false
  | Seq r1 r2 => nullable r1 && nullable r2
  | Alt r1 r2 => nullable r1 || nullable r2
  | Rep _ lo _ => Nat.eqb lo 0
  end.

(** The character before the position reached after reading [pre]. *)
Definition last_char (prev : option ascii) (pre : str) : option ascii :=
  fold_left (fun _ c => Some c) pre prev.

(** What a scan shows of a violation: type, matched text, span. *)
Definition shown (v : Violation) : string * string * option (nat * nat) :=
  (v_type v, string_of_list_ascii (v_match v), v_position v).

Definition is_text (v : PyVal) : bool :=
  match v with PyStr _ => true | _ => false end.

Definition canonical_phone : str := py "555-123-4567".

(** The last phone pattern, digits with one special character between the
    groups. *)
Definition phone_pattern_11 : string := "\d{3}[^\w\s]\d{3}[^\w\s]\d{4}".

Definition other_placeholders : list string :=
  ["[PHONE NUMBER BLOCKED]"; "[SOCIAL MEDIA BLOCKED]";
   "[CONTACT REQUEST BLOCKED]"; "[CONTACT INFO BLOCKED]"].

End FilterScenarios.

(* ===================================================================== *)
(** * Cost tiers and the callers of the breaker and of the filter *)
(* ===================================================================== *)

Module Callers.
Import CostBreaker Filter.

Local Open Scope string_scope.
Local Open Scope list_scope.

(** [class CostTier] of [cost_breaker.py]. *)
Inductive CostTier : Type := MICRO | SMALL | MEDIUM | LARGE | CRITICAL.

Definition CostTier_eqb (a b : CostTier) : bool :=
  match a, b with
  | MICRO, MICRO | SMALL, SMALL | MEDIUM, MEDIUM | LARGE, LARGE | CRITICAL, CRITICAL => true
  | _, _ => false
  end.

(** The dictionary [COST_TIERS]. *)
Definition COST_TIERS : list (CostTier * float) :=
  [ (MICRO, 0.01%float); (SMALL, 0.05%float); (MEDIUM, 0.25%float);
    (LARGE, 1.00%float); (CRITICAL, 5.00%float) ].

Fixpoint tier_lookup (table : list (CostTier * float)) (tier : CostTier) : Outcome float :=
  match table with
  | [] => Raise (KeyError "COST_TIERS")
  | (t, c) :: table' => if CostTier_eqb t tier then Ok c else tier_lookup table' tier
  end.

(** [get_cost_for_tier]: [COST_TIERS[tier]]. *)
Definition get_cost_for_tier (tier : CostTier) : Outcome float :=
  tier_lookup COST_TIERS tier.

(** The values of a decision dictionary. *)
Inductive DecisionValue : Type :=
| DBool (b : bool)
| DReason (r : Reason)
| DCosts (c : Costs)
| DList (l : list string).

(** The dictionary [check_cost_approval] returns, key by key. *)
Definition decision_items (d : Decision) : list (string * DecisionValue) :=
  [ ("approved", DBool (approved d)); ("reason", DReason (reason d));
    ("current_costs", DCosts (current_costs d)); ("warnings", DList (warnings d)) ].

(** Truth value of a dictionary: it has an item. *)
Definition dict_truthy {A} (items : list A) : bool :=
  match items with [] => false | _ => true end.

(** What the cost control check at the head of an agent method does. *)
Inductive Gate : Type :=
| Proceeds
| Raises (message : string).

(** The check that opens [NLPProcessor.extract_project_info],
    [DataExtractor.extract_project_data], [ConversationHandler.start_conversation]
    and [ConversationHandler.process_message]:
    [if not await self.cost_breaker.check_cost_approval(estimated_cost): raise Exception(message)]. *)
Definition cost_control_check {mcp : MCP} (now : datetime) (estimated_cost : float)
    (message : string) (cost_breaker : Breaker) : Gate * Decision * Breaker :=
  let (decision, cost_breaker) :=
    check_cost_approval now estimated_cost "general" [] cost_breaker in
  if negb (dict_truthy (decision_items decision))
  then (Raises message, decision, cost_breaker)
  else (Proceeds, decision, cost_breaker).

(** The estimated costs and messages of the four call sites. *)
Definition call_sites : list (float * string) :=
  [ (0.03%float, "Cost limit exceeded for NLP processing");
    (0.015%float, "Cost limit exceeded for data extraction");
    (0.025%float, "Cost limit exceeded for conversation processing");
    (0.02%float, "Cost limit exceeded for message processing") ].

(** Values an agent sends out. *)
#[local] Set Warnings "-register-all".
Inductive Data : Type :=
| DStr (s : str)
| DInt (z : Z)
| DFlag (b : bool)
| DNone
| DSeq (l : list Data)
| DDict (items : list (string * Data)).

(** [isinstance(value, str)] *)
Definition is_str (value : Data) : bool :=
  match value with DStr _ => true | _ => false end.

Section WithDetectors.
Context {detectors : Detectors}.

(** The loop of [_apply_contact_protection] over [data.items()], with the
    dictionary [filtered_data] built so far (the keys of a dictionary are
    distinct, so every assignment adds an item at the end).  There is no
    [try] around the scan: when it raises, the loop and the call end there.
    [_log_content_filtering] catches what its MCP call raises. *)
Fixpoint protect_items (now : datetime) (agent_id : string) (items : list (string * Data))
    (filtered_data : list (string * Data)) : Outcome (list (string * Data)) :=
  match items with
  | [] => Ok filtered_data
  | (key, value) :: items =>
      match value with
      | DStr text =>
          match scan_content now (PyStr text) agent_id
                  (Some [("context", "outgoing_data")]) with
          | Raise e => Raise e
          | Ok scan_result =>
              if violations_found scan_result
              then protect_items now agent_id items
                     (filtered_data ++ [(key, DStr (content_filtered scan_result))])
              else protect_items now agent_id items (filtered_data ++ [(key, value)])
          end
      | _ => protect_items now agent_id items (filtered_data ++ [(key, value)])
      end
  end.

(** [BaseAgent._apply_contact_protection], with the [ContactProtectionFilter]
    the agent builds in its constructor. *)
Definition _apply_contact_protection (now : datetime) (agent_id : string) (data : Data)
    : Outcome Data :=
  match data with
  | DDict items =>
      match protect_items now agent_id items [] with
      | Ok filtered_data => Ok (DDict filtered_data)
      | Raise e => Raise e
      end
  | _ => Ok data
  end.

End WithDetectors.

(** [CONTACT_PROTECTION_TEST_CASES] of [contact_filter.py]: the cases listed
    as contact sharing, and those listed under "Should NOT be blocked". *)
Definition contact_cases : list string :=
  [ "Call me at 555-123-4567"; "Email john@example.com"; "My number is (555) 123-4567";
    "Text 555.123.4567"; "Email john at gmail dot com";
    "Call five five five one two three four five six seven";
    "Let's take this offline"; "Contact me directly"; "Talk outside the platform" ].

Definition clean_cases : list string :=
  [ "I need bathroom renovation"; "Budget is $15,000"; "Timeline 4-6 weeks" ].

Definition CONTACT_PROTECTION_TEST_CASES : list string := contact_cases ++ clean_cases.

End Callers.

(* ===================================================================== *)
(** * Notions used to state the further properties *)
(* ===================================================================== *)

Module ExtraScenarios.
Import CostBreaker Tracker Filter Callers.
Import CostBreakerScenarios TrackerScenarios FilterScenarios.

Local Open Scope string_scope.
Local Open Scope list_scope.

(** A stand-in for the MCP client whose Redis cannot be reached. *)
Definition redis_down : MCP := {|
  call_mcp_tool tool_name operation params :=
    if String.eqb tool_name "redis"
    then Raise (ConnectionError "redis")
    else call_mcp_tool (MCP := MCPCostBreaker) tool_name operation params
|}.

(** The last entry of a history. *)
Definition newest (h : list CostBreaker.Violation) : option CostBreaker.Violation :=
  match rev h with v :: _ => Some v | [] => None end.

(** The profile fields the loader computes from the records it rebuilt. *)
Definition highest_level (records : list ViolationRecord) : Z :=
  fold_left Z.max (map escalation_level records) 0%Z.

Definition latest (records : list ViolationRecord) : option datetime :=
  fold_left (fun acc r =>
               match acc with
               | None => Some (timestamp r)
               | Some t => Some (Z.max t (timestamp r))
               end) records None.

(** The record the loader rebuilds from the stored columns of [v]. *)
Definition reloaded (uid : string) (v : ViolationRecord) : ViolationRecord :=
  mkRecord (id v) uid (violation_type v) (severity v) "[STORED_CONTENT]" "stored"
           (timestamp v) (action_taken v) (escalation_level v) (resolved v).

(** The account status each rung of the ladder leads to. *)
Definition status_of_action (a : EnforcementAction) : string :=
  match a with
  | MESSAGING_RESTRICTION => "restricted"
  | ACCOUNT_SUSPENSION => "suspended"
  | PERMANENT_BAN => "banned"
  | _ => "active"
  end.

(** The three Redis keys that carry a user's account status. *)
Definition status_keys (uid : string) : list string :=
  ["user:restrictions:" ++ uid; "user:suspension:" ++ uid; "user:ban:" ++ uid]%string.

(** The order of the risk levels. *)
Definition risk_rank (level : string) : nat :=
  if String.eqb level "high" then 2
  else if String.eqb level "medium" then 1
  else 0.

Definition high_risk_types : list string :=
  ["phone_number"; "email_address"; "contact_provision"].

Definition medium_risk_types : list string := ["contact_intent"; "contact_imperative"].

(** The span of a violation that has one. *)
Definition span_of (v : Filter.Violation) : nat * nat :=
  match v_position v with Some p => p | None => (0, 0) end.

(** Two spans that share no character. *)
Definition apart (v w : Filter.Violation) : Prop :=
  snd (span_of v) <= fst (span_of w) \/ snd (span_of w) <= fst (span_of v).

(** The redaction of a text for violations listed from the rightmost span
    to the leftmost one: what lies left of the span is redacted in turn, the
    span becomes its placeholder, what lies right of it stays. *)
Fixpoint redact (content : str) (violations : list Filter.Violation) : str :=
  match violations with
  | [] => content
  | v :: violations' =>
      redact (firstn (fst (span_of v)) content) violations'
      ++ py (_get_replacement_text (v_type v))
      ++ skipn (snd (span_of v)) content
  end.

(** The pattern layers whose detectors the class defines. *)
Definition pattern_layers (content : str) : list Filter.Violation :=
  _detect_phones content ++ _detect_emails content
  ++ _detect_contact_intent (lower content).

(** [h and h.get(key)] on a Redis hash. *)
Definition flag (key : string) (f : Fields) : bool :=
  match fields_get key f with Some x => truthy x | None => false end.

(** A history table holding the given rows, whoever wrote them; everything
    else as the reference store. *)
Definition history_env (rows : list Row) : Env Store :=
  ViolationTracker_env
    (fun tool_name args =>
       match args with
       | SelectViolations _ => fun s => (Ok (RRows rows), s)
       | _ => store_call_tool tool_name args
       end).

(** Three rows of a user at level 3, the oldest one with a severity text
    that is not a member of [ViolationSeverity]. *)
Definition legacy_rows : list Row :=
  [ mkRow "id-3" "contact_info" "low" "account_suspension" 3%Z (Some 3000%Z) false;
    mkRow "id-2" "contact_info" "low" "messaging_restriction" 2%Z (Some 2000%Z) false;
    mkRow "id-1" "contact_info" "severe" "warning" 1%Z (Some 1000%Z) false ].

(** [process_violation] up to the level update: the profile it loads, the
    record [r] it builds on the profile's level and hands to the store, the
    enforcement it runs on that record, and the world [w3] in which it
    calls [_update_user_escalation_level] with the level of the record.
    What that call raises is what [process_violation] raises; when it
    returns, [r] is the record that comes back. *)
Definition handed_to_store {W : Type} {env : Env W} (uuid : string) (now : datetime)
    (self : Metrics) (uid vt content : string) (sev : ViolationSeverity) (dm : string)
    (w : W) (profile : UserViolationProfile) (r : ViolationRecord) (w3 : W) : Prop :=
  exists w1 rule stored w2 applied,
    get_user_violation_profile uid w = (Ok profile, w1) /\
    rules_lookup escalation_rules (new_escalation_level profile sev) = Ok rule /\
    r = mkRecord uuid uid vt sev (String.substring 0 500 content) dm now
                 (action rule) (new_escalation_level profile sev) false /\
    _store_violation_record r w1 = (Ok stored, w2) /\
    _apply_enforcement_action now r profile w2 = (Ok applied, w3) /\
    (forall e w4,
        _update_user_escalation_level uid (escalation_level r) w3 = (Raise e, w4) ->
        process_violation uuid now self uid vt content sev dm w = (Raise e, w4)) /\
    (forall u w4,
        _update_user_escalation_level uid (escalation_level r) w3 = (Ok u, w4) ->
        exists self' w',
          process_violation uuid now self uid vt content sev dm w = (Ok (r, self'), w')).

(** The status the three hashes of a user stand for, in the order
    [_get_account_status] reads them. *)
Definition stored_status (h : list (string * Fields)) (uid : string) : string :=
  if flag "restricted" (hash_lookup ("user:restrictions:" ++ uid) h) then "restricted"
  else if flag "suspended" (hash_lookup ("user:suspension:" ++ uid) h) then "suspended"
  else if flag "banned" (hash_lookup ("user:ban:" ++ uid) h) then "banned"
  else "active".

(** One turn of the loop of [_apply_content_filtering]. *)
Definition turn (filtered_content : str) (violation : Filter.Violation) : str :=
  match v_position violation with
  | Some (start, stop) =>
      firstn start filtered_content
      ++ py (_get_replacement_text (v_type violation))
      ++ skipn stop filtered_content
  | None => filtered_content
  end.

(** Each later finding lies entirely to the left of each earlier one. *)
Definition leftwards (l : list Filter.Violation) : Prop :=
  StronglySorted (fun v w => snd (span_of w) <= fst (span_of v)) l.

(** A finding with a span that is not empty. *)
Definition proper (v : Filter.Violation) : Prop :=
  has_position v = true /\ fst (span_of v) < snd (span_of v).

(** Does a layer the class defines report something on [c]? *)
Definition fires (c : string) : bool :=
  match pattern_layers (py c) ++ _analyze_context (py c) EmptyString None with
  | [] => false
  | _ => true
  end.

(** A text on which two intent patterns fire, each once. *)
Definition two_requests : str := py "Please bypass the platform and whatsapp me".

(** A payload whose only top-level string is clean, with a phone number one
    level down. *)
Definition nested_items : list (string * Data) :=
  [ ("contact", DDict [("phone", DStr (py "555-123-4567"))]);
    ("phones", DSeq [DStr (py "555-123-4567")]);
    ("budget", DInt 15000%Z) ].

End ExtraScenarios.

(* ===================================================================== *)
(** * Properties of the cost circuit breaker *)
(* ===================================================================== *)

Module CostBreakerFacts.
Import CostBreaker CostBreakerScenarios.

Local Open Scope string_scope.
Local Open Scope list_scope.
Local Open Scope float_scope.

Ltac break_match :=
  repeat match goal with
         | |- context [match ?x with _ => _ end] => destruct x eqn:?; simpl in *
         end.

Section Frames.
Context {mcp : MCP}.

Lemma update_is_shutdown now b :
  is_shutdown (_update_cost_tracking now b) = is_shutdown b.
Proof. unfold _update_cost_tracking. break_match; reflexivity. Qed.

Lemma update_limits now b : limits (_update_cost_tracking now b) = limits b.
Proof. unfold _update_cost_tracking. break_match; reflexivity. Qed.

Lemma update_history now b :
  violation_history (_update_cost_tracking now b) = violation_history b.
Proof. unfold _update_cost_tracking. break_match; reflexivity. Qed.

Lemma log_violation_frame v b :
  is_shutdown (_log_cost_violation v b) = is_shutdown b /\
  shutdown_reason (_log_cost_violation v b) = shutdown_reason b /\
  limits (_log_cost_violation v b) = limits b /\
  totals (_log_cost_violation v b) = totals b.
Proof. unfold _log_cost_violation, _alert_administrators. break_match; auto. Qed.

Lemma log_approved_id now c op ctx b : _log_approved_operation now c op ctx b = b.
Proof. unfold _log_approved_operation. break_match; reflexivity. Qed.

Lemma trigger_frame now why b :
  is_shutdown (_trigger_emergency_shutdown now why b) = true /\
  shutdown_reason (_trigger_emergency_shutdown now why b) = Some why /\
  limits (_trigger_emergency_shutdown now why b) = limits b /\
  totals (_trigger_emergency_shutdown now why b) = totals b.
Proof.
  unfold _trigger_emergency_shutdown, _alert_administrators.
  set (ev := mkViolation _ _ _ _).
  destruct (log_violation_frame ev (set_shutdown true (Some why) b)) as (H1 & H2 & H3 & H4).
  break_match; auto.
Qed.

(** An open breaker answers every check the same way and is not touched. *)
Lemma check_when_open now est op ctx b :
  is_shutdown b = true ->
  check_cost_approval now est op ctx b =
  (mkDecision false (SystemInEmergencyShutdown (shutdown_reason b))
              (_get_current_costs b) ["EMERGENCY_SHUTDOWN_ACTIVE"], b).
Proof. intros H. unfold check_cost_approval. rewrite H. reflexivity. Qed.

(** A check changes the committed totals only through the refresh at its
    start. *)
Lemma check_totals now est op ctx b :
  totals (snd (check_cost_approval now est op ctx b)) =
  if is_shutdown b then totals b else totals (_update_cost_tracking now b).
Proof.
  unfold check_cost_approval.
  destruct (is_shutdown b); [reflexivity|].
  set (b0 := _update_cost_tracking now b).
  repeat match goal with
         | |- context [if ?c then _ else _] => destruct c eqn:?
         end; cbn [snd];
  rewrite ?log_approved_id;
  repeat match goal with
         | |- context [_trigger_emergency_shutdown ?n ?w ?s] =>
             let H := fresh in
             destruct (trigger_frame n w s) as (_ & _ & _ & H); rewrite H; clear H
         | |- context [_log_cost_violation ?v ?s] =>
             let H := fresh in
             destruct (log_violation_frame v s) as (_ & _ & _ & H); rewrite H; clear H
         end; reflexivity.
Qed.

Lemma check_keeps_open now est op ctx b :
  is_shutdown b = true ->
  is_shutdown (snd (check_cost_approval now est op ctx b)) = true.
Proof. intros H. rewrite check_when_open by exact H. exact H. Qed.

Lemma record_keeps_open now cost op b :
  is_shutdown b = true -> is_shutdown (record_actual_cost now cost op b) = true.
Proof.
  intros H. unfold record_actual_cost.
  break_match; try exact H.
  apply trigger_frame.
Qed.

Lemma reset_unauthorized now key why b :
  String.eqb key ADMIN_KEY = false ->
  reset_circuit_breaker now key why b = (mkReset false InvalidAdministrativeKey, b).
Proof. intros H. unfold reset_circuit_breaker. rewrite H. reflexivity. Qed.

Lemma reset_authorized_closes now why b :
  is_shutdown (snd (reset_circuit_breaker now ADMIN_KEY why b)) = false /\
  shutdown_reason (snd (reset_circuit_breaker now ADMIN_KEY why b)) = None /\
  totals (snd (reset_circuit_breaker now ADMIN_KEY why b)) = totals b.
Proof.
  unfold reset_circuit_breaker. rewrite String.eqb_refl. cbn [negb].
  break_match; auto.
Qed.

End Frames.

Lemma step_keeps_open c b :
  authorized c = false -> is_shutdown b = true -> is_shutdown (step c b) = true.
Proof.
  destruct c; cbn [step authorized]; intros Hc Hb.
  - now apply check_keeps_open.
  - now apply record_keeps_open.
  - rewrite reset_unauthorized by exact Hc. exact Hb.
Qed.

Lemma run_keeps_open calls : forall b,
  Forall (fun c => authorized c = false) calls ->
  is_shutdown b = true -> is_shutdown (run calls b) = true.
Proof.
  induction calls as [|c calls IH]; intros b Hall Hb; [exact Hb|].
  inversion Hall; subst. cbn [run fold_left].
  apply IH; [assumption|]. now apply step_keeps_open.
Qed.

(** ** Float order facts used by the ceilings *)

Lemma SFcompare_antisym x y :
  SFcompare y x = option_map CompOpp (SFcompare x y).
Proof.
  destruct x as [sx|sx| |sx mx ex], y as [sy|sy| |sy my ey]; cbn;
    try (destruct sx); try (destruct sy); cbn; try reflexivity.
  - rewrite (Z.compare_antisym ex ey).
    destruct (ex ?= ey)%Z; cbn; try reflexivity.
    do 2 f_equal. symmetry. exact (Pos.compare_cont_antisym mx my Eq).
  - rewrite (Z.compare_antisym ex ey).
    destruct (ex ?= ey)%Z; cbn; try reflexivity.
    f_equal. symmetry. exact (Pos.compare_cont_antisym mx my Eq).
Qed.

(** [x <= y] excludes [x > y], for every pair of floats (NaN included). *)
Lemma float_le_not_gt (x y : float) : (x <=? y) = true -> (y <? x) = false.
Proof.
  rewrite leb_spec, ltb_spec. unfold SFleb, SFltb.
  rewrite (SFcompare_antisym (Prim2SF x) (Prim2SF y)).
  destruct (SFcompare (Prim2SF x) (Prim2SF y)) as [[]|]; cbn; congruence.
Qed.

(** ** Tripping *)

Section Trips.
Context {mcp : MCP}.

(** A closed breaker does not answer a check with the shutdown notice. *)
Lemma check_when_closed now est op ctx b :
  is_shutdown b = false ->
  warnings (fst (check_cost_approval now est op ctx b)) <> ["EMERGENCY_SHUTDOWN_ACTIVE"].
Proof.
  intros H. unfold check_cost_approval. rewrite H.
  repeat match goal with
         | |- context [if ?c then _ else _] => destruct c eqn:?
         end; cbn [fst warnings]; try discriminate.
  unfold _detect_suspicious_patterns.
  repeat match goal with
         | |- context [if ?c then _ else _] => destruct c eqn:?
         end; discriminate.
Qed.

(** When is a closed breaker tripped by a check? *)
Lemma check_trips_iff now est op ctx b :
  is_shutdown b = false ->
  let projected := daily_cost (_update_cost_tracking now b) + est in
  is_shutdown (snd (check_cost_approval now est op ctx b)) = true <->
  (per_event_limit b <? est) = false /\
  (daily_limit b <? projected) = true /\
  (emergency_threshold b <? projected) = true.
Proof.
  intros H projected. subst projected.
  pose proof (update_limits now b) as HL. unfold limits in HL.
  pose proof (update_is_shutdown now b) as HS. rewrite H in HS.
  injection HL as HL1 HL2 HL3 HL4.
  unfold check_cost_approval. rewrite H.
  set (b0 := _update_cost_tracking now b) in *.
  rewrite <- HL1, <- HL2, <- HL4.
  destruct (per_event_limit b0 <? est) eqn:E1; cbn [snd].
  - destruct (log_violation_frame
                (mkViolation PER_EVENT_EXCEEDED now (Some est)
                   (("limit", VNum (per_event_limit b0))
                    :: ("operation_type", VStr op) :: ctx)) b0) as (Hs & _).
    rewrite Hs, HS. split; [discriminate | intros (? & _); discriminate].
  - destruct (daily_limit b0 <? daily_cost b0 + est) eqn:E2; cbn [snd].
    + match goal with
      | |- context [_log_cost_violation ?v b0] =>
          destruct (log_violation_frame v b0) as (Hs & _ & Hl & _);
          set (b1 := _log_cost_violation v b0) in *
      end.
      unfold limits in Hl. injection Hl as _ _ _ Hl4. rewrite Hl4.
      destruct (emergency_threshold b0 <? daily_cost b0 + est) eqn:E3.
      * split; [auto|]. intros _. apply trigger_frame.
      * rewrite Hs, HS. split; [discriminate | intros (_ & _ & ?); discriminate].
    + destruct (hourly_limit b0 <? hourly_cost b0 + est) eqn:E3; cbn [snd].
      * match goal with
        | |- context [_log_cost_violation ?v b0] =>
            destruct (log_violation_frame v b0) as (Hs & _)
        end.
        rewrite Hs, HS. split; [discriminate | intros (_ & ? & _); discriminate].
      * rewrite log_approved_id, HS.
        split; [discriminate | intros (_ & ? & _); discriminate].
Qed.

End Trips.

(** ** The claims *)

Section Claims.
Context {mcp : MCP}.

Lemma record_totals now cost op b :
  totals (record_actual_cost now cost op b) = (daily_cost b + cost, hourly_cost b + cost).
Proof.
  unfold record_actual_cost.
  break_match; try reflexivity.
  lazymatch goal with
  | |- context [_trigger_emergency_shutdown ?n ?w ?s] =>
      destruct (trigger_frame n w s) as (_ & _ & _ & H); rewrite H
  end.
  reflexivity.
Qed.

(** C1. Once a check has tripped the breaker (its projected daily total was
    above the emergency threshold), every later check, whatever its
    estimated cost, is refused with the shutdown notice
    (approved = False, warning EMERGENCY_SHUTDOWN_ACTIVE, reason
    "System in emergency shutdown: ...") and changes nothing, as long as no
    reset with the administrative key is made.  A reset with that key closes
    the breaker before it writes the audit log, and answers success = True
    exactly when that write returns: when the write raises, the reset
    answers success = False with "Reset failed: ...", and the breaker is
    closed all the same, so checks are answered normally again although no
    reset has succeeded.  On a breaker with daily_limit = 130 and
    emergency_threshold = 150, whose cost store reports 125.45 for the day:
    check(30) trips it, the keyed reset whose audit log cannot be written
    answers success = False, and the next check(0.01) is approved. *)
Theorem C1_emergency_shutdown_latches :
  (forall (mcp0 : MCP) now est op ctx b,
      is_shutdown b = false ->
      is_shutdown (snd (check_cost_approval (mcp := mcp0) now est op ctx b)) = true ->
      let b1 := snd (check_cost_approval (mcp := mcp0) now est op ctx b) in
      (emergency_threshold b <? daily_cost (_update_cost_tracking (mcp := mcp0) now b) + est)
        = true /\
      forall calls, Forall (fun c => authorized c = false) calls ->
        (forall mcp' now' est' op' ctx',
            check_cost_approval (mcp := mcp') now' est' op' ctx' (run calls b1) =
            (mkDecision false
               (SystemInEmergencyShutdown (shutdown_reason (run calls b1)))
               (_get_current_costs (run calls b1)) ["EMERGENCY_SHUTDOWN_ACTIVE"],
             run calls b1)) /\
        (forall mcp' now' why,
            let r := reset_circuit_breaker (mcp := mcp') now' ADMIN_KEY why (run calls b1) in
            is_shutdown (snd r) = false /\
            success (fst r) =
              negb (raised (call_mcp_tool (MCP := mcp') "supabase" "log_admin_action"
                              [("type", VStr "circuit_breaker_reset"); ("reason", VStr why);
                               ("timestamp", VTime now'); ("admin_key_used", VBool true)])) /\
            forall mcp'' now'' est'' op'' ctx'',
              warnings (fst (check_cost_approval (mcp := mcp'') now'' est'' op'' ctx'' (snd r)))
              <> ["EMERGENCY_SHUTDOWN_ACTIVE"])) /\
  (let b1 := snd (check_cost_approval (mcp := admin_log_down) 0 30 "general" []
                    breaker_130_150) in
   let r := reset_circuit_breaker (mcp := admin_log_down) 1 ADMIN_KEY "resume" b1 in
   let d := fst (check_cost_approval (mcp := admin_log_down) 2 0.01 "general" [] (snd r)) in
   is_shutdown breaker_130_150 = false /\ is_shutdown b1 = true /\
   fst r = mkReset false (ResetFailed (ConnectionError "supabase")) /\
   is_shutdown (snd r) = false /\
   approved d = true /\ reason d = CostApprovalGranted).
Proof.
  split.
  - intros mcp0 now est op ctx b Hclosed Htrip b1.
    split.
    + apply (check_trips_iff (mcp := mcp0) now est op ctx b Hclosed) in Htrip. tauto.
    + intros calls Hcalls.
      assert (Hopen : is_shutdown (run calls b1) = true)
        by (apply run_keeps_open; assumption).
      split.
      * intros. apply check_when_open. exact Hopen.
      * intros mcp' now' why r.
        destruct (reset_authorized_closes (mcp := mcp') now' why (run calls b1)) as (Hr & _).
        split; [exact Hr|split].
        -- subst r. unfold reset_circuit_breaker.
           rewrite String.eqb_refl. cbn [negb].
           destruct (call_mcp_tool _ _ _); reflexivity.
        -- intros. apply check_when_closed. exact Hr.
  - vm_compute. repeat split.
Qed.

(** C3. A check never commits its estimated cost: the totals it leaves are
    those of the refresh made at its start (or the old ones when the breaker
    is open), whatever the estimate and whether the call approves or
    rejects; only [record_actual_cost] adds a cost, the actual one, into
    both totals. *)
Theorem C3_check_never_commits now est op ctx b :
  totals (snd (check_cost_approval now est op ctx b)) =
    (if is_shutdown b then totals b else totals (_update_cost_tracking now b)) /\
  (forall est' op' ctx',
      totals (snd (check_cost_approval now est' op' ctx' b)) =
      totals (snd (check_cost_approval now est op ctx b))) /\
  (forall now' actual_cost op',
      totals (record_actual_cost now' actual_cost op' b) =
      (daily_cost b + actual_cost, hourly_cost b + actual_cost)).
Proof.
  split; [apply check_totals|split].
  - intros. now rewrite !check_totals.
  - intros. apply record_totals.
Qed.

(** C10. A reset with any key other than the hard-coded one fails and leaves
    the whole breaker (shutdown flag, reason, counters) as it was; a reset
    that closes an open breaker was made with exactly that key, and a reset
    with that key does close it. *)
Theorem C10_reset_requires_key now admin_key why b :
  (admin_key <> ADMIN_KEY ->
     reset_circuit_breaker now admin_key why b =
     (mkReset false InvalidAdministrativeKey, b)) /\
  (is_shutdown b = true ->
     is_shutdown (snd (reset_circuit_breaker now admin_key why b)) = false ->
     admin_key = ADMIN_KEY) /\
  is_shutdown (snd (reset_circuit_breaker now ADMIN_KEY why b)) = false.
Proof.
  split; [|split].
  - intros Hne. apply reset_unauthorized. now apply String.eqb_neq.
  - intros Hopen Hclosed.
    destruct (String.eqb admin_key ADMIN_KEY) eqn:E; [now apply String.eqb_eq|].
    rewrite reset_unauthorized in Hclosed by exact E. cbn in Hclosed. congruence.
  - apply reset_authorized_closes.
Qed.

(** C7 (amended). With per_event_limit = 5 and daily_limit = 100, on a
    closed breaker and with the totals as refreshed at the start of the
    call: a check(4) is approved while daily_total + 4 <= 100 and
    hourly_total + 4 <= hourly_limit; a check(4) whose projected daily total
    exceeds 100 is refused with DAILY_LIMIT_EXCEEDED; every check(6) is
    refused with PER_EVENT_LIMIT_EXCEEDED whatever the totals. *)
Theorem C7_ceilings_when_closed now op ctx b :
  per_event_limit b = 5 -> daily_limit b = 100 -> is_shutdown b = false ->
  let b0 := _update_cost_tracking now b in
  ((daily_cost b0 + 4 <=? 100) = true ->
   (hourly_cost b0 + 4 <=? hourly_limit b) = true ->
   approved (fst (check_cost_approval now 4 op ctx b)) = true /\
   reason (fst (check_cost_approval now 4 op ctx b)) = CostApprovalGranted) /\
  ((100 <? daily_cost b0 + 4) = true ->
   approved (fst (check_cost_approval now 4 op ctx b)) = false /\
   warnings (fst (check_cost_approval now 4 op ctx b)) = ["DAILY_LIMIT_EXCEEDED"]) /\
  (approved (fst (check_cost_approval now 6 op ctx b)) = false /\
   warnings (fst (check_cost_approval now 6 op ctx b)) = ["PER_EVENT_LIMIT_EXCEEDED"] /\
   totals (snd (check_cost_approval now 6 op ctx b)) = totals b0).
Proof.
  intros Hpe Hdl Hclosed b0.
  pose proof (update_limits now b) as HL. unfold limits in HL.
  injection HL as HL1 HL2 HL3 HL4. fold b0 in HL1, HL2, HL3, HL4.
  unfold check_cost_approval. rewrite Hclosed. fold b0.
  rewrite HL2, HL1, HL3, Hpe, Hdl.
  change (5 <? 4) with false. change (5 <? 6) with true. cbv iota.
  split; [|split].
  - intros Hd Hh.
    rewrite (float_le_not_gt _ _ Hd), (float_le_not_gt _ _ Hh).
    cbn. auto.
  - intros Hd. rewrite Hd. cbn. auto.
  - cbn [fst snd approved warnings]. split; [reflexivity|split; [reflexivity|]].
    apply log_violation_frame.
Qed.

End Claims.

(** ** On concrete breakers *)

Lemma C1_witness :
  let b := breaker_150 in
  let b1 := snd (check_cost_approval (mcp := MCPCostBreaker) 0 30 "general" [] b) in
  let calls := [DoRecord MCPCostBreaker 1 0.02 "general";
                DoReset MCPCostBreaker 2 "admin" "please";
                DoCheck MCPCostBreaker 3 1 "general" []] in
  is_shutdown b = false /\ is_shutdown b1 = true /\
  warnings (fst (check_cost_approval (mcp := MCPCostBreaker) 4 0.01 "general" []
                   (run calls b1))) = ["EMERGENCY_SHUTDOWN_ACTIVE"] /\
  success (fst (reset_circuit_breaker (mcp := admin_log_down) 5 ADMIN_KEY "resume"
                  (run calls b1))) = false /\
  is_shutdown (snd (reset_circuit_breaker (mcp := admin_log_down) 5 ADMIN_KEY "resume"
                      (run calls b1))) = false.
Proof.
  cbv zeta.
  assert (H0 : is_shutdown breaker_150 = false) by reflexivity.
  assert (H1 : is_shutdown
                 (snd (check_cost_approval (mcp := MCPCostBreaker) 0 30 "general" []
                         breaker_150)) = true) by (vm_compute; reflexivity).
  split; [exact H0|split; [exact H1|]].
  destruct (proj1 C1_emergency_shutdown_latches MCPCostBreaker
              0%Z 30%float "general" [] breaker_150 H0 H1) as (_ & H).
  destruct (H [DoRecord MCPCostBreaker 1 0.02 "general";
               DoReset MCPCostBreaker 2 "admin" "please";
               DoCheck MCPCostBreaker 3 1 "general" []]) as (Hc & Hr).
  - repeat constructor.
  - split; [rewrite Hc; reflexivity|].
    destruct (Hr admin_log_down 5%Z "resume") as (Hclosed & Hs & _).
    split; [rewrite Hs; reflexivity|exact Hclosed].
Defined.

Lemma C10_witness :
  let b1 := snd (check_cost_approval (mcp := MCPCostBreaker) 0 30 "general" []
                   breaker_150) in
  "admin" <> ADMIN_KEY /\ is_shutdown b1 = true /\
  reset_circuit_breaker (mcp := MCPCostBreaker) 1 "admin" "please" b1 =
  (mkReset false InvalidAdministrativeKey, b1).
Proof.
  cbv zeta.
  assert (Hk : "admin" <> ADMIN_KEY) by discriminate.
  split; [exact Hk|split; [vm_compute; reflexivity|]].
  exact (proj1 (C10_reset_requires_key (mcp := MCPCostBreaker) 1 "admin" "please"
                  (snd (check_cost_approval (mcp := MCPCostBreaker) 0 30 "general" []
                          breaker_150))) Hk).
Defined.

Lemma C7_witness :
  let b := breaker_5_100 in
  per_event_limit b = 5 /\ daily_limit b = 100 /\ is_shutdown b = false /\
  (100 <? daily_cost (_update_cost_tracking (mcp := MCPCostBreaker) 0 b) + 4) = true /\
  warnings (fst (check_cost_approval (mcp := MCPCostBreaker) 0 4 "general" [] b))
    = ["DAILY_LIMIT_EXCEEDED"] /\
  warnings (fst (check_cost_approval (mcp := MCPCostBreaker) 0 6 "general" [] b))
    = ["PER_EVENT_LIMIT_EXCEEDED"].
Proof.
  cbv zeta.
  assert (H1 : per_event_limit breaker_5_100 = 5) by reflexivity.
  assert (H2 : daily_limit breaker_5_100 = 100) by reflexivity.
  assert (H3 : is_shutdown breaker_5_100 = false) by reflexivity.
  assert (H4 : (100 <? daily_cost (_update_cost_tracking (mcp := MCPCostBreaker) 0
                                     breaker_5_100) + 4) = true)
    by (vm_compute; reflexivity).
  destruct (C7_ceilings_when_closed (mcp := MCPCostBreaker) 0 "general" []
              breaker_5_100 H1 H2 H3)
    as (_ & Hd & _ & Hp & _).
  split; [exact H1|split; [exact H2|split; [exact H3|split; [exact H4|]]]].
  split; [exact (proj2 (Hd H4))|exact Hp].
Defined.

(** C7 as stated fails.  On an open breaker a check(6) is answered with the
    shutdown notice, not with the per-event refusal.  After twenty-five
    recorded costs of 4 in one hour, a check(4) made exactly one day later
    finds the daily total back at 0 but the hourly total still at 100 (the
    hour of the day is the same), and is refused for the hourly rate
    although daily_total + 4 <= 100.  And the daily total that counts is
    the one refreshed from the cost store at the start of the call: with
    the MCP client of the module, which reports 125.45, a fresh breaker
    (own total 0) refuses its first check(4). *)
Lemma C7_counterexample :
  (let b1 := snd (check_cost_approval (mcp := MCPCostBreaker) 0 4 "general" []
                    breaker_5_100_120) in
   per_event_limit b1 = 5 /\ daily_limit b1 = 100 /\
   warnings (fst (check_cost_approval (mcp := MCPCostBreaker) 1 6 "general" [] b1))
     = ["EMERGENCY_SHUTDOWN_ACTIVE"]) /\
  (let m := cost_store_reporting 0 in
   let b2 := run (repeat (DoRecord m 0 4 "general") 25) breaker_5_100 in
   let d := fst (check_cost_approval (mcp := m) one_day 4 "general" [] b2) in
   per_event_limit b2 = 5 /\ daily_limit b2 = 100 /\ is_shutdown b2 = false /\
   (daily_cost (_update_cost_tracking (mcp := m) one_day b2) + 4 <=? 100) = true /\
   approved d = false /\ warnings d = ["HOURLY_RATE_EXCEEDED"]) /\
  (let d := fst (check_cost_approval (mcp := MCPCostBreaker) 0 4 "general" []
                   breaker_5_100) in
   (daily_cost breaker_5_100 + 4 <=? 100) = true /\
   approved d = false /\ warnings d = ["DAILY_LIMIT_EXCEEDED"]).
Proof. vm_compute. repeat split. Qed.

(** The reset clears the shutdown flag before it writes the audit log: when
    the log cannot be written the answer is success = False, and the breaker
    is closed all the same. *)
Example reset_clears_before_logging :
  let b1 := snd (check_cost_approval (mcp := MCPCostBreaker) 0 30 "general" []
                   breaker_150) in
  let r := reset_circuit_breaker (mcp := admin_log_down) 1 ADMIN_KEY "resume" b1 in
  is_shutdown b1 = true /\
  fst r = mkReset false (ResetFailed (ConnectionError "supabase")) /\
  is_shutdown (snd r) = false.
Proof. vm_compute. repeat split. Qed.

(** With the MCP client shipped in the module the cost store always reports
    125.45 for the day, so under daily_limit = 100 a fresh breaker already
    refuses its first check(4). *)
Example shipped_store_refuses_first_check :
  let d := fst (check_cost_approval (mcp := MCPCostBreaker) 0 4 "general" []
                  breaker_5_100) in
  daily_cost breaker_5_100 = 0 /\
  approved d = false /\ warnings d = ["DAILY_LIMIT_EXCEEDED"] /\
  c_daily_cost (current_costs d) = 125.45.
Proof. vm_compute. repeat split. Qed.

End CostBreakerFacts.

(* ===================================================================== *)
(** * Properties of the violation tracker *)
(* ===================================================================== *)

Module TrackerFacts.
Import Tracker TrackerScenarios.

Local Open Scope string_scope.
Local Open Scope list_scope.
Local Open Scope Z_scope.
Local Open Scope monad_scope.

(** ** Helpers that cannot raise *)

Section Totality.
Context {W : Type} {env : Env W}.

Lemma try_except_total {A} (m : M W A) (a0 : A) (w : W) :
  exists a w', try_except m (fun _ => ret a0) w = (Ok a, w').
Proof.
  unfold try_except, ret. destruct (m w) as [[a|e] w']; eauto.
Qed.

Lemma get_account_status_total uid level w :
  exists st w', _get_account_status uid level w = (Ok st, w').
Proof. apply try_except_total. Qed.

Lemma store_violation_record_total v w :
  exists b w', _store_violation_record v w = (Ok b, w').
Proof. apply try_except_total. Qed.

Lemma apply_enforcement_action_total now v p w :
  exists b w', _apply_enforcement_action now v p w = (Ok b, w').
Proof. apply try_except_total. Qed.

Lemma send_admin_alert_total v w :
  exists b w', _send_admin_alert v w = (Ok b, w').
Proof. apply try_except_total. Qed.

Lemma scan_rows_level uid rows : forall vs level last vs' level' last',
  scan_rows uid rows vs level last = Ok (vs', level', last') -> level <= level'.
Proof.
  induction rows as [|row rows IH]; cbn; intros vs level last vs' level' last' H.
  - injection H as _ <- _. lia.
  - destruct (row_record uid row) as [v|e]; [|discriminate].
    apply IH in H.
    destruct (level <? escalation_level v) eqn:E; [apply Z.ltb_lt in E|]; lia.
Qed.

(** The profile is always delivered, and its level is never negative. *)
Lemma get_user_violation_profile_total uid w :
  exists p w', get_user_violation_profile uid w = (Ok p, w') /\
               0 <= p_escalation_level p.
Proof.
  unfold get_user_violation_profile, try_except, bind.
  destruct (call_tool "supabase" (SelectViolations uid) w) as [[result|e] w1];
    [|eexists _, _; split; [reflexivity|cbn; lia]].
  destruct (value_truthy result).
  - destruct result as [|rows|f|]; unfold throw, lift;
      try (eexists _, _; split; [reflexivity|cbn; lia]).
    destruct (scan_rows uid rows [] 0 None) as [[[vs lvl] last]|e] eqn:E;
      [|eexists _, _; split; [reflexivity|cbn; lia]].
    apply scan_rows_level in E.
    destruct (get_account_status_total uid lvl w1) as (st & w2 & Hst).
    rewrite Hst. unfold ret. eexists _, _; split; [reflexivity|exact E].
  - unfold ret at 1.
    destruct (get_account_status_total uid 0 w1) as (st & w2 & Hst).
    rewrite Hst. unfold ret. eexists _, _; split; [reflexivity|cbn; lia].
Qed.

(** A failing read yields the default profile. *)
Lemma get_user_violation_profile_read_error uid w e w' :
  call_tool "supabase" (SelectViolations uid) w = (Raise e, w') ->
  get_user_violation_profile uid w = (Ok (default_profile uid), w').
Proof.
  intros H. unfold get_user_violation_profile, try_except, bind. rewrite H. reflexivity.
Qed.

Lemma max_level_is_4 : max_level = 4.
Proof. reflexivity. Qed.

(** Every level between the first and the last rung has its rule. *)
Lemma rules_lookup_in_range level :
  1 <= level <= 4 -> exists rule, rules_lookup escalation_rules level = Ok rule.
Proof.
  intros H.
  assert (level = 1 \/ level = 2 \/ level = 3 \/ level = 4) as [-> | [-> | [-> | ->]]] by lia;
    cbn; eauto.
Qed.

Lemma severity_points_positive sev : 1 <= severity_multipliers sev.
Proof. destruct sev; cbn; lia. Qed.

(** [process_violation] step by step, for every MCP client and every
    behaviour of the three methods the class leaves undefined: the profile
    is loaded, the record is built on its level and handed to the store, the
    enforcement runs on whatever world the store step left, and the call to
    [_update_user_escalation_level] decides how the call ends: what it
    raises is raised (the [except] clause of [process_violation] logs and
    re-raises), and when it returns the administrators are alerted for high
    and critical severities, the metrics are counted and the record comes
    back. *)
Lemma process_violation_steps uuid now self uid vt content sev dm w :
  exists profile w1 rule r stored w2 applied w3,
    get_user_violation_profile uid w = (Ok profile, w1) /\
    0 <= p_escalation_level profile /\
    rules_lookup escalation_rules (new_escalation_level profile sev) = Ok rule /\
    r = mkRecord uuid uid vt sev (String.substring 0 500 content) dm now
                 (action rule) (new_escalation_level profile sev) false /\
    _store_violation_record r w1 = (Ok stored, w2) /\
    _apply_enforcement_action now r profile w2 = (Ok applied, w3) /\
    process_violation uuid now self uid vt content sev dm w =
      match _update_user_escalation_level uid (new_escalation_level profile sev) w3 with
      | (Raise e, w4) => (Raise e, w4)
      | (Ok _, w4) =>
          let self' :=
            _update_action_metrics (action rule)
              (mkMetrics (violations_processed self + 1) (users_warned self)
                         (users_restricted self) (users_suspended self)
                         (users_banned self) (false_positives self)) in
          match sev with
          | HIGH | CRITICAL => (Ok (r, self'), snd (_send_admin_alert r w4))
          | _ => (Ok (r, self'), w4)
          end
      end.
Proof.
  destruct (get_user_violation_profile_total uid w) as (p & w1 & Hp & Hlevel).
  assert (Hrange : 1 <= new_escalation_level p sev <= 4).
  { unfold new_escalation_level. rewrite max_level_is_4.
    pose proof (severity_points_positive sev). lia. }
  destruct (rules_lookup_in_range _ Hrange) as (rule & Hrule).
  set (r := mkRecord uuid uid vt sev (String.substring 0 500 content) dm now
                     (action rule) (new_escalation_level p sev) false).
  destruct (store_violation_record_total r w1) as (stored & w2 & Hstore).
  destruct (apply_enforcement_action_total now r p w2) as (applied & w3 & Happly).
  exists p, w1, rule, r, stored, w2, applied, w3.
  split; [exact Hp|]. split; [exact Hlevel|]. split; [exact Hrule|].
  split; [reflexivity|]. split; [exact Hstore|]. split; [exact Happly|].
  unfold process_violation, bind. rewrite Hp, Hrule. unfold lift. fold r.
  rewrite Hstore, Happly.
  destruct (_update_user_escalation_level uid (new_escalation_level p sev) w3)
    as [[u|e] w4]; [|reflexivity].
  destruct sev; unfold ret; cbn [action_taken r]; try reflexivity;
    destruct (send_admin_alert_total r w4) as (sent & w5 & Hsent); rewrite Hsent;
    reflexivity.
Qed.

End Totality.

(** ** The claims *)

Section Claims.
Context {W : Type} {env : Env W}.

(** C2 (amended). When the store refuses the INSERT of the new record, the
    failure stays inside [_store_violation_record], which answers False;
    [process_violation] does not look at that answer and goes on: the
    enforcement action runs on the world the failed step left, and the call
    ends as it does when the INSERT succeeds, with whatever the level update
    does.  The persistence failure itself never reaches the caller. *)
Theorem C2_store_failure_is_swallowed uuid now self uid vt content sev dm w :
  (forall p w1, get_user_violation_profile uid w = (Ok p, w1) ->
     forall v, exists e w1', call_tool "supabase" (InsertViolation v) w1 = (Raise e, w1')) ->
  exists profile w1 r w2 applied w3,
    get_user_violation_profile uid w = (Ok profile, w1) /\
    _store_violation_record r w1 = (Ok false, w2) /\
    _apply_enforcement_action now r profile w2 = (Ok applied, w3) /\
    escalation_level r = new_escalation_level profile sev /\
    (forall e w4,
        _update_user_escalation_level uid (escalation_level r) w3 = (Raise e, w4) ->
        process_violation uuid now self uid vt content sev dm w = (Raise e, w4)) /\
    (forall u w4,
        _update_user_escalation_level uid (escalation_level r) w3 = (Ok u, w4) ->
        exists self' w',
          process_violation uuid now self uid vt content sev dm w = (Ok (r, self'), w')).
Proof.
  intros Hins.
  destruct (process_violation_steps uuid now self uid vt content sev dm w)
    as (p & w1 & rule & r & stored & w2 & applied & w3 &
        Hp & _ & _ & Hr & Hstore & Happly & Hproc).
  exists p, w1, r, w2, applied, w3.
  assert (Hl : escalation_level r = new_escalation_level p sev) by (rewrite Hr; reflexivity).
  split; [exact Hp|]. split; [|split; [exact Happly|split; [exact Hl|]]].
  - destruct (Hins p w1 Hp r) as (e & w1' & He).
    unfold _store_violation_record, try_except, bind in Hstore |- *.
    rewrite He in Hstore |- *. unfold ret in Hstore |- *.
    injection Hstore as _ <-. reflexivity.
  - rewrite Hl, Hproc. split.
    + intros e w4 ->. reflexivity.
    + intros u w4 ->. destruct sev; eexists _, _; reflexivity.
Qed.

(** C9. When reading the user's history fails, the profile delivered is the
    default one (level 0, no violations, status "active"), so the
    [process_violation] that asked for it computes the new level from 0:
    the record it hands to the store, and the level it passes to the level
    update, is min(severity points, 4) whatever the user had reached
    before. *)
Theorem C9_read_failure_fails_open uuid now self uid vt content sev dm w e w1 :
  call_tool "supabase" (SelectViolations uid) w = (Raise e, w1) ->
  get_user_violation_profile uid w = (Ok (default_profile uid), w1) /\
  p_escalation_level (default_profile uid) = 0 /\
  total_violations (default_profile uid) = 0%nat /\
  account_status (default_profile uid) = "active" /\
  exists rule r stored w2 applied w3,
    rules_lookup escalation_rules (Z.min (0 + severity_multipliers sev) 4) = Ok rule /\
    r = mkRecord uuid uid vt sev (String.substring 0 500 content) dm now
                 (action rule) (Z.min (0 + severity_multipliers sev) 4) false /\
    _store_violation_record r w1 = (Ok stored, w2) /\
    _apply_enforcement_action now r (default_profile uid) w2 = (Ok applied, w3) /\
    (forall e' w4,
        _update_user_escalation_level uid (Z.min (0 + severity_multipliers sev) 4) w3
          = (Raise e', w4) ->
        process_violation uuid now self uid vt content sev dm w = (Raise e', w4)) /\
    (forall u w4,
        _update_user_escalation_level uid (Z.min (0 + severity_multipliers sev) 4) w3
          = (Ok u, w4) ->
        exists self' w',
          process_violation uuid now self uid vt content sev dm w = (Ok (r, self'), w')).
Proof.
  intros Hread.
  pose proof (get_user_violation_profile_read_error uid w e w1 Hread) as Hdef.
  repeat (split; [first [exact Hdef|reflexivity]|]).
  destruct (process_violation_steps uuid now self uid vt content sev dm w)
    as (p & w1' & rule & r & stored & w2 & applied & w3 &
        Hp & _ & Hrule & Hr & Hstore & Happly & Hproc).
  rewrite Hdef in Hp. injection Hp as <- <-.
  change (new_escalation_level (default_profile uid) sev)
    with (Z.min (0 + severity_multipliers sev) 4) in *.
  exists rule, r, stored, w2, applied, w3.
  split; [exact Hrule|]. split; [exact Hr|]. split; [exact Hstore|].
  split; [exact Happly|]. rewrite Hproc. split.
  - intros e' w4 ->. reflexivity.
  - intros u w4 ->. destruct sev; eexists _, _; reflexivity.
Qed.

End Claims.

(** ** On the reference store *)

(** C4. Every call to [process_violation] computes the new level as
    min(level of the loaded profile + severity points, 4), with the points
    low = 1, medium = 2, high = 3, critical = 5: the record it builds and
    hands to the store carries that level and the action of that rung, and
    the level update is called with it.  On a store that keeps what is
    inserted, four low violations in a row of a new user are recorded at
    levels 1, 2, 3 and 4, the permanent ban at the fourth call, and one
    critical violation is recorded at level 4 at once. *)
Theorem C4_escalation_level :
  (forall (W : Type) (env : Env W) uuid now self uid vt content sev dm (w : W),
      exists profile w1 rule r stored w2 applied w3,
        get_user_violation_profile uid w = (Ok profile, w1) /\
        rules_lookup escalation_rules
          (Z.min (p_escalation_level profile + severity_multipliers sev) 4) = Ok rule /\
        r = mkRecord uuid uid vt sev (String.substring 0 500 content) dm now
              (action rule)
              (Z.min (p_escalation_level profile + severity_multipliers sev) 4) false /\
        _store_violation_record r w1 = (Ok stored, w2) /\
        _apply_enforcement_action now r profile w2 = (Ok applied, w3) /\
        (forall e w4,
            _update_user_escalation_level uid
              (Z.min (p_escalation_level profile + severity_multipliers sev) 4) w3
              = (Raise e, w4) ->
            process_violation uuid now self uid vt content sev dm w = (Raise e, w4)) /\
        (forall u w4,
            _update_user_escalation_level uid
              (Z.min (p_escalation_level profile + severity_multipliers sev) 4) w3
              = (Ok u, w4) ->
            exists self' w',
              process_violation uuid now self uid vt content sev dm w
                = (Ok (r, self'), w'))) /\
  (severity_multipliers LOW = 1 /\ severity_multipliers MEDIUM = 2 /\
   severity_multipliers HIGH = 3 /\ severity_multipliers CRITICAL = 5) /\
  stored_levels
      (snd (process_all "user-1" four_low initial_metrics (empty_store no_faults)))
    = [(1, WARNING); (2, MESSAGING_RESTRICTION);
       (3, ACCOUNT_SUSPENSION); (4, PERMANENT_BAN)] /\
  stored_levels
      (snd (process_all "user-2" [("id-9", 1000, CRITICAL)] initial_metrics
              (empty_store no_faults)))
    = [(4, PERMANENT_BAN)].
Proof.
  split; [|split; [|split]].
  - intros W env uuid now self uid vt content sev dm w.
    destruct (process_violation_steps uuid now self uid vt content sev dm w)
      as (p & w1 & rule & r & stored & w2 & applied & w3 &
          Hp & _ & Hrule & Hr & Hstore & Happly & Hproc).
    unfold new_escalation_level in *. rewrite max_level_is_4 in *.
    exists p, w1, rule, r, stored, w2, applied, w3.
    split; [exact Hp|]. split; [exact Hrule|]. split; [exact Hr|].
    split; [exact Hstore|]. split; [exact Happly|]. rewrite Hproc. split.
    + intros e w4 ->. reflexivity.
    + intros u w4 ->. destruct sev; eexists _, _; reflexivity.
  - repeat split.
  - vm_compute. reflexivity.
  - vm_compute. reflexivity.
Qed.

(** As the class ships, each of the four calls ends in the AttributeError of
    the level update it cannot find, after the record has been stored and
    the enforcement attempted. *)
Lemma C4_witness :
  map answer (fst (process_all "user-1" four_low initial_metrics (empty_store no_faults)))
    = [Raise no_level_update; Raise no_level_update;
       Raise no_level_update; Raise no_level_update] /\
  exists profile w1 rule r stored w2 applied w3,
    get_user_violation_profile "user-1" escalated_store = (Ok profile, w1) /\
    p_escalation_level profile = 3 /\
    r = mkRecord "id-4" "user-1" "contact_info" LOW "call me" "automated" 4000
                 (action rule) 4 false /\
    action rule = PERMANENT_BAN /\
    _store_violation_record r w1 = (Ok stored, w2) /\
    _apply_enforcement_action 4000 r profile w2 = (Ok applied, w3) /\
    process_violation "id-4" 4000 initial_metrics "user-1" "contact_info" "call me"
                      LOW "automated" escalated_store = (Raise no_level_update, w3).
Proof.
  split; [vm_compute; reflexivity|].
  destruct (proj1 C4_escalation_level Store store_env "id-4" 4000 initial_metrics
              "user-1" "contact_info" "call me" LOW "automated" escalated_store)
    as (p & w1 & rule & r & stored & w2 & applied & w3 &
        Hp & Hrule & Hr & Hstore & Happly & Hraise & _).
  assert (Hl : p_escalation_level p = 3)
    by (vm_compute in Hp; injection Hp as <- _; reflexivity).
  rewrite Hl in Hrule, Hr, Hraise. cbn in Hrule. injection Hrule as <-.
  eexists p, w1, _, r, stored, w2, applied, w3.
  split; [exact Hp|]. split; [exact Hl|]. split; [exact Hr|]. split; [reflexivity|].
  split; [exact Hstore|]. split; [exact Happly|].
  apply Hraise. reflexivity.
Defined.

(** A user recorded at level 3 whose history cannot be read: the default
    profile is delivered and the next low violation is recorded at level 1,
    a warning, instead of level 4, the ban. *)
Lemma C9_witness :
  let w := with_faults select_refused escalated_store in
  call_tool "supabase" (SelectViolations "user-1") w
    = (Raise (ConnectionError "supabase"), w) /\
  get_user_violation_profile "user-1" w = (Ok (default_profile "user-1"), w) /\
  exists r stored w2,
    escalation_level r = 1 /\ action_taken r = WARNING /\
    _store_violation_record r w = (Ok stored, w2) /\
    stored_levels w2 = [(1, WARNING); (2, MESSAGING_RESTRICTION);
                        (3, ACCOUNT_SUSPENSION); (1, WARNING)].
Proof.
  cbv zeta.
  assert (H : call_tool "supabase" (SelectViolations "user-1")
                (with_faults select_refused escalated_store)
              = (Raise (ConnectionError "supabase"),
                 with_faults select_refused escalated_store)) by reflexivity.
  split; [exact H|].
  destruct (C9_read_failure_fails_open "id-4" 4000 initial_metrics "user-1"
              "contact_info" "call me" LOW "automated" _ _ _ H)
    as (Hdef & _ & _ & _ & rule & r & stored & w2 & applied & w3 &
        Hrule & Hr & Hstore & _).
  split; [exact Hdef|].
  cbn in Hrule. injection Hrule as <-.
  exists r, stored, w2.
  split; [rewrite Hr; reflexivity|]. split; [rewrite Hr; reflexivity|].
  split; [exact Hstore|].
  rewrite Hr in Hstore. vm_compute in Hstore. injection Hstore as _ <-.
  vm_compute. reflexivity.
Defined.

(** The user at level 3 has the next low violation recorded at level 4, the
    ban, when the history can be read, and at level 1, a warning, when it
    cannot. *)
Example read_failure_resets_offender :
  stored_levels
      (snd (process_all "user-1" [("id-4", 4000, LOW)] initial_metrics escalated_store))
    = [(1, WARNING); (2, MESSAGING_RESTRICTION); (3, ACCOUNT_SUSPENSION);
       (4, PERMANENT_BAN)] /\
  stored_levels
      (snd (process_all "user-1" [("id-4", 4000, LOW)] initial_metrics
              (with_faults select_refused escalated_store)))
    = [(1, WARNING); (2, MESSAGING_RESTRICTION); (3, ACCOUNT_SUSPENSION);
       (1, WARNING)].
Proof. split; vm_compute; reflexivity. Qed.

Lemma C2_witness :
  (forall p w1,
      get_user_violation_profile "user-1" (empty_store insert_refused) = (Ok p, w1) ->
      forall v, exists e w1', call_tool "supabase" (InsertViolation v) w1 = (Raise e, w1')) /\
  exists profile w1 r w2 applied w3,
    get_user_violation_profile "user-1" (empty_store insert_refused) = (Ok profile, w1) /\
    _store_violation_record r w1 = (Ok false, w2) /\
    _apply_enforcement_action 1000 r profile w2 = (Ok applied, w3) /\
    escalation_level r = 4 /\
    refused_call = (Raise no_level_update, w3).
Proof.
  assert (H : forall p w1,
             get_user_violation_profile "user-1" (empty_store insert_refused) = (Ok p, w1) ->
             forall v, exists e w1',
               call_tool "supabase" (InsertViolation v) w1 = (Raise e, w1')).
  { intros p w1 Hp v. vm_compute in Hp. injection Hp as _ <-.
    eexists _, _. reflexivity. }
  split; [exact H|].
  destruct (C2_store_failure_is_swallowed "id-1" 1000 initial_metrics "user-1"
              "contact_info" "call me at 555-123-4567" CRITICAL "automated"
              (empty_store insert_refused) H)
    as (p & w1 & r & w2 & applied & w3 & Hp & Hstore & Happly & Hl & Hraise & _).
  exists p, w1, r, w2, applied, w3.
  split; [exact Hp|]. split; [exact Hstore|]. split; [exact Happly|].
  assert (Hp0 : p_escalation_level p = 0)
    by (vm_compute in Hp; injection Hp as <- _; reflexivity).
  assert (Hl4 : escalation_level r = 4).
  { rewrite Hl. unfold new_escalation_level. rewrite Hp0. reflexivity. }
  split; [exact Hl4|].
  apply Hraise. rewrite Hl4. reflexivity.
Defined.

(** C2 as stated fails: the store refuses the INSERT, and the enforcement is
    applied all the same: the ban is written to Redis and to the ban table
    while [security_violations] holds nothing.  The exception the call ends
    in is not the persistence failure: it is the AttributeError of the level
    update the class does not define, the one the same call ends in when the
    INSERT is accepted. *)
Lemma C2_counterexample :
  raised (fst (store_call_tool "supabase"
                 (InsertViolation
                    (mkRecord "id-1" "user-1" "contact_info" CRITICAL
                       "call me at 555-123-4567" "automated" 1000 PERMANENT_BAN 4 false))
                 (empty_store insert_refused))) = true /\
  security_violations (snd refused_call) = [] /\
  user_bans (snd refused_call) = ["user-1"] /\
  map fst (hashes (snd refused_call)) = ["user:ban:user-1"] /\
  fst refused_call = Raise no_level_update /\
  fst accepted_call = Raise no_level_update /\
  stored_levels (snd accepted_call) = [(4, PERMANENT_BAN)].
Proof. vm_compute. repeat split. Qed.

(** With the [MCPClient] of the module no history is ever read back and
    nothing is kept: each of four low violations is handled as a first one
    and ends in the same AttributeError. *)
Example stub_client_never_escalates :
  process_all (env := stub_env) "user-1" four_low initial_metrics (empty_store no_faults)
    = ([Raise no_level_update; Raise no_level_update;
        Raise no_level_update; Raise no_level_update], empty_store no_faults).
Proof. vm_compute. reflexivity. Qed.

End TrackerFacts.

(* ===================================================================== *)
(** * Properties of the contact protection filter *)
(* ===================================================================== *)

Module FilterFacts.
Import Filter FilterScenarios.

Local Open Scope string_scope.
Local Open Scope list_scope.

(** ** The tables *)

Lemma all_patterns_compile : forallb compiles all_patterns = true.
Proof. vm_compute. reflexivity. Qed.

(** No pattern of the tables can match the empty string, so the treatment
    of empty matches in [finditer_from] is never exercised. *)
Lemma no_pattern_nullable :
  forallb (fun p => negb (nullable (compile p))) all_patterns = true.
Proof. vm_compute. reflexivity. Qed.

Lemma phone_pattern_11_listed : In phone_pattern_11 phone_patterns.
Proof. unfold phone_patterns, phone_pattern_11. simpl. tauto. Qed.

(** ** Searching *)

Lemma finditer_from_finds r : forall pre prev pos s len,
  match_here r (last_char prev pre) s = Some len ->
  finditer_from r 0 prev pos (pre ++ s) <> [].
Proof.
  induction pre as [|c pre IH]; intros prev pos s len H; cbn [app].
  - cbn in H. destruct s as [|c s]; cbn [finditer_from]; rewrite H; discriminate.
  - cbn [finditer_from].
    destruct (match_here r prev (c :: pre ++ s)); [discriminate|].
    apply (IH (Some c) (S pos) s len). exact H.
Qed.

Lemma detect_with_finds type confidence patterns pattern content :
  In pattern patterns ->
  finditer (compile pattern) content <> [] ->
  exists v, In v (detect_with type confidence patterns content) /\
            v_type v = type /\ v_pattern v = Some pattern.
Proof.
  intros Hin Hne. unfold detect_with.
  destruct (finditer (compile pattern) content) as [|span spans] eqn:E; [congruence|].
  eexists. split.
  - apply in_flat_map. exists pattern. split; [exact Hin|].
    rewrite E. left. reflexivity.
  - split; reflexivity.
Qed.

Lemma detect_with_types type confidence patterns content v :
  In v (detect_with type confidence patterns content) -> v_type v = type.
Proof.
  unfold detect_with. intros H. apply in_flat_map in H. destruct H as (p & _ & H).
  apply in_map_iff in H. destruct H as (span & <- & _). reflexivity.
Qed.

Lemma rep_done cs prev s k : rep cs 0 (Some 0) prev s k = k prev s.
Proof. destruct s; cbn; [reflexivity|]. now rewrite andb_false_r. Qed.

Lemma rep_step cs n prev c s k :
  cset_match cs c = true ->
  rep cs (S n) (Some (S n)) prev (c :: s) k = rep cs n (Some n) (Some c) s k.
Proof.
  intros H. cbn. rewrite H. cbn. now destruct (rep cs n (Some n) (Some c) s k).
Qed.

(** Wherever 555-123-4567 stands in a text, the last phone pattern matches
    there, whatever comes before and after. *)
Lemma phone_pattern_11_matches prev post :
  match_here (compile phone_pattern_11) prev (canonical_phone ++ post) = Some 12.
Proof.
  replace (compile phone_pattern_11) with
    (Seq (Rep (mkSet false [Digit]) 3 (Some 3))
       (Seq (One (mkSet true [Word; Space]))
          (Seq (Rep (mkSet false [Digit]) 3 (Some 3))
             (Seq (One (mkSet true [Word; Space]))
                (Rep (mkSet false [Digit]) 4 (Some 4))))))
    by (vm_compute; reflexivity).
  unfold match_here.
  change (canonical_phone ++ post) with
    ("5" :: "5" :: "5" :: "-" :: "1" :: "2" :: "3" :: "-"
         :: "4" :: "5" :: "6" :: "7" :: post)%char.
  cbn [run].
  rewrite !rep_step by reflexivity. rewrite rep_done.
  change (cset_match (mkSet true [Word; Space]) "-"%char) with true. cbv iota.
  rewrite !rep_step by reflexivity. rewrite rep_done.
  change (cset_match (mkSet true [Word; Space]) "-"%char) with true. cbv iota.
  rewrite !rep_step by reflexivity. rewrite rep_done.
  cbn [List.length]. f_equal. lia.
Qed.

Lemma phone_found_in_any_text pre post :
  exists v, In v (_detect_phones (pre ++ canonical_phone ++ post)) /\
            v_type v = "phone_number".
Proof.
  destruct (detect_with_finds "phone_number" 0.95%float phone_patterns phone_pattern_11
              (pre ++ canonical_phone ++ post) phone_pattern_11_listed)
    as (v & Hin & Hty & _).
  - apply (finditer_from_finds (compile phone_pattern_11) pre None 0
             (canonical_phone ++ post) 12).
    apply phone_pattern_11_matches.
  - exists v. split; assumption.
Qed.

(** ** The scan *)

(** What a call of [scan_content] on a text comes to: it raises what the
    first of the two detectors called on [self] raises, and otherwise
    returns the result built from the six lists of findings. *)
Lemma scan_text_cases {detectors : Detectors} now content uid ctx :
  match scan_text now content uid ctx with
  | Raise e =>
      _detect_social_media content = Raise e \/
      _detect_obfuscation (lower content) = Raise e
  | Ok r =>
      exists social obfuscation,
        _detect_social_media content = Ok social /\
        _detect_obfuscation (lower content) = Ok obfuscation /\
        let all_violations :=
          _detect_phones content ++ _detect_emails content ++ social ++
          _detect_contact_intent (lower content) ++ obfuscation ++
          _analyze_context content uid ctx in
        r = match all_violations with
            | [] => mkResult false [] [] [] uid content content "low" now
            | _ => mkResult true (distinct (map v_type all_violations)) all_violations []
                     uid content (_apply_content_filtering content all_violations)
                     (_calculate_risk_level all_violations) now
            end
  end.
Proof.
  unfold scan_text.
  destruct (_detect_social_media content) as [social|e]; [|left; reflexivity].
  destruct (_detect_obfuscation (lower content)) as [obfuscation|e]; [|right; reflexivity].
  exists social, obfuscation. repeat split.
Qed.

(** As the class ships, the scan of a text ends at
    [self._detect_social_media(content)]. *)
Lemma shipped_scan_raises now content uid ctx :
  scan_content (detectors := ContactProtectionFilter_detectors) now (PyStr content) uid ctx
  = Raise (undefined_detector "_detect_social_media").
Proof. reflexivity. Qed.

Lemma risk_high_of_phone v vs :
  In v vs -> v_type v = "phone_number" -> _calculate_risk_level vs = "high".
Proof.
  intros Hin Hty. destruct vs as [|v0 vs]; [contradiction|].
  unfold _calculate_risk_level.
  replace (existsb _ (v0 :: vs)) with true; [reflexivity|].
  symmetry. apply existsb_exists. exists v. split; [exact Hin|].
  unfold type_in. rewrite Hty. reflexivity.
Qed.

(** ** The claims *)

(** C6. On every text containing 555-123-4567 the phone layer reports a
    phone_number match, with which the risk level is "high" and a scan that
    returns has violations_found = True.  The class as it ships does not
    return: [scan_content] calls [self._detect_social_media], which is
    defined nowhere, and raises AttributeError on every such text.  And the
    redaction replaces the span once for each pattern that matched it, every
    time at the offsets of the original text: for 555-123-4567 itself, found
    by four patterns at (0, 12), the placeholder is followed by the debris
    of the earlier replacements, and a number that overlaps an earlier match
    keeps its last digits. *)
Theorem C6_phone_reported_redaction_repeated :
  (forall now pre post uid ctx,
      scan_content (detectors := ContactProtectionFilter_detectors) now
        (PyStr (pre ++ canonical_phone ++ post)) uid ctx
      = Raise (undefined_detector "_detect_social_media")) /\
  (forall pre post, exists v,
      In v (_detect_phones (pre ++ canonical_phone ++ post)) /\
      v_type v = "phone_number" /\
      forall vs, In v vs -> _calculate_risk_level vs = "high") /\
  (forall (detectors : Detectors) now pre post uid ctx,
      match scan_content now (PyStr (pre ++ canonical_phone ++ post)) uid ctx with
      | Ok r =>
          violations_found r = true /\ risk_level r = "high" /\
          exists v, In v (detected_patterns r) /\ v_type v = "phone_number"
      | Raise e =>
          _detect_social_media (pre ++ canonical_phone ++ post) = Raise e \/
          _detect_obfuscation (lower (pre ++ canonical_phone ++ post)) = Raise e
      end) /\
  map shown (_detect_phones canonical_phone)
    = [("phone_number", "555-123-4567", Some (0, 12));
       ("phone_number", "555-123-4567", Some (0, 12));
       ("phone_number", "555-123-4567", Some (0, 12));
       ("phone_number", "555-123-4567", Some (0, 12))] /\
  string_of_list_ascii
    (_apply_content_filtering canonical_phone (_detect_phones canonical_phone))
    = "[PHONE NUMBER BLOCKED]R BLOCKED]R BLOCKED]R BLOCKED]" /\
  string_of_list_ascii
    (_apply_content_filtering (py "111-222-3555-123-4567")
       (_detect_phones (py "111-222-3555-123-4567")))
    = "[PHONE NUMBER BLOCKED]R BLOCKED]R BLOCKED]R BLOCKED]-123-4567".
Proof.
  split; [|split; [|split; [|split; [|split]]]].
  - intros. apply shipped_scan_raises.
  - intros pre post.
    destruct (phone_found_in_any_text pre post) as (v & Hin & Hty).
    exists v. split; [exact Hin|split; [exact Hty|]].
    intros vs Hvs. exact (risk_high_of_phone v vs Hvs Hty).
  - intros detectors now pre post uid ctx. cbn [scan_content].
    pose proof (scan_text_cases now (pre ++ canonical_phone ++ post) uid ctx) as H.
    destruct (scan_text now (pre ++ canonical_phone ++ post) uid ctx) as [r|e]; [|exact H].
    destruct H as (social & obfuscation & _ & _ & Hr). cbv zeta in Hr.
    destruct (phone_found_in_any_text pre post) as (v & Hin & Hty).
    set (content := pre ++ canonical_phone ++ post) in *.
    match type of Hr with
    | _ = match ?l with [] => _ | _ :: _ => _ end =>
        assert (Hall : In v l) by (apply in_or_app; left; exact Hin);
        destruct l as [|v0 found]; [contradiction|]
    end.
    subst r. cbn [violations_found detected_patterns risk_level].
    split; [reflexivity|split].
    + exact (risk_high_of_phone v _ Hall Hty).
    + exists v. split; assumption.
  - vm_compute. reflexivity.
  - vm_compute. reflexivity.
  - vm_compute. reflexivity.
Qed.

(** C5 as stated fails: the redaction of "john@example.com" is the
    placeholder [EMAIL BLOCKED], and in it the e-mail layer matches the
    words EMAIL BLOCKED as an e-mail address, which a further redaction
    brackets once more. *)
Lemma C5_counterexample :
  let content := py "john@example.com" in
  let redacted_text := _apply_content_filtering content (_detect_emails content) in
  string_of_list_ascii redacted_text = "[EMAIL BLOCKED]" /\
  map shown (_detect_emails redacted_text)
    = [("email_address", "EMAIL BLOCKED", Some (1, 14))] /\
  string_of_list_ascii
    (_apply_content_filtering redacted_text (_detect_emails redacted_text))
    = "[[EMAIL BLOCKED]]".
Proof. vm_compute. repeat split. Qed.

(** C5 (amended). The placeholder [EMAIL BLOCKED] is itself detected: the
    e-mail layer matches the words EMAIL BLOCKED in it (its pattern for
    "email" followed by a name).  The other placeholders,
    [PHONE NUMBER BLOCKED], [SOCIAL MEDIA BLOCKED], [CONTACT REQUEST BLOCKED]
    and [CONTACT INFO BLOCKED], are detected by none of the layers the class
    defines: not by the phone layer, the e-mail layer, the intent layer (on
    the lower-cased text) or the sentence layer. *)
Theorem C5_placeholders_rescanned :
  map shown (_detect_emails (py "[EMAIL BLOCKED]"))
    = [("email_address", "EMAIL BLOCKED", Some (1, 14))] /\
  (forall p, In p other_placeholders ->
      _detect_phones (py p) = [] /\ _detect_emails (py p) = [] /\
      _detect_contact_intent (lower (py p)) = [] /\
      forall uid ctx, _analyze_context (py p) uid ctx = []).
Proof.
  split; [vm_compute; reflexivity|].
  intros p Hp. cbn in Hp.
  destruct Hp as [<-|[<-|[<-|[<-|[]]]]]; vm_compute; repeat split.
Qed.

Lemma C5_witness :
  In "[PHONE NUMBER BLOCKED]" other_placeholders /\
  _detect_phones (py "[PHONE NUMBER BLOCKED]") = [] /\
  _detect_emails (py "[PHONE NUMBER BLOCKED]") = [].
Proof.
  assert (Hp : In "[PHONE NUMBER BLOCKED]" other_placeholders) by (left; reflexivity).
  split; [exact Hp|].
  destruct (proj2 C5_placeholders_rescanned "[PHONE NUMBER BLOCKED]" Hp) as (H1 & H2 & _).
  split; [exact H1|exact H2].
Defined.

(** C8 as stated fails for input that is not text: [scan_content(None, ...)]
    raises AttributeError at [content.lower()]. *)
Lemma C8_counterexample :
  scan_content (detectors := ContactProtectionFilter_detectors) 0 PyNone "user-1" None
  = Raise (AttributeError "'NoneType' object has no attribute 'lower'").
Proof. reflexivity. Qed.

(** C8 (amended). [scan_content] takes a text.  Input that is not text
    (None, a number, bytes) makes it raise, whatever the detectors, and no
    result is delivered.  On the empty text none of the four layers the
    class defines reports anything; and a result without violations carries
    no match, the text unchanged and the risk level "low". *)
Theorem C8_scan_raises_on_non_text :
  (forall (detectors : Detectors) now v uid ctx,
      is_text v = false -> exists e, scan_content now v uid ctx = Raise e) /\
  (_detect_phones [] = [] /\ _detect_emails [] = [] /\
   _detect_contact_intent (lower []) = [] /\
   forall uid ctx, _analyze_context [] uid ctx = []) /\
  (forall (detectors : Detectors) now s uid ctx,
      match scan_content now (PyStr s) uid ctx with
      | Ok r =>
          content_original r = s /\
          (violations_found r = false ->
           detected_patterns r = [] /\ violation_types r = [] /\
           content_filtered r = s /\ risk_level r = "low")
      | Raise e =>
          _detect_social_media s = Raise e \/ _detect_obfuscation (lower s) = Raise e
      end).
Proof.
  split; [|split].
  - intros detectors now [s|b|z|] uid ctx H; try discriminate H; eexists; reflexivity.
  - vm_compute. repeat split.
  - intros detectors now s uid ctx. cbn [scan_content].
    pose proof (scan_text_cases now s uid ctx) as H.
    destruct (scan_text now s uid ctx) as [r|e]; [|exact H].
    destruct H as (social & obfuscation & _ & _ & H). cbv zeta in H.
    match type of H with
    | _ = match ?l with [] => _ | _ :: _ => _ end => destruct l
    end; subst r; cbn; split; try reflexivity; try discriminate; auto.
Qed.

Lemma C8_witness :
  is_text (PyBytes (py "555-123-4567")) = false /\
  exists e, scan_content (detectors := ContactProtectionFilter_detectors) 0
              (PyBytes (py "555-123-4567")) "user-1" None = Raise e.
Proof.
  assert (Hb : is_text (PyBytes (py "555-123-4567")) = false) by reflexivity.
  split; [exact Hb|].
  exact (proj1 C8_scan_raises_on_non_text ContactProtectionFilter_detectors 0%Z
           (PyBytes (py "555-123-4567")) "user-1" None Hb).
Defined.

(** Sentence-level matches have no position and are not redacted: the
    sentence layer finds the same request again in the redacted text of
    "please call me". *)
Example sentence_matches_stay :
  let content := py "please call me" in
  let redacted_text :=
    _apply_content_filtering content (_analyze_context content "user-1" None) in
  string_of_list_ascii redacted_text = "please call me" /\
  map shown (_analyze_context redacted_text "user-1" None)
    = [("contact_imperative", "please call me", None)].
Proof. vm_compute. split; reflexivity. Qed.

(** The end-to-end scenario of the specification: what the four defined
    layers find and how their findings are redacted, and what the scan
    itself does as the class ships. *)
Example scan_call_me :
  let content := py "Call me at 555-123-4567 about the bathroom remodel" in
  let found :=
    _detect_phones content ++ _detect_emails content ++
    _detect_contact_intent (lower content) ++ _analyze_context content "user-1" None in
  scan_content (detectors := ContactProtectionFilter_detectors) 0 (PyStr content)
    "user-1" None = Raise (undefined_detector "_detect_social_media") /\
  _calculate_risk_level found = "high" /\
  distinct (map v_type found) = ["phone_number"; "contact_intent"; "contact_imperative"] /\
  string_of_list_ascii (_apply_content_filtering content found)
    = "[CONTACT REQUEST BLOCKED] [PHONE NUMBER BLOCKED]R BLOCKED]R BLOCKED]R BLOCKED] about the bathroom remodel".
Proof. vm_compute. repeat split. Qed.

End FilterFacts.

(* ===================================================================== *)
(** * Invariants of the cost circuit breaker *)
(* ===================================================================== *)

Module CostBreakerInvariants.
Import CostBreaker Callers CostBreakerScenarios ExtraScenarios CostBreakerFacts.

Local Open Scope string_scope.
Local Open Scope list_scope.
Local Open Scope float_scope.

(** ** Float order *)

Lemma float_lt_le (x y : float) : (x <? y) = true -> (x <=? y) = true.
Proof.
  rewrite leb_spec, ltb_spec. unfold SFleb, SFltb.
  destruct (SFcompare (Prim2SF x) (Prim2SF y)) as [[]|]; congruence.
Qed.

Lemma max0_not_negative x : (0 <=? max0 x) = true.
Proof.
  unfold max0. destruct (0 <? x) eqn:E.
  - now apply float_lt_le.
  - reflexivity.
Qed.

(** ** The history *)

Lemma last_n_length {A} n (l : list A) :
  (n <= List.length l)%nat -> List.length (last_n n l) = n.
Proof. intros H. unfold last_n. rewrite length_skipn. lia. Qed.

Section History.
Context {mcp : MCP}.

Lemma log_violation_history v b :
  violation_history (_log_cost_violation v b) =
  (if (100 <? List.length (violation_history b ++ [v]))%nat
   then last_n 100 (violation_history b ++ [v])
   else violation_history b ++ [v]).
Proof.
  unfold _log_cost_violation, _alert_administrators.
  destruct (call_mcp_tool _ _ _); [destruct (v_type v)|]; reflexivity.
Qed.

Lemma log_violation_bounded v b :
  (List.length (violation_history (_log_cost_violation v b)) <= 100)%nat.
Proof.
  rewrite log_violation_history.
  destruct (100 <? List.length (violation_history b ++ [v]))%nat eqn:E.
  - apply Nat.ltb_lt in E. rewrite last_n_length; lia.
  - apply Nat.ltb_ge in E. exact E.
Qed.

Lemma log_violation_newest v b :
  newest (violation_history (_log_cost_violation v b)) = Some v.
Proof.
  rewrite log_violation_history. unfold newest.
  destruct (100 <? List.length (violation_history b ++ [v]))%nat eqn:E.
  - unfold last_n. rewrite skipn_app.
    rewrite length_app in *. cbn [List.length] in *.
    replace (List.length (violation_history b) + 1 - 100 - List.length (violation_history b))%nat
      with 0%nat by lia.
    cbn [skipn]. rewrite rev_app_distr. reflexivity.
  - rewrite rev_app_distr. reflexivity.
Qed.

Lemma log_violation_clock v b :
  last_reset (_log_cost_violation v b) = last_reset b /\
  current_hour (_log_cost_violation v b) = current_hour b.
Proof. unfold _log_cost_violation, _alert_administrators. break_match; auto. Qed.

Lemma trigger_history now why b :
  (List.length (violation_history (_trigger_emergency_shutdown now why b)) <= 100)%nat /\
  (exists v, newest (violation_history (_trigger_emergency_shutdown now why b)) = Some v /\
             v_type v = EMERGENCY_SHUTDOWN /\ v_timestamp v = now) /\
  last_reset (_trigger_emergency_shutdown now why b) = last_reset b.
Proof.
  unfold _trigger_emergency_shutdown, _alert_administrators.
  set (ev := mkViolation _ _ _ _).
  set (b1 := set_shutdown true (Some why) b).
  pose proof (log_violation_bounded ev b1) as H1.
  pose proof (log_violation_newest ev b1) as H2.
  destruct (log_violation_clock ev b1) as (H3 & _).
  destruct (call_mcp_tool _ _ _); (split; [exact H1|split; [exists ev; auto|exact H3]]).
Qed.

End History.

(** ** One check, case by case *)

Section Checks.
Context {mcp : MCP}.

Lemma refresh_clock now b :
  (last_reset b <= last_reset (_update_cost_tracking now b))%Z /\
  (date_of now <= last_reset (_update_cost_tracking now b))%Z /\
  current_hour (_update_cost_tracking now b) = hour_of now.
Proof.
  unfold _update_cost_tracking.
  destruct (last_reset b <? date_of now)%Z eqn:E1;
    [apply Z.ltb_lt in E1|apply Z.ltb_ge in E1];
    destruct (hour_of now =? _)%Z eqn:E2;
    try apply Z.eqb_eq in E2; cbn [negb];
    break_match; cbn; repeat split; try lia; auto.
Qed.

(** X1. A check is approved exactly when the breaker is closed and the
    estimate passes the per-event ceiling, the daily ceiling and the hourly
    ceiling, the two totals being those refreshed at the start of the call.
    An approved check leaves the breaker as the refresh left it and gives
    the reason "Cost approval granted". *)
Theorem approved_exactly_when_all_ceilings_hold now est op ctx b :
  let b0 := _update_cost_tracking now b in
  approved (fst (check_cost_approval now est op ctx b)) =
    negb (is_shutdown b) && negb (per_event_limit b <? est)
    && negb (daily_limit b <? daily_cost b0 + est)
    && negb (hourly_limit b <? hourly_cost b0 + est) /\
  (approved (fst (check_cost_approval now est op ctx b)) = true ->
   snd (check_cost_approval now est op ctx b) = b0 /\
   reason (fst (check_cost_approval now est op ctx b)) = CostApprovalGranted).
Proof.
  intros b0.
  pose proof (update_limits now b) as HL. unfold limits in HL.
  injection HL as HL1 HL2 HL3 HL4. fold b0 in HL1, HL2, HL3, HL4.
  unfold check_cost_approval. fold b0. rewrite <- HL1, <- HL2, <- HL3.
  destruct (is_shutdown b); cbn [negb andb fst snd approved]; [split; [reflexivity|discriminate]|].
  destruct (per_event_limit b0 <? est); cbn [negb andb fst snd approved];
    [split; [reflexivity|discriminate]|].
  destruct (daily_limit b0 <? daily_cost b0 + est); cbn [negb andb fst snd approved];
    [split; [reflexivity|discriminate]|].
  destruct (hourly_limit b0 <? hourly_cost b0 + est); cbn [negb andb fst snd approved reason];
    [split; [reflexivity|discriminate]|].
  rewrite log_approved_id. split; [reflexivity|]. intros _. split; reflexivity.
Qed.

(** X2. Every refusal by a closed breaker is written to the violation
    history: the newest entry is stamped with the time of the call and has
    the type of the ceiling that was hit, with the estimate, or is the
    emergency shutdown entry when the daily refusal tripped the breaker. *)
Theorem every_refusal_is_logged now est op ctx b :
  is_shutdown b = false ->
  approved (fst (check_cost_approval now est op ctx b)) = false ->
  let d := fst (check_cost_approval now est op ctx b) in
  let b' := snd (check_cost_approval now est op ctx b) in
  exists v,
    newest (violation_history b') = Some v /\ v_timestamp v = now /\
    (List.length (violation_history b') <= 100)%nat /\
    ((warnings d = ["PER_EVENT_LIMIT_EXCEEDED"] /\ v_type v = PER_EVENT_EXCEEDED /\
      v_estimated_cost v = Some est)
     \/ (warnings d = ["DAILY_LIMIT_EXCEEDED"] /\ is_shutdown b' = false /\
         v_type v = DAILY_LIMIT_EXCEEDED /\ v_estimated_cost v = Some est)
     \/ (warnings d = ["DAILY_LIMIT_EXCEEDED"] /\ is_shutdown b' = true /\
         v_type v = EMERGENCY_SHUTDOWN)
     \/ (warnings d = ["HOURLY_RATE_EXCEEDED"] /\ v_type v = HOURLY_RATE_EXCEEDED /\
         v_estimated_cost v = Some est)).
Proof.
  intros Hclosed. unfold check_cost_approval. rewrite Hclosed.
  pose proof (update_is_shutdown now b) as HS. rewrite Hclosed in HS.
  set (b0 := _update_cost_tracking now b) in *.
  destruct (per_event_limit b0 <? est).
  { intros _. cbn [fst snd warnings]. eexists. split; [apply log_violation_newest|].
    split; [reflexivity|]. split; [apply log_violation_bounded|]. left. auto. }
  destruct (daily_limit b0 <? daily_cost b0 + est).
  { intros _. cbn [fst snd warnings].
    match goal with
    | |- context [_log_cost_violation ?v b0] =>
        set (viol := v); set (b1 := _log_cost_violation viol b0)
    end.
    destruct (log_violation_frame viol b0) as (Hs & _ & Hl & _). fold b1 in Hs, Hl.
    unfold limits in Hl. injection Hl as _ _ _ Hl4. rewrite Hl4.
    destruct (emergency_threshold b0 <? daily_cost b0 + est).
    - destruct (trigger_history now (ProjectionExceedsThreshold (daily_cost b0 + est)) b1)
        as (Hlen & (v & Hv & Hty & Hts) & _).
      exists v. split; [exact Hv|]. split; [exact Hts|]. split; [exact Hlen|].
      right. right. left. split; [reflexivity|]. split; [apply trigger_frame|exact Hty].
    - exists viol. split; [apply log_violation_newest|]. split; [reflexivity|].
      split; [apply log_violation_bounded|].
      right. left. rewrite Hs, HS. auto. }
  destruct (hourly_limit b0 <? hourly_cost b0 + est).
  { intros _. cbn [fst snd warnings]. eexists. split; [apply log_violation_newest|].
    split; [reflexivity|]. split; [apply log_violation_bounded|]. right. right. right. auto. }
  cbn [fst approved]. discriminate.
Qed.

Lemma check_history_bounded now est op ctx b :
  (List.length (violation_history b) <= 100)%nat ->
  (List.length (violation_history (snd (check_cost_approval now est op ctx b))) <= 100)%nat.
Proof.
  intros H. unfold check_cost_approval.
  destruct (is_shutdown b); [exact H|].
  repeat match goal with
         | |- context [if ?c then _ else _] => destruct c
         end; cbn [snd]; rewrite ?log_approved_id, ?update_history;
    try apply trigger_history; try apply log_violation_bounded; exact H.
Qed.

Lemma check_limits_and_clock now est op ctx b :
  limits (snd (check_cost_approval now est op ctx b)) = limits b /\
  (last_reset b <= last_reset (snd (check_cost_approval now est op ctx b)))%Z.
Proof.
  unfold check_cost_approval.
  destruct (is_shutdown b); [cbn; split; [reflexivity|lia]|].
  pose proof (update_limits now b) as HL.
  destruct (refresh_clock now b) as (HR & _).
  set (b0 := _update_cost_tracking now b) in *.
  repeat match goal with
         | |- context [if ?c then _ else _] => destruct c
         end; cbn [snd]; rewrite ?log_approved_id;
  repeat match goal with
         | |- context [_trigger_emergency_shutdown ?n ?w ?s] =>
             let H1 := fresh in let H2 := fresh in
             destruct (trigger_frame n w s) as (_ & _ & H1 & _);
             destruct (trigger_history n w s) as (_ & _ & H2);
             rewrite H1, H2; clear H1 H2
         | |- context [_log_cost_violation ?v ?s] =>
             let H1 := fresh in let H2 := fresh in
             destruct (log_violation_frame v s) as (_ & _ & H1 & _);
             destruct (log_violation_clock v s) as (H2 & _);
             rewrite H1, H2; clear H1 H2
         end; split; assumption.
Qed.

(** X3. An approved check carries no warning while the violation history
    has three entries or fewer: the burst test needs more than three recent
    violations and the escalating-cost test more than five. *)
Theorem no_warning_before_four_violations now est op ctx b :
  (List.length (violation_history b) <= 3)%nat ->
  approved (fst (check_cost_approval now est op ctx b)) = true ->
  warnings (fst (check_cost_approval now est op ctx b)) = [].
Proof.
  intros Hlen. unfold check_cost_approval.
  destruct (is_shutdown b); [discriminate|].
  pose proof (update_history now b) as HH.
  set (b0 := _update_cost_tracking now b) in *.
  repeat match goal with
         | |- context [if ?c then _ else _] => destruct c; [discriminate|]
         end.
  intros _. cbn [fst warnings]. unfold _detect_suspicious_patterns. rewrite HH.
  assert (H3 : (3 <? List.length
                  (filter (fun v => (delta_seconds now (v_timestamp v) <? 300)%Z)
                          (last_n 10 (violation_history b))))%nat = false).
  { apply Nat.ltb_ge.
    etransitivity; [apply filter_length_le|].
    unfold last_n. rewrite length_skipn. lia. }
  rewrite H3, andb_false_r.
  replace (5 <? List.length (violation_history b))%nat with false
    by (symmetry; apply Nat.ltb_ge; lia).
  reflexivity.
Qed.

(** X4. When the MCP client answers every call, recording a cost opens the
    breaker exactly when it was open already or the new daily total exceeds
    the emergency threshold; the history stays within its bound. *)
Theorem record_trips_when_store_answers now actual_cost op b :
  (forall tool_name operation params, exists r,
      call_mcp_tool tool_name operation params = Ok r) ->
  is_shutdown (record_actual_cost now actual_cost op b) =
    is_shutdown b || (emergency_threshold b <? daily_cost b + actual_cost) /\
  (List.length (violation_history b) <= 100 ->
   List.length (violation_history (record_actual_cost now actual_cost op b)) <= 100)%nat.
Proof.
  intros Hok. unfold record_actual_cost.
  destruct (Hok "redis" "increment_cost" [("amount", VNum actual_cost)]) as (r1 & ->).
  match goal with
  | |- context [call_mcp_tool "supabase" "log_cost_event" ?p] =>
      destruct (Hok "supabase" "log_cost_event" p) as (r2 & ->)
  end.
  cbn [emergency_threshold daily_cost set_hourly_cost set_daily_cost].
  destruct (emergency_threshold b <? daily_cost b + actual_cost).
  - rewrite orb_true_r. split; [apply trigger_frame|]. intros _. apply trigger_history.
  - rewrite orb_false_r. split; [reflexivity|]. cbn. auto.
Qed.

(** X5. When the Redis write of [record_actual_cost] fails, the cost is
    still added to both totals, but the emergency test after it is skipped:
    the breaker's flag and history are as before, however high the total. *)
Theorem record_skips_trip_when_store_write_fails now actual_cost op b :
  (forall params, raised (call_mcp_tool "redis" "increment_cost" params) = true) ->
  record_actual_cost now actual_cost op b =
    set_hourly_cost (hourly_cost b + actual_cost)
      (set_daily_cost (daily_cost b + actual_cost) b) /\
  is_shutdown (record_actual_cost now actual_cost op b) = is_shutdown b /\
  violation_history (record_actual_cost now actual_cost op b) = violation_history b.
Proof.
  intros H. unfold record_actual_cost.
  specialize (H [("amount", VNum actual_cost)]).
  destruct (call_mcp_tool "redis" "increment_cost" _); [discriminate|].
  repeat split.
Qed.

Lemma record_history_bounded now cost op b :
  (List.length (violation_history b) <= 100)%nat ->
  (List.length (violation_history (record_actual_cost now cost op b)) <= 100)%nat.
Proof.
  intros H. unfold record_actual_cost.
  break_match; try exact H; apply trigger_history.
Qed.

Lemma record_limits_and_clock now cost op b :
  limits (record_actual_cost now cost op b) = limits b /\
  last_reset (record_actual_cost now cost op b) = last_reset b.
Proof.
  unfold record_actual_cost.
  break_match; try (split; reflexivity).
  match goal with
  | |- context [_trigger_emergency_shutdown ?n ?w ?s] =>
      destruct (trigger_frame n w s) as (_ & _ & H1 & _);
      destruct (trigger_history n w s) as (_ & _ & H2)
  end.
  rewrite H1, H2. split; reflexivity.
Qed.

Lemma reset_frame now key why b :
  limits (snd (reset_circuit_breaker now key why b)) = limits b /\
  last_reset (snd (reset_circuit_breaker now key why b)) = last_reset b /\
  violation_history (snd (reset_circuit_breaker now key why b)) = violation_history b /\
  totals (snd (reset_circuit_breaker now key why b)) = totals b.
Proof. unfold reset_circuit_breaker. break_match; repeat split. Qed.

(** X6. The remaining budgets a check reports are never negative and never
    NaN, also when a total is above its limit. *)
Theorem remaining_budget_never_negative now est op ctx b :
  let c := current_costs (fst (check_cost_approval now est op ctx b)) in
  (0 <=? c_daily_remaining c) = true /\ (0 <=? c_hourly_remaining c) = true.
Proof.
  unfold check_cost_approval.
  repeat match goal with
         | |- context [if ?c then _ else _] => destruct c
         end; cbn [fst current_costs]; unfold _get_current_costs;
    cbn [c_daily_remaining c_hourly_remaining]; split; apply max0_not_negative.
Qed.

End Checks.

(** ** Any sequence of calls *)

Lemma step_invariants c b :
  (List.length (violation_history b) <= 100 ->
   List.length (violation_history (step c b)) <= 100)%nat /\
  limits (step c b) = limits b /\
  (last_reset b <= last_reset (step c b))%Z.
Proof.
  destruct c as [mcp now est op ctx|mcp now cost op|mcp now key why]; cbn [step].
  - split; [apply check_history_bounded|apply check_limits_and_clock].
  - destruct (record_limits_and_clock (mcp := mcp) now cost op b) as (H1 & H2).
    split; [apply record_history_bounded|]. split; [exact H1|lia].
  - destruct (reset_frame (mcp := mcp) now key why b) as (H1 & H2 & H3 & _).
    rewrite H3. split; [auto|]. split; [exact H1|lia].
Qed.

(** X7. Whatever calls are made on a breaker, with whatever MCP clients and
    clocks, its violation history never holds more than 100 entries. *)
Theorem history_never_exceeds_100 calls now dl pe hl et :
  (List.length (violation_history (run calls (init now dl pe hl et))) <= 100)%nat.
Proof.
  assert (G : forall b, (List.length (violation_history b) <= 100)%nat ->
                        (List.length (violation_history (run calls b)) <= 100)%nat).
  { unfold run. induction calls as [|c calls IH]; intros b H; cbn [fold_left].
    - exact H.
    - apply IH. apply step_invariants. exact H. }
  apply G. cbn. lia.
Qed.

(** X8. No sequence of checks, recordings and resets changes a configured
    limit, and the day of the last daily reset never goes back. *)
Theorem limits_fixed_and_reset_day_monotone calls b :
  limits (run calls b) = limits b /\ (last_reset b <= last_reset (run calls b))%Z.
Proof.
  unfold run. revert b. induction calls as [|c calls IH]; intros b; cbn [fold_left].
  - split; [reflexivity|lia].
  - destruct (IH (step c b)) as (H1 & H2).
    destruct (step_invariants c b) as (_ & H3 & H4).
    rewrite H1, H3. split; [reflexivity|lia].
Qed.

(** ** The published tiers against the default ceiling *)

(** X9. Every tier of [COST_TIERS] has a cost, and a closed breaker with
    the default per-event limit of 0.05 refuses a check priced at a tier for
    the per-event ceiling exactly for the tiers MEDIUM, LARGE and CRITICAL. *)
Theorem default_breaker_refuses_three_tiers {mcp : MCP} now op ctx b t :
  is_shutdown b = false ->
  per_event_limit b = default_per_event_limit ->
  exists cost,
    get_cost_for_tier t = Ok cost /\
    (reason (fst (check_cost_approval now cost op ctx b))
       = PerEventLimitExceeded cost default_per_event_limit
     <-> In t [MEDIUM; LARGE; CRITICAL]).
Proof.
  intros Hclosed Hpe.
  pose proof (update_limits now b) as HL. unfold limits in HL.
  injection HL as _ HL _ _. rewrite Hpe in HL.
  destruct t; eexists; (split; [reflexivity|]);
    unfold check_cost_approval; rewrite Hclosed;
    set (b0 := _update_cost_tracking now b) in *; rewrite HL;
    match goal with
    | |- context [default_per_event_limit <? ?c] =>
        let v := eval vm_compute in (default_per_event_limit <? c) in
        change (default_per_event_limit <? c) with v
    end; cbv iota.
  1,2: split;
    [ repeat match goal with
             | |- context [if ?c then _ else _] => destruct c
             end; cbn [fst reason]; discriminate
    | cbn [In]; intros [H | [H | [H | []]]]; discriminate ].
  all: cbn [fst reason]; unfold _log_cost_violation, _alert_administrators;
    split; [intros _; cbn [In]; auto|intros _].
  all: break_match; cbn [per_event_limit]; rewrite ?HL; reflexivity.
Qed.


(** ** Instances *)

Lemma every_refusal_is_logged_witness :
  exists v,
    newest (violation_history
              (snd (check_cost_approval (mcp := MCPCostBreaker) 0 4 "general" []
                      breaker_5_100))) = Some v /\
    v_timestamp v = 0%Z /\ v_type v = DAILY_LIMIT_EXCEEDED.
Proof.
  destruct (every_refusal_is_logged (mcp := MCPCostBreaker) 0%Z 4 "general" []
              breaker_5_100) as (v & Hv & Ht & _ & Hc).
  - reflexivity.
  - vm_compute. reflexivity.
  - exists v. split; [exact Hv|]. split; [exact Ht|].
    vm_compute in Hv. injection Hv as <-. reflexivity.
Defined.

Lemma no_warning_before_four_violations_witness :
  warnings (fst (check_cost_approval (mcp := cost_store_reporting 10) 0 4 "general" []
                   breaker_5_100)) = [].
Proof.
  apply (no_warning_before_four_violations (mcp := cost_store_reporting 10)).
  - cbn. lia.
  - vm_compute. reflexivity.
Defined.

Lemma record_trips_when_store_answers_witness :
  is_shutdown (record_actual_cost (mcp := cost_store_reporting 10) 0 130 "general"
                 breaker_5_100_120) = true.
Proof.
  destruct (record_trips_when_store_answers (mcp := cost_store_reporting 10) 0%Z 130
              "general" breaker_5_100_120) as (H & _).
  - intros tool_name operation params. cbn.
    destruct (_ && _); eexists; reflexivity.
  - rewrite H. vm_compute. reflexivity.
Defined.

Lemma record_skips_trip_when_store_write_fails_witness :
  is_shutdown (record_actual_cost (mcp := redis_down) 0 130 "general" breaker_5_100_120)
    = false /\
  daily_cost (record_actual_cost (mcp := redis_down) 0 130 "general" breaker_5_100_120)
    = 130.
Proof.
  destruct (record_skips_trip_when_store_write_fails (mcp := redis_down) 0%Z 130
              "general" breaker_5_100_120) as (H & _).
  - intros params. reflexivity.
  - rewrite H. split; vm_compute; reflexivity.
Defined.

Lemma default_breaker_refuses_three_tiers_witness :
  let b := init 0 default_daily_limit default_per_event_limit default_hourly_limit
                default_emergency_threshold in
  reason (fst (check_cost_approval (mcp := cost_store_reporting 0) 0 0.25 "general" [] b))
    = PerEventLimitExceeded 0.25 default_per_event_limit.
Proof.
  cbv zeta.
  destruct (default_breaker_refuses_three_tiers (mcp := cost_store_reporting 0) 0%Z
              "general" []
              (init 0 default_daily_limit default_per_event_limit default_hourly_limit
                    default_emergency_threshold) Callers.MEDIUM)
    as (cost & Hc & H).
  - reflexivity.
  - reflexivity.
  - injection Hc as <-. apply H. cbn. auto.
Defined.

End CostBreakerInvariants.

(* ===================================================================== *)
(** * Invariants of the violation tracker *)
(* ===================================================================== *)

Module TrackerInvariants.
Import Tracker TrackerScenarios ExtraScenarios TrackerFacts.

Local Open Scope string_scope.
Local Open Scope list_scope.
Local Open Scope Z_scope.
Local Open Scope monad_scope.

Lemma severity_round_trip text s :
  ViolationSeverity_of text = Ok s <-> text = ViolationSeverity_value s.
Proof.
  split.
  - unfold ViolationSeverity_of.
    repeat match goal with
           | |- context [String.eqb text ?c] =>
               destruct (String.eqb_spec text c) as [-> | _]
           end; intros H; inversion H; reflexivity.
  - intros ->. destruct s; reflexivity.
Qed.

Lemma action_round_trip text a :
  EnforcementAction_of text = Ok a <-> text = EnforcementAction_value a.
Proof.
  split.
  - unfold EnforcementAction_of.
    repeat match goal with
           | |- context [String.eqb text ?c] =>
               destruct (String.eqb_spec text c) as [-> | _]
           end; intros H; inversion H; reflexivity.
  - intros ->. destruct a; reflexivity.
Qed.

Lemma row_record_row_of uid v : row_record uid (row_of v) = Ok (reloaded uid v).
Proof.
  unfold row_record, row_of. cbn.
  rewrite (proj2 (severity_round_trip _ (severity v)) eq_refl).
  rewrite (proj2 (action_round_trip _ (action_taken v)) eq_refl).
  reflexivity.
Qed.

(** X10. What the tracker writes is what it reads back: a row holding the
    stored columns of a record is rebuilt into that record, with the user of
    the query, the content replaced by "[STORED_CONTENT]" and the detection
    method by "stored"; and a row is only ever rebuilt from the value texts
    of the two enumerations and a readable timestamp. *)
Theorem stored_columns_round_trip uid :
  (forall v, row_record uid (row_of v) = Ok (reloaded uid v)) /\
  (forall row r, row_record uid row = Ok r ->
     row_severity row = ViolationSeverity_value (severity r) /\
     row_action_taken row = EnforcementAction_value (action_taken r) /\
     row_timestamp row = Some (timestamp r) /\
     user_id r = uid /\ content r = "[STORED_CONTENT]" /\ detection_method r = "stored").
Proof.
  split; [apply row_record_row_of|].
  intros row r. unfold row_record.
  destruct (ViolationSeverity_of (row_severity row)) as [s|] eqn:Es; [|discriminate].
  destruct (row_timestamp row) as [ts|]; [|discriminate].
  destruct (EnforcementAction_of (row_action_taken row)) as [a|] eqn:Ea; [|discriminate].
  intros H. injection H as <-. cbn.
  apply severity_round_trip in Es. apply action_round_trip in Ea.
  repeat split; assumption.
Qed.

Lemma latest_step acc (r : ViolationRecord) :
  match acc with
  | None => Some (timestamp r)
  | Some t => if t <? timestamp r then Some (timestamp r) else Some t
  end =
  match acc with
  | None => Some (timestamp r)
  | Some t => Some (Z.max t (timestamp r))
  end.
Proof.
  destruct acc as [t|]; [|reflexivity].
  destruct (t <? timestamp r) eqn:E; [apply Z.ltb_lt in E|apply Z.ltb_ge in E]; f_equal; lia.
Qed.

Lemma scan_rows_well_formed uid vs : forall acc level last,
  scan_rows uid (map row_of vs) acc level last =
  Ok (acc ++ map (reloaded uid) vs,
      fold_left Z.max (map escalation_level vs) level,
      fold_left (fun acc r =>
                   match acc with
                   | None => Some (timestamp r)
                   | Some t => Some (Z.max t (timestamp r))
                   end) vs last).
Proof.
  induction vs as [|v vs IH]; intros acc level last; cbn [map scan_rows fold_left].
  - rewrite app_nil_r. reflexivity.
  - rewrite row_record_row_of. cbv zeta. rewrite IH. rewrite <- app_assoc. cbn [app].
    rewrite latest_step. cbn [reloaded escalation_level timestamp].
    replace (if level <? escalation_level v then escalation_level v else level)
      with (Z.max level (escalation_level v)).
    + reflexivity.
    + destruct (level <? escalation_level v) eqn:E;
        [apply Z.ltb_lt in E|apply Z.ltb_ge in E]; lia.
Qed.

Lemma scan_rows_bad_row uid rows : forall row acc level last,
  In row rows -> raised (row_record uid row) = true ->
  raised (scan_rows uid rows acc level last) = true.
Proof.
  induction rows as [|r0 rows IH]; intros row acc level last Hin Hbad; [destruct Hin|].
  cbn [scan_rows].
  destruct (row_record uid r0) as [v|e] eqn:E; [|reflexivity].
  destruct Hin as [-> | Hin]; [rewrite E in Hbad; discriminate|].
  eapply IH; eassumption.
Qed.

Section Profiles.
Context {W : Type} {env : Env W}.

(** The profile built from well-formed rows, for the status Redis gives. *)
Lemma profile_of_rows uid vs w w1 status w2 :
  call_tool "supabase" (SelectViolations uid) w = (Ok (RRows (map row_of vs)), w1) ->
  _get_account_status uid (highest_level vs) w1 = (Ok status, w2) ->
  get_user_violation_profile uid w =
    (Ok (mkProfile uid (List.length vs) (highest_level vs) (latest vs) status
                   (map (reloaded uid) vs)), w2).
Proof.
  intros Hsel Hst.
  unfold get_user_violation_profile, try_except, bind. rewrite Hsel.
  assert (Ht : value_truthy (RRows (map row_of vs))
               = match vs with [] => false | _ => true end) by (destruct vs; reflexivity).
  rewrite Ht. clear Ht.
  destruct vs as [|v vs].
  - unfold ret at 1.
    change (highest_level []) with 0 in Hst. rewrite Hst. reflexivity.
  - unfold lift. rewrite scan_rows_well_formed. cbn [app].
    fold (highest_level (v :: vs)). fold (latest (v :: vs)).
    cbv beta iota. rewrite Hst. unfold ret. rewrite length_map. reflexivity.
Qed.

(** X11. When the history read returns well-formed rows, the profile is
    their summary: one rebuilt record for each row, in order, their number
    as total_violations, the highest stored level (never below 0) as the
    escalation level, the latest timestamp as last_violation, and the
    account status Redis gives. *)
Theorem profile_summarises_history uid vs w w1 :
  call_tool "supabase" (SelectViolations uid) w = (Ok (RRows (map row_of vs)), w1) ->
  exists status w2,
    _get_account_status uid (highest_level vs) w1 = (Ok status, w2) /\
    get_user_violation_profile uid w =
      (Ok (mkProfile uid (List.length vs) (highest_level vs) (latest vs) status
                     (map (reloaded uid) vs)), w2) /\
    (forall v, In v vs -> escalation_level v <= highest_level vs) /\
    0 <= highest_level vs.
Proof.
  intros Hsel.
  destruct (get_account_status_total uid (highest_level vs) w1) as (status & w2 & Hst).
  exists status, w2. split; [exact Hst|].
  split; [exact (profile_of_rows uid vs w w1 status w2 Hsel Hst)|].
  unfold highest_level.
  assert (G : forall l a, a <= fold_left Z.max l a /\
                          forall x, In x l -> x <= fold_left Z.max l a).
  { induction l as [|y l IH]; intros a; cbn [fold_left].
    - split; [lia|intros x []].
    - destruct (IH (Z.max a y)) as (H1 & H2). split; [lia|].
      intros x [-> | Hx]; [lia|auto]. }
  destruct (G (map escalation_level vs) 0) as (H1 & H2).
  split; [|exact H1]. intros v Hv. apply H2. apply in_map. exact Hv.
Qed.

(** X12. One row that cannot be rebuilt (a severity or action text outside
    the enumerations, or an unreadable timestamp) makes the whole profile
    the default one: level 0, no violations, status "active". *)
Theorem one_bad_row_erases_history uid rows row w w1 :
  call_tool "supabase" (SelectViolations uid) w = (Ok (RRows rows), w1) ->
  In row rows ->
  raised (row_record uid row) = true ->
  get_user_violation_profile uid w = (Ok (default_profile uid), w1).
Proof.
  intros Hsel Hin Hbad.
  unfold get_user_violation_profile, try_except, bind. rewrite Hsel.
  destruct rows as [|r0 rows]; [destruct Hin|]. cbn [value_truthy]. unfold lift.
  pose proof (scan_rows_bad_row uid (r0 :: rows) row [] 0 None Hin Hbad) as H.
  destruct (scan_rows uid (r0 :: rows) [] 0 None); [discriminate|]. reflexivity.
Qed.

End Profiles.

Lemma substring_prefix m : forall s,
  String.length (String.substring 0 m s) = Nat.min m (String.length s) /\
  String.prefix (String.substring 0 m s) s = true /\
  ((String.length s <= m)%nat -> String.substring 0 m s = s).
Proof.
  induction m as [|m IH]; intros s.
  - destruct s; cbn; repeat split; try reflexivity; intros H; inversion H.
  - destruct s as [|c s]; cbn [String.substring String.length String.prefix Nat.min].
    + repeat split.
    + destruct (IH s) as (H1 & H2 & H3). rewrite H1.
      split; [reflexivity|]. split.
      * destruct (Ascii.ascii_dec c c) as [_|N]; [exact H2|destruct N; reflexivity].
      * intros H. rewrite H3 by lia. reflexivity.
Qed.

Section Processing.
Context {W : Type} {env : Env W}.

Lemma process_violation_hands uuid now self uid vt content sev dm w :
  exists profile r w3,
    handed_to_store uuid now self uid vt content sev dm w profile r w3 /\
    0 <= p_escalation_level profile.
Proof.
  destruct (process_violation_steps uuid now self uid vt content sev dm w)
    as (p & w1 & rule & r & stored & w2 & applied & w3 &
        Hp & Hlevel & Hrule & Hr & Hstore & Happly & Hproc).
  exists p, r, w3. split; [|exact Hlevel].
  exists w1, rule, stored, w2, applied.
  split; [exact Hp|]. split; [exact Hrule|]. split; [exact Hr|].
  split; [exact Hstore|]. split; [exact Happly|].
  replace (escalation_level r) with (new_escalation_level p sev)
    by (rewrite Hr; reflexivity).
  rewrite Hproc. split.
  - intros e w4 ->. reflexivity.
  - intros u w4 ->. destruct sev; eexists _, _; reflexivity.
Qed.

(** X13. Every violation is put on a rung of the ladder: the level of the
    record [process_violation] builds and hands to the store is between 1
    and 4, strictly above the level of the loaded profile as long as that
    was below 4, and 4 from then on; the action is a warning, a messaging
    restriction, a suspension or the permanent ban (never CONTENT_BLOCK or
    ADMIN_ALERT), the ban exactly at level 4. *)
Theorem level_climbs_to_the_ban uuid now self uid vt content sev dm w :
  exists profile r w3,
    handed_to_store uuid now self uid vt content sev dm w profile r w3 /\
    1 <= escalation_level r <= 4 /\
    (p_escalation_level profile < 4 -> p_escalation_level profile < escalation_level r) /\
    (4 <= p_escalation_level profile -> escalation_level r = 4) /\
    In (action_taken r)
       [WARNING; MESSAGING_RESTRICTION; ACCOUNT_SUSPENSION; PERMANENT_BAN] /\
    (action_taken r = PERMANENT_BAN <-> escalation_level r = 4).
Proof.
  destruct (process_violation_hands uuid now self uid vt content sev dm w)
    as (p & r & w3 & Hh & Hlevel).
  exists p, r, w3. split; [exact Hh|].
  destruct Hh as (w1 & rule & stored & w2 & applied & _ & Hrule & Hr & _).
  pose proof (severity_points_positive sev) as Hpts.
  assert (Hl : escalation_level r = new_escalation_level p sev) by (rewrite Hr; reflexivity).
  assert (Ha : action_taken r = action rule) by (rewrite Hr; reflexivity).
  rewrite Hl, Ha. unfold new_escalation_level in *. rewrite max_level_is_4 in *.
  split; [lia|]. split; [lia|]. split; [lia|].
  set (l := Z.min (p_escalation_level p + severity_multipliers sev) 4) in *.
  assert (l = 1 \/ l = 2 \/ l = 3 \/ l = 4) as [E | [E | [E | E]]] by lia;
    rewrite E in Hrule |- *; cbn in Hrule; injection Hrule as <-; cbn [action In];
    (split; [tauto|split; [intros H; try discriminate H; lia|intros H; try lia; reflexivity]]).
Qed.

(** X14. The record [process_violation] builds and hands to the store keeps
    the first 500 characters of the content: content of at most 500
    characters is kept whole, longer content is cut to a prefix of 500.
    The other fields are the arguments of the call, the clock reading, and
    resolved = False. *)
Theorem record_keeps_at_most_500_characters uuid now self uid vt content sev dm w :
  exists profile r w3,
    handed_to_store uuid now self uid vt content sev dm w profile r w3 /\
    String.length (Tracker.content r) = Nat.min 500 (String.length content) /\
    String.prefix (Tracker.content r) content = true /\
    ((String.length content <= 500)%nat -> Tracker.content r = content) /\
    id r = uuid /\ user_id r = uid /\ violation_type r = vt /\ severity r = sev /\
    detection_method r = dm /\ timestamp r = now /\ resolved r = false.
Proof.
  destruct (process_violation_hands uuid now self uid vt content sev dm w)
    as (p & r & w3 & Hh & _).
  exists p, r, w3. split; [exact Hh|].
  destruct Hh as (w1 & rule & stored & w2 & applied & _ & _ & Hr & _).
  destruct (substring_prefix 500 content) as (H1 & H2 & H3).
  rewrite Hr. cbn [Tracker.content id user_id violation_type severity detection_method
                   timestamp resolved].
  repeat split; assumption.
Qed.

End Processing.

(** ** The class as it ships *)

Section Shipped.
Context {W : Type}.
Variable call : string -> Request -> M W Value.

(** X15. As the class ships, [process_violation] never returns: whatever
    the MCP client does, once the record is handed to the store and the
    enforcement attempted, the call to [_update_user_escalation_level],
    which the class does not define, raises AttributeError.  No record
    comes back, no administrator is alerted and no metric is counted. *)
Theorem process_violation_never_returns uuid now self uid vt content sev dm w :
  exists profile r w3,
    handed_to_store (env := ViolationTracker_env call)
      uuid now self uid vt content sev dm w profile r w3 /\
    process_violation (env := ViolationTracker_env call)
      uuid now self uid vt content sev dm w = (Raise no_level_update, w3).
Proof.
  destruct (process_violation_hands (env := ViolationTracker_env call)
              uuid now self uid vt content sev dm w) as (p & r & w3 & Hh & _).
  exists p, r, w3. split; [exact Hh|].
  destruct Hh as (w1 & rule & stored & w2 & applied & _ & _ & _ & _ & _ & Hraise & _).
  apply Hraise. reflexivity.
Qed.

Lemma enforcement_answers_false now v profile w :
  fst (_apply_enforcement_action (env := ViolationTracker_env call) now v profile w)
    = Ok false.
Proof.
  unfold _apply_enforcement_action, try_except, bind, lift.
  destruct (rules_lookup escalation_rules (escalation_level v)) as [rule|e];
    [|reflexivity].
  destruct (action_taken v);
    cbn [_block_content _log_enforcement_action ViolationTracker_env];
    unfold undefined_method, throw, ret; try reflexivity.
  - destruct (_send_warning_message v w) as [[b|e] w1]; reflexivity.
  - destruct (_restrict_messaging now (user_id v) (duration_hours rule) w)
      as [[b|e] w1]; reflexivity.
  - destruct (_suspend_account now (user_id v) (duration_hours rule) w)
      as [[b|e] w1]; reflexivity.
  - destruct (_ban_account_permanently now (user_id v) w) as [[b|e] w1]; reflexivity.
Qed.

End Shipped.

(** ** On the reference store *)

Lemma flag_set_hash f key : flag_set (RHash f) key = Ok (flag key f).
Proof. unfold flag_set, flag. destruct f; reflexivity. Qed.

Lemma store_account_status uid level (s : Store) :
  (forall t a, fails s t a = false) ->
  _get_account_status uid level s = (Ok (stored_status (hashes s) uid), s).
Proof.
  intros Hf.
  unfold _get_account_status, try_except, bind, lift, stored_status.
  cbn [call_tool store_env ViolationTracker_env]. unfold store_call_tool. rewrite !Hf.
  rewrite !flag_set_hash.
  destruct (flag "restricted" _); [reflexivity|].
  rewrite !Hf. rewrite !flag_set_hash.
  destruct (flag "suspended" _); [reflexivity|].
  rewrite !Hf. rewrite !flag_set_hash.
  destruct (flag "banned" _); reflexivity.
Qed.

Lemma store_profile uid (s : Store) :
  (forall t a, fails s t a = false) ->
  exists p, get_user_violation_profile uid s = (Ok p, s) /\
            account_status p = stored_status (hashes s) uid.
Proof.
  intros Hf.
  assert (Hsel : call_tool "supabase" (SelectViolations uid) s =
                 (Ok (RRows (map row_of
                      (firstn 50 (order_desc
                         (filter (fun v => String.eqb (user_id v) uid)
                                 (security_violations s)))))), s)).
  { cbn [call_tool store_env ViolationTracker_env]. unfold store_call_tool.
    rewrite Hf. reflexivity. }
  eexists. split.
  - eapply profile_of_rows; [exact Hsel|]. apply store_account_status. exact Hf.
  - reflexivity.
Qed.

Section ReferenceStore.
Variable s : Store.
Hypothesis fault_free : forall t a, fails s t a = false.

Lemma store_insert_frame v :
  exists s1, _store_violation_record v s = (Ok true, s1) /\
             security_violations s1 = security_violations s ++ [v] /\
             hashes s1 = hashes s /\ fails s1 = fails s.
Proof.
  unfold _store_violation_record, try_except, bind, ret.
  cbn [call_tool store_env ViolationTracker_env]. unfold store_call_tool.
  rewrite fault_free. eexists. repeat split.
Qed.

(** The enforcement on a store without faults and without status flags for
    the user: the Redis write of the action is made, and the answer is
    False all the same, because the enforcement log cannot be written. *)
Lemma store_enforcement_status now v profile :
  1 <= escalation_level v <= 4 ->
  (forall k, In k (status_keys (user_id v)) -> hash_lookup k (hashes s) = []) ->
  exists s1, _apply_enforcement_action now v profile s = (Ok false, s1) /\
             fails s1 = fails s /\
             security_violations s1 = security_violations s /\
             stored_status (hashes s1) (user_id v) = status_of_action (action_taken v).
Proof.
  intros Hlevel Hclean.
  assert (H1 : hash_lookup ("user:restrictions:" ++ user_id v) (hashes s) = [])
    by (apply Hclean; cbn; auto).
  assert (H2 : hash_lookup ("user:suspension:" ++ user_id v) (hashes s) = [])
    by (apply Hclean; cbn; auto).
  assert (H3 : hash_lookup ("user:ban:" ++ user_id v) (hashes s) = [])
    by (apply Hclean; cbn; auto).
  assert (Hd : exists rule, rules_lookup escalation_rules (escalation_level v) = Ok rule /\
                            (has_duration (duration_hours rule) = None \/
                             exists h, has_duration (duration_hours rule) = Some h)).
  { assert (escalation_level v = 1 \/ escalation_level v = 2 \/ escalation_level v = 3
            \/ escalation_level v = 4) as [E | [E | [E | E]]] by lia;
      rewrite E; eexists; (split; [reflexivity|]); cbn; eauto. }
  destruct Hd as (rule & Hrule & Hd).
  unfold _apply_enforcement_action, try_except, bind, lift. rewrite Hrule.
  unfold stored_status.
  destruct (action_taken v);
    unfold _send_warning_message, _restrict_messaging, _suspend_account,
      _ban_account_permanently, try_except, bind, ret;
    cbn [call_tool store_env ViolationTracker_env _block_content
         _log_enforcement_action];
    unfold store_call_tool, undefined_method, throw, ret; rewrite ?fault_free;
    try (destruct Hd as [-> | (h & ->)]);
    cbn [fails]; rewrite ?fault_free; cbn [fails]; rewrite ?fault_free;
    eexists; (split; [reflexivity|]); (split; [reflexivity|]);
    (split; [reflexivity|]);
    cbn [hashes hash_lookup status_of_action]; rewrite ?String.eqb_refl;
    repeat match goal with
           | |- context [String.eqb (?a ++ ?u) (?b ++ ?u)] =>
               change (String.eqb (a ++ u) (b ++ u)) with false
           end;
    rewrite ?H1, ?H2, ?H3; reflexivity.
Qed.

End ReferenceStore.

(** X16. As the class ships, [_apply_enforcement_action] answers False on
    every input, whatever the MCP client does: the enforcement log it
    calls last (and [_block_content]) is not defined, and the AttributeError
    is caught by its own [except].  It answers False also when the
    enforcement was carried out: on a store without faults the status flag
    of the action is in Redis when it returns. *)
Theorem enforcement_answers_false_though_applied :
  (forall (W : Type) (call : string -> Request -> M W Value) now v profile (w : W),
      fst (_apply_enforcement_action (env := ViolationTracker_env call) now v profile w)
        = Ok false) /\
  (forall (s : Store) now v profile,
      (forall t a, fails s t a = false) ->
      1 <= escalation_level v <= 4 ->
      (forall k, In k (status_keys (user_id v)) -> hash_lookup k (hashes s) = []) ->
      exists s1, _apply_enforcement_action now v profile s = (Ok false, s1) /\
                 stored_status (hashes s1) (user_id v)
                   = status_of_action (action_taken v)).
Proof.
  split.
  - intros. apply enforcement_answers_false.
  - intros s now v profile Hf Hl Hc.
    destruct (store_enforcement_status s Hf now v profile Hl Hc) as (s1 & E & _ & _ & Hst).
    exists s1. split; assumption.
Qed.

(** X17. On the reference store, without faults and with no status flag set
    for the user, a processed violation leaves its record in the table and
    its action in Redis before the call ends in the AttributeError of the
    level update: the next profile shows "active" after a warning,
    "restricted" after a messaging restriction, "suspended" after a
    suspension, "banned" after the ban. *)
Theorem action_shows_in_next_profile uuid now self uid vt content sev dm (s : Store) :
  (forall t a, fails s t a = false) ->
  (forall k, In k (status_keys uid) -> hash_lookup k (hashes s) = []) ->
  exists profile r s' p,
    handed_to_store uuid now self uid vt content sev dm s profile r s' /\
    process_violation uuid now self uid vt content sev dm s = (Raise no_level_update, s') /\
    security_violations s' = security_violations s ++ [r] /\
    get_user_violation_profile uid s' = (Ok p, s') /\
    account_status p = status_of_action (action_taken r).
Proof.
  intros Hf Hclean.
  destruct (process_violation_hands uuid now self uid vt content sev dm s)
    as (p & r & w3 & Hh & Hlevel).
  pose proof Hh as (w1 & rule & stored & w2 & applied &
                    Hp & Hrule & Hr & Hstore & Happly & Hraise & _).
  destruct (store_profile uid s Hf) as (p0 & Hp0 & _).
  rewrite Hp0 in Hp. injection Hp as -> <-.
  destruct (store_insert_frame s Hf r) as (s1 & E1 & Hsv1 & Hh1 & Hf1).
  rewrite E1 in Hstore. injection Hstore as _ ->.
  assert (Hf1' : forall t a, fails w2 t a = false) by (intros; rewrite Hf1; apply Hf).
  assert (Huid : user_id r = uid) by (rewrite Hr; reflexivity).
  assert (Hrange : 1 <= escalation_level r <= 4).
  { rewrite Hr. cbn [escalation_level]. unfold new_escalation_level.
    rewrite max_level_is_4. pose proof (severity_points_positive sev). lia. }
  destruct (store_enforcement_status w2 Hf1' now r p Hrange)
    as (s2 & E2 & Hf2 & Hsv2 & Hst).
  { rewrite Huid, Hh1. exact Hclean. }
  rewrite E2 in Happly. injection Happly as _ ->.
  assert (Hf3 : forall t a, fails w3 t a = false) by (intros; rewrite Hf2; apply Hf1').
  destruct (store_profile uid w3 Hf3) as (q & Hq & Hs).
  exists p, r, w3, q.
  split; [exact Hh|]. split; [apply Hraise; reflexivity|].
  split; [rewrite Hsv2; exact Hsv1|]. split; [exact Hq|].
  rewrite Hs, <- Huid. exact Hst.
Qed.

(** ** Instances *)

Lemma profile_summarises_history_witness :
  exists status w2,
    get_user_violation_profile "user-1" escalated_store =
      (Ok (mkProfile "user-1" 3 3 (Some 3000) status
             (map (reloaded "user-1")
                  (order_desc (security_violations escalated_store)))), w2).
Proof.
  destruct (profile_summarises_history (env := store_env) "user-1"
              (order_desc (security_violations escalated_store))
              escalated_store escalated_store)
    as (status & w2 & _ & H & _).
  - vm_compute. reflexivity.
  - exists status, w2. exact H.
Defined.

Lemma one_bad_row_erases_history_witness :
  get_user_violation_profile (env := history_env legacy_rows) "user-1"
    (empty_store no_faults)
  = (Ok (default_profile "user-1"), empty_store no_faults) /\
  stored_levels
    (snd (process_all (env := history_env legacy_rows) "user-1"
            [("id-4", 4000, LOW)] initial_metrics (empty_store no_faults)))
  = [(1, WARNING)].
Proof.
  split.
  - apply (one_bad_row_erases_history (env := history_env legacy_rows) "user-1"
             legacy_rows
             (mkRow "id-1" "contact_info" "severe" "warning" 1 (Some 1000) false)
             (empty_store no_faults) (empty_store no_faults)).
    + reflexivity.
    + cbn. auto.
    + reflexivity.
  - vm_compute. reflexivity.
Defined.

Lemma enforcement_answers_false_though_applied_witness :
  let v := mkRecord "id-9" "user-2" "contact_info" CRITICAL "call me" "automated" 1000
                    PERMANENT_BAN 4 false in
  exists s1,
    _apply_enforcement_action 1000 v (default_profile "user-2") (empty_store no_faults)
      = (Ok false, s1) /\
    stored_status (hashes s1) "user-2" = "banned" /\
    user_bans s1 = ["user-2"].
Proof.
  cbv zeta.
  destruct (proj2 enforcement_answers_false_though_applied (empty_store no_faults) 1000
              (mkRecord "id-9" "user-2" "contact_info" CRITICAL "call me" "automated" 1000
                        PERMANENT_BAN 4 false)
              (default_profile "user-2")) as (s1 & E & Hst).
  - intros t a. reflexivity.
  - cbn. lia.
  - intros k _. reflexivity.
  - exists s1. split; [exact E|]. split; [exact Hst|].
    vm_compute in E. injection E as <-. reflexivity.
Defined.

Lemma action_shows_in_next_profile_witness :
  exists profile r s' p,
    process_violation "id-9" 1000 initial_metrics "user-2" "contact_info" "call me"
                      CRITICAL "automated" (empty_store no_faults)
      = (Raise no_level_update, s') /\
    security_violations s' = [r] /\ escalation_level r = 4 /\
    get_user_violation_profile "user-2" s' = (Ok p, s') /\
    account_status p = "banned" /\
    p_escalation_level profile = 0.
Proof.
  destruct (action_shows_in_next_profile "id-9" 1000 initial_metrics "user-2"
              "contact_info" "call me" CRITICAL "automated" (empty_store no_faults))
    as (profile & r & s' & p & Hh & Hproc & Hsv & Hq & Hst).
  - intros t a. reflexivity.
  - intros k _. reflexivity.
  - exists profile, r, s', p.
    destruct Hh as (w1 & rule & stored & w2 & applied & Hp & Hrule & Hr & _).
    assert (Hp0 : p_escalation_level profile = 0)
      by (vm_compute in Hp; injection Hp as <- _; reflexivity).
    unfold new_escalation_level in Hrule, Hr. rewrite Hp0 in Hrule, Hr.
    cbn in Hrule. injection Hrule as <-.
    split; [exact Hproc|]. split; [exact Hsv|].
    split; [rewrite Hr; reflexivity|]. split; [exact Hq|].
    split; [rewrite Hst, Hr; reflexivity|exact Hp0].
Defined.

End TrackerInvariants.

(* ===================================================================== *)
(** * Invariants of the contact protection filter *)
(* ===================================================================== *)

Module FilterInvariants.
Import Filter FilterScenarios Callers ExtraScenarios FilterFacts.

Local Open Scope string_scope.
Local Open Scope list_scope.

(** ** Where a match can end *)

(** A continuation that is only ever entered on a shorter rest. *)
Lemma rep_consumes cs : forall s lo hi prev k x,
  rep cs lo hi prev s k = Some x ->
  exists prev' s', k prev' s' = Some x /\ List.length s' <= List.length s /\
                   (lo <> 0 -> List.length s' < List.length s).
Proof.
  induction s as [|c s IH]; intros lo hi prev k x H; cbn [rep] in H.
  - destruct lo; [|discriminate]. exists prev, []. repeat split; auto. congruence.
  - assert (Hstop : match lo with 0 => k prev (c :: s) | S _ => None end = Some x ->
                    exists prev' s', k prev' s' = Some x /\
                      List.length s' <= List.length (c :: s) /\
                      (lo <> 0 -> List.length s' < List.length (c :: s))).
    { destruct lo; [|discriminate]. intros Hk. exists prev, (c :: s).
      repeat split; auto. congruence. }
    destruct (cset_match cs c && match hi with Some 0 => false | _ => true end);
      [|auto].
    destruct (rep cs (pred lo) (option_map pred hi) (Some c) s k) as [y|] eqn:E; [|auto].
    injection H as ->.
    apply IH in E. destruct E as (prev' & s' & Hk & Hlen & _).
    exists prev', s'. cbn [List.length]. repeat split; auto; lia.
Qed.

Lemma run_consumes r : forall prev s k x,
  run r prev s k = Some x ->
  exists prev' s', k prev' s' = Some x /\ List.length s' <= List.length s /\
                   (nullable r = false -> List.length s' < List.length s).
Proof.
  induction r as [|cs|r1 IH1 r2 IH2|r1 IH1 r2 IH2|cs lo hi|r1 IH1| |];
    intros prev s k x H; cbn [run nullable] in *.
  - exists prev, s. repeat split; auto. discriminate.
  - destruct s as [|c s]; [discriminate|].
    destruct (cset_match cs c); [|discriminate].
    exists (Some c), s. cbn [List.length]. repeat split; auto.
  - apply IH1 in H. destruct H as (p1 & s1 & H & Hl1 & Hn1).
    apply IH2 in H. destruct H as (p2 & s2 & H & Hl2 & Hn2).
    exists p2, s2. split; [exact H|]. split; [lia|].
    intros Hn. apply andb_false_iff in Hn. destruct Hn as [Hn | Hn].
    + specialize (Hn1 Hn). lia.
    + specialize (Hn2 Hn). lia.
  - destruct (run r1 prev s k) as [y|] eqn:E.
    + injection H as ->. apply IH1 in E. destruct E as (p1 & s1 & H & Hl & Hn).
      exists p1, s1. repeat split; auto. intros Hn'. apply orb_false_iff in Hn'.
      apply Hn. tauto.
    + apply IH2 in H. destruct H as (p1 & s1 & H & Hl & Hn).
      exists p1, s1. repeat split; auto. intros Hn'. apply orb_false_iff in Hn'.
      apply Hn. tauto.
  - apply rep_consumes in H. destruct H as (p1 & s1 & H & Hl & Hn).
    exists p1, s1. repeat split; auto. intros Hn'. apply Hn.
    intros ->. discriminate.
  - destruct (run r1 prev s k) as [y|] eqn:E.
    + injection H as ->. apply IH1 in E. destruct E as (p1 & s1 & H & Hl & _).
      exists p1, s1. repeat split; auto. discriminate.
    + exists prev, s. repeat split; auto. discriminate.
  - destruct (xorb _ _); [|discriminate]. exists prev, s. repeat split; auto. discriminate.
  - discriminate.
Qed.

Lemma match_here_length r prev s len :
  match_here r prev s = Some len ->
  len <= List.length s /\ (nullable r = false -> 0 < len).
Proof.
  unfold match_here.
  destruct (run r prev s (fun _ rest => Some rest)) as [rest|] eqn:E; [|discriminate].
  intros H. injection H as <-.
  apply run_consumes in E. destruct E as (p & s' & H & Hl & Hn).
  injection H as ->. split; [lia|]. intros Hr. specialize (Hn Hr). lia.
Qed.

(** The spans [finditer] reports lie inside the text, one after the other,
    and are not empty when the pattern cannot match the empty string. *)
Lemma finditer_from_spans r : forall s skip prev pos,
  Forall (fun span => pos + skip <= fst span /\ fst span <= snd span /\
                      snd span <= pos + List.length s /\
                      (nullable r = false -> fst span < snd span))
         (finditer_from r skip prev pos s) /\
  StronglySorted (fun a b => snd a <= fst b) (finditer_from r skip prev pos s).
Proof.
  induction s as [|c s IH]; intros skip prev pos; cbn [finditer_from].
  - destruct skip; [|split; constructor].
    destruct (match_here r prev []) as [len|] eqn:E; [|split; constructor].
    apply match_here_length in E. destruct E as (E1 & E2). cbn in E1.
    split; repeat constructor; cbn; try lia.
    intros Hn. specialize (E2 Hn). lia.
  - destruct skip as [|n].
    + destruct (match_here r prev (c :: s)) as [len|] eqn:E.
      * apply match_here_length in E. destruct E as (E1 & E2). cbn [List.length] in E1.
        destruct (IH (pred len) (Some c) (S pos)) as (F & S).
        split.
        -- constructor.
           ++ cbn. repeat split; try lia. intros Hn. specialize (E2 Hn). lia.
           ++ eapply Forall_impl; [|exact F]. cbn [List.length].
              intros span (H1 & H2 & H3 & H4). repeat split; auto; lia.
        -- constructor; [exact S|].
           eapply Forall_impl; [|exact F]. cbn. intros span (H1 & _). lia.
      * destruct (IH 0 (Some c) (S pos)) as (F & S). split; [|exact S].
        eapply Forall_impl; [|exact F]. cbn [List.length].
        intros span (H1 & H2 & H3 & H4). repeat split; auto; lia.
    + destruct (IH n (Some c) (S pos)) as (F & S). split; [|exact S].
      eapply Forall_impl; [|exact F]. cbn [List.length].
      intros span (H1 & H2 & H3 & H4). repeat split; auto; lia.
Qed.


Lemma slice_length s a b :
  a <= b -> b <= List.length s -> List.length (slice s a b) = b - a.
Proof.
  intros H1 H2. unfold slice. rewrite length_firstn, length_skipn. lia.
Qed.

Lemma table_not_nullable table :
  incl table all_patterns ->
  forall p, In p table -> nullable (compile p) = false.
Proof.
  intros Hincl p Hp.
  pose proof no_pattern_nullable as H. rewrite forallb_forall in H.
  specialize (H p (Hincl p Hp)). now apply negb_true_iff in H.
Qed.

Lemma detect_with_spans type confidence patterns content v :
  (forall p, In p patterns -> nullable (compile p) = false) ->
  In v (detect_with type confidence patterns content) ->
  exists a b, v_position v = Some (a, b) /\ a < b /\ b <= List.length content /\
              v_match v = slice content a b /\ v_type v = type.
Proof.
  intros Hn H. unfold detect_with in H. apply in_flat_map in H.
  destruct H as (p & Hp & H). apply in_map_iff in H. destruct H as ([a b] & <- & Hs).
  destruct (finditer_from_spans (compile p) content 0 None 0) as (F & _).
  rewrite Forall_forall in F. specialize (F _ Hs). cbn in F.
  destruct F as (_ & _ & F3 & F4). specialize (F4 (Hn p Hp)).
  exists a, b. cbn. repeat split; auto.
Qed.

(** X18. Every finding of the phone and e-mail layers carries a span that
    is not empty and lies inside the text, and its matched text is the slice
    of the text at that span.  The intent layer is given another text, the
    lower-cased one, and its findings carry spans of that text: not empty,
    inside it, with the slice of it as matched text. *)
Theorem pattern_findings_lie_inside_the_text (content lowered : str) v :
  (In v (_detect_phones content ++ _detect_emails content) ->
   exists a b,
     v_position v = Some (a, b) /\ a < b /\ b <= List.length content /\
     v_match v = slice content a b /\ List.length (v_match v) = b - a /\
     In (v_type v) ["phone_number"; "email_address"]) /\
  (In v (_detect_contact_intent lowered) ->
   exists a b,
     v_position v = Some (a, b) /\ a < b /\ b <= List.length lowered /\
     v_match v = slice lowered a b /\ List.length (v_match v) = b - a /\
     v_type v = "contact_intent").
Proof.
  unfold _detect_phones, _detect_emails, _detect_contact_intent.
  split; [rewrite in_app_iff; intros [H | H]|intros H];
    apply detect_with_spans in H;
    try (apply table_not_nullable; unfold all_patterns; intros p Hp;
         rewrite !in_app_iff; tauto);
    destruct H as (a & b & H1 & H2 & H3 & H4 & H5);
    exists a, b; rewrite H4, H5;
    (split; [exact H1|split; [exact H2|split; [exact H3|split; [reflexivity|split]]]]);
    try (apply slice_length; lia);
    cbn [In]; auto.
Qed.

(** ** The risk level *)

Lemma type_in_spec types v : type_in types v = true <-> In (v_type v) types.
Proof.
  unfold type_in. rewrite existsb_exists. split.
  - intros (t & Ht & He). apply String.eqb_eq in He. now subst.
  - intros H. exists (v_type v). split; [exact H|apply String.eqb_refl].
Qed.

Lemma any_type_spec types vs :
  existsb (type_in types) vs = true <-> exists v, In v vs /\ In (v_type v) types.
Proof.
  rewrite existsb_exists. split; intros (v & H1 & H2); exists v;
    (split; [exact H1|]); now apply type_in_spec.
Qed.

(** X19. The risk level follows the worst type found: "high" exactly when
    some finding is a phone number, an e-mail address or a contact
    provision, "medium" exactly when none is but some finding is a contact
    intent or imperative, "low" otherwise (findings of other types alone,
    social media among them, leave it "low"); further findings never lower
    it. *)
Theorem risk_level_follows_the_worst_type vs :
  (_calculate_risk_level vs = "high" <->
     exists v, In v vs /\ In (v_type v) high_risk_types) /\
  (_calculate_risk_level vs = "medium" <->
     (forall v, In v vs -> ~ In (v_type v) high_risk_types) /\
     exists v, In v vs /\ In (v_type v) medium_risk_types) /\
  (_calculate_risk_level vs = "low" <->
     forall v, In v vs -> ~ In (v_type v) (high_risk_types ++ medium_risk_types)) /\
  (forall ws, risk_rank (_calculate_risk_level vs)
              <= risk_rank (_calculate_risk_level (vs ++ ws))).
Proof.
  assert (Hcalc : forall l, _calculate_risk_level l =
                  if existsb (type_in high_risk_types) l then "high"
                  else if existsb (type_in medium_risk_types) l
                       then "medium" else "low").
  { destruct l; reflexivity. }
  split; [|split; [|split]].
  4: { intros ws. rewrite !Hcalc, !existsb_app.
       destruct (existsb (type_in high_risk_types) vs); cbn [orb]; [reflexivity|].
       destruct (existsb (type_in medium_risk_types) vs); cbn [orb];
         destruct (existsb (type_in high_risk_types) ws);
         try destruct (existsb (type_in medium_risk_types) ws); cbn; lia. }
  all: rewrite Hcalc.
  all: pose proof (any_type_spec high_risk_types vs) as Hh.
  all: pose proof (any_type_spec medium_risk_types vs) as Hm.
  all: destruct (existsb (type_in high_risk_types) vs);
       destruct (existsb (type_in medium_risk_types) vs).
  all: try setoid_rewrite in_app_iff.
  all: split; intros H; try discriminate H; try reflexivity.
  all: try (destruct (proj1 Hh eq_refl) as (vh & Hh1 & Hh2)).
  all: try (destruct (proj1 Hm eq_refl) as (vm & Hm1 & Hm2)).
  all: try (assert (Nh : forall v, In v vs -> ~ In (v_type v) high_risk_types)
              by (intros v H1 H2; assert (false = true) by (apply Hh; eauto);
                  discriminate)).
  all: try (assert (Nm : forall v, In v vs -> ~ In (v_type v) medium_risk_types)
              by (intros v H1 H2; assert (false = true) by (apply Hm; eauto);
                  discriminate)).
  all: clear Hh Hm; firstorder.
Qed.


(** ** The sentence layer *)

Lemma analyze_context_findings content uid ctx v :
  In v (_analyze_context content uid ctx) ->
  v_position v = None /\ v_pattern v = None /\
  In (v_type v) ["contact_imperative"; "contact_provision"].
Proof.
  unfold _analyze_context. intros H. apply in_flat_map in H.
  destruct H as (sentence & _ & H). apply in_app_or in H.
  destruct H as [H | H];
    match type of H with In _ (if ?c then _ else _) => destruct c end;
    try destruct H as [<- | []]; try destruct H; cbn; auto.
Qed.

Lemma filter_has_position_none vs :
  (forall v, In v vs -> v_position v = None) -> filter has_position vs = [].
Proof.
  induction vs as [|v vs IH]; intros H; [reflexivity|].
  cbn [filter]. unfold has_position at 1. rewrite (H v (or_introl eq_refl)).
  apply IH. intros w Hw. apply H. right. exact Hw.
Qed.

(** X20. The findings of the sentence layer carry no position, so they
    never change the text: a redaction for findings that include them is
    the redaction for the other findings alone. *)
Theorem sentence_findings_never_change_the_text content uid ctx :
  (forall v, In v (_analyze_context content uid ctx) -> v_position v = None) /\
  (forall text vs,
      _apply_content_filtering text (vs ++ _analyze_context content uid ctx)
      = _apply_content_filtering text vs).
Proof.
  assert (N : forall v, In v (_analyze_context content uid ctx) -> v_position v = None).
  { intros v Hv. now apply analyze_context_findings in Hv. }
  split; [exact N|].
  intros text vs. unfold _apply_content_filtering. rewrite filter_app.
  rewrite (filter_has_position_none (_analyze_context content uid ctx) N).
  rewrite app_nil_r. reflexivity.
Qed.

(** X21. The sentence layer judges the sentences one by one, whoever the
    user and whatever the context: the findings for two texts joined by a
    period are the findings of the first followed by those of the second,
    so a phrase cut by a period is not seen. *)
Theorem sentences_are_judged_one_by_one a b uid ctx uid' ctx' :
  _analyze_context (a ++ "."%char :: b) uid ctx =
  _analyze_context a uid' ctx' ++ _analyze_context b uid' ctx'.
Proof.
  assert (Hne : forall sep s, split_on sep s <> []).
  { intros sep s. destruct s as [|c s]; cbn; [discriminate|].
    destruct (Ascii.eqb c sep); [discriminate|].
    destruct (split_on sep s); discriminate. }
  assert (Happ : forall sep x y,
             split_on sep (x ++ sep :: y) = split_on sep x ++ split_on sep y).
  { intros sep x y. induction x as [|c x IH]; cbn [app split_on].
    - rewrite Ascii.eqb_refl. reflexivity.
    - destruct (Ascii.eqb c sep); [rewrite IH; reflexivity|].
      rewrite IH. pose proof (Hne sep x) as Hx.
      destruct (split_on sep x) as [|p ps]; [congruence|]. reflexivity. }
  unfold _analyze_context. rewrite Happ, flat_map_app. reflexivity.
Qed.


(** ** Redaction *)

Lemma start_of_span v : start_of v = fst (span_of v).
Proof. unfold start_of, span_of. destruct (v_position v) as [[a b]|]; reflexivity. Qed.

Lemma turn_span v content :
  has_position v = true ->
  turn content v =
  firstn (fst (span_of v)) content ++ py (_get_replacement_text (v_type v))
  ++ skipn (snd (span_of v)) content.
Proof.
  unfold turn, has_position, span_of.
  destruct (v_position v) as [[a b]|]; [reflexivity|discriminate].
Qed.

Lemma turn_app v A B :
  has_position v = true -> fst (span_of v) <= snd (span_of v) ->
  snd (span_of v) <= List.length A ->
  turn (A ++ B) v = turn A v ++ B.
Proof.
  intros Hp H1 H2. rewrite !turn_span by exact Hp.
  rewrite firstn_app, skipn_app.
  replace (fst (span_of v) - List.length A) with 0 by lia.
  replace (snd (span_of v) - List.length A) with 0 by lia.
  cbn [firstn skipn]. rewrite app_nil_r, <- !app_assoc. reflexivity.
Qed.

Lemma turn_length v A :
  has_position v = true -> fst (span_of v) <= List.length A ->
  fst (span_of v) <= List.length (turn A v).
Proof.
  intros Hp H. rewrite turn_span by exact Hp.
  rewrite !length_app, length_firstn. lia.
Qed.

Lemma fold_turn_app l : forall A B n,
  leftwards l -> Forall proper l ->
  (forall w, In w l -> snd (span_of w) <= n) -> n <= List.length A ->
  fold_left turn l (A ++ B) = fold_left turn l A ++ B.
Proof.
  unfold leftwards.
  induction l as [|v l IH]; intros A B n Hs Hp Hn HA; [reflexivity|].
  cbn [fold_left].
  inversion Hs as [|? ? Hs' Hv]; subst. inversion Hp as [|? ? (Hpos & Hlt) Hp']; subst.
  pose proof (Hn v (or_introl eq_refl)) as Hvn.
  rewrite turn_app by (auto; lia).
  apply (IH _ _ (fst (span_of v))); auto.
  - intros w Hw. rewrite Forall_forall in Hv. apply Hv. exact Hw.
  - apply turn_length; [exact Hpos|lia].
Qed.

Lemma fold_turn_redact l : forall content,
  leftwards l -> Forall proper l ->
  (forall w, In w l -> snd (span_of w) <= List.length content) ->
  fold_left turn l content = redact content l.
Proof.
  induction l as [|v l IH]; intros content Hs Hp Hn; [reflexivity|].
  cbn [fold_left redact]. unfold leftwards in Hs.
  inversion Hs as [|? ? Hs' Hv]; subst. inversion Hp as [|? ? (Hpos & Hlt) Hp']; subst.
  pose proof (Hn v (or_introl eq_refl)) as Hvn.
  rewrite Forall_forall in Hv.
  rewrite turn_span by exact Hpos.
  assert (Hlen : List.length (firstn (fst (span_of v)) content) = fst (span_of v))
    by (rewrite length_firstn; lia).
  rewrite (fold_turn_app l _ _ (fst (span_of v))); auto; [|lia].
  f_equal. apply IH; auto. intros w Hw. rewrite Hlen. apply Hv. exact Hw.
Qed.

Lemma insert_sorted_perm v l : Permutation (insert_sorted v l) (v :: l).
Proof.
  induction l as [|x l IH]; cbn [insert_sorted]; [reflexivity|].
  destruct (start_of v <=? start_of x)%nat; [|reflexivity].
  rewrite IH. apply perm_swap.
Qed.

Lemma sorted_reverse_perm l : Permutation (sorted_reverse l) l.
Proof.
  unfold sorted_reverse.
  assert (G : forall l acc, Permutation (fold_left (fun acc v => insert_sorted v acc) l acc)
                                        (l ++ acc)).
  { clear l. induction l as [|v l IH]; intros acc; cbn [fold_left app]; [reflexivity|].
    rewrite IH, insert_sorted_perm. apply Permutation_sym, Permutation_middle. }
  rewrite G, app_nil_r. reflexivity.
Qed.

Lemma insert_sorted_leftwards v l :
  leftwards l -> Forall proper l -> proper v -> Forall (apart v) l ->
  leftwards (insert_sorted v l).
Proof.
  unfold leftwards. intros Hs Hp (Hvpos & Hvlt) Ha.
  induction l as [|x l IH]; cbn [insert_sorted]; [repeat constructor|].
  inversion Hs as [|? ? Hs' Hx]; subst. inversion Hp as [|? ? (Hxpos & Hxlt) Hp']; subst.
  inversion Ha as [|? ? Hvx Ha']; subst.
  rewrite !start_of_span. unfold apart in Hvx.
  destruct (fst (span_of v) <=? fst (span_of x))%nat eqn:E;
    [apply Nat.leb_le in E|apply Nat.leb_gt in E].
  - constructor; [apply IH; assumption|].
    apply (Permutation_Forall (Permutation_sym (insert_sorted_perm v l))).
    constructor; [lia|exact Hx].
  - constructor; [constructor; assumption|].
    constructor; [lia|].
    eapply Forall_impl; [|exact Hx]. cbn. intros w Hw. lia.
Qed.


Lemma apart_sym v w : apart v w -> apart w v.
Proof. unfold apart. tauto. Qed.

Lemma sorted_reverse_leftwards l :
  Forall proper l -> ForallOrdPairs apart l -> leftwards (sorted_reverse l).
Proof.
  unfold sorted_reverse.
  assert (G : forall l acc,
             leftwards acc -> Forall proper acc -> Forall proper l ->
             ForallOrdPairs apart l ->
             (forall a x, In a acc -> In x l -> apart x a) ->
             leftwards (fold_left (fun acc v => insert_sorted v acc) l acc)).
  { clear l. induction l as [|v l IH]; intros acc Hs Hpa Hpl Hord Hx; [exact Hs|].
    cbn [fold_left].
    inversion Hpl as [|? ? Hv Hpl']; subst. inversion Hord as [|? ? Hvl Hord']; subst.
    rewrite Forall_forall in Hvl.
    apply IH; auto.
    - apply insert_sorted_leftwards; auto.
      apply Forall_forall. intros a Ha. apply Hx; [exact Ha|left; reflexivity].
    - apply (Permutation_Forall (Permutation_sym (insert_sorted_perm v acc))).
      constructor; assumption.
    - intros a x Ha Hxl.
      apply (Permutation_in _ (insert_sorted_perm v acc)) in Ha.
      destruct Ha as [<- | Ha].
      + apply apart_sym. apply Hvl. exact Hxl.
      + apply Hx; [exact Ha|right; exact Hxl]. }
  intros Hp Hord. apply G; auto.
  - constructor.
  - intros a x [].
Qed.

Lemma redaction_of_positioned content l :
  Forall proper l ->
  (forall v, In v l -> snd (span_of v) <= List.length content) ->
  ForallOrdPairs apart l ->
  fold_left turn (sorted_reverse l) content = redact content (sorted_reverse l) /\
  leftwards (sorted_reverse l).
Proof.
  intros Hp Hb Hord.
  pose proof (sorted_reverse_leftwards _ Hp Hord) as Hs.
  pose proof (sorted_reverse_perm l) as Hperm.
  split; [|exact Hs].
  apply fold_turn_redact; [exact Hs| |].
  - apply (Permutation_Forall (Permutation_sym Hperm)). exact Hp.
  - intros w Hw. apply Hb. apply (Permutation_in _ Hperm). exact Hw.
Qed.

(** X22. When the findings that carry a position have spans that are not
    empty, lie inside the text and share no character, the filtered text is
    the text with each span replaced by the placeholder of its finding and
    everything else left as it was; each finding is used once, from the
    rightmost to the leftmost. *)
Theorem disjoint_findings_are_redacted_in_place content vs :
  (forall v, In v vs -> has_position v = true ->
             fst (span_of v) < snd (span_of v) <= List.length content) ->
  ForallOrdPairs apart (filter has_position vs) ->
  _apply_content_filtering content vs
    = redact content (sorted_reverse (filter has_position vs)) /\
  leftwards (sorted_reverse (filter has_position vs)) /\
  Permutation (sorted_reverse (filter has_position vs)) (filter has_position vs).
Proof.
  intros Hb Hord.
  assert (Hp : Forall proper (filter has_position vs)).
  { apply Forall_forall. intros v Hv. apply filter_In in Hv. destruct Hv as (Hin & Hpos).
    split; [exact Hpos|]. apply (Hb v Hin Hpos). }
  assert (Hin : forall v, In v (filter has_position vs) ->
                          snd (span_of v) <= List.length content).
  { intros v Hv. apply filter_In in Hv. destruct Hv as (Hv & Hpos). apply (Hb v Hv Hpos). }
  destruct (redaction_of_positioned content _ Hp Hin Hord) as (R & Hs).
  split; [exact R|]. split; [exact Hs|]. apply sorted_reverse_perm.
Qed.

Lemma spans_apart type pattern content confidence spans :
  StronglySorted (fun a b : nat * nat => snd a <= fst b) spans ->
  ForallOrdPairs apart
    (map (fun span : nat * nat =>
            mkViolation type (Some pattern) (slice content (fst span) (snd span))
                        (Some span) confidence None) spans).
Proof.
  induction 1 as [|a l Hs IH Ha]; cbn [map]; constructor; [|exact IH].
  apply Forall_map. eapply Forall_impl; [|exact Ha].
  intros b Hb. left. exact Hb.
Qed.

(** X23. The findings of one pattern never overlap one another, so a text
    in which a single pattern fires is redacted in place: every match of
    that pattern becomes the placeholder, the rest of the text stays. *)
Theorem one_pattern_is_redacted_in_place type confidence pattern content :
  nullable (compile pattern) = false ->
  ForallOrdPairs apart (detect_with type confidence [pattern] content) /\
  _apply_content_filtering content (detect_with type confidence [pattern] content)
    = redact content (sorted_reverse (detect_with type confidence [pattern] content)).
Proof.
  intros Hn.
  destruct (finditer_from_spans (compile pattern) content 0 None 0) as (F & S).
  fold (finditer (compile pattern) content) in F, S.
  assert (Hspan : forall v, In v (detect_with type confidence [pattern] content) ->
                            has_position v = true /\
                            fst (span_of v) < snd (span_of v) <= List.length content).
  { intros v Hv. apply detect_with_spans in Hv.
    - destruct Hv as (a & b & Hp & H1 & H2 & _).
      unfold has_position, span_of. rewrite Hp. cbn. split; [reflexivity|lia].
    - intros p [<- | []]. exact Hn. }
  assert (Hall : filter has_position (detect_with type confidence [pattern] content)
                 = detect_with type confidence [pattern] content).
  { apply forallb_filter_id. apply forallb_forall. intros v Hv. apply (Hspan v Hv). }
  assert (Hord : ForallOrdPairs apart (detect_with type confidence [pattern] content)).
  { unfold detect_with. cbn [flat_map]. rewrite app_nil_r. apply spans_apart. exact S. }
  split; [exact Hord|].
  change (_apply_content_filtering content (detect_with type confidence [pattern] content))
    with (fold_left turn
            (sorted_reverse
               (filter has_position (detect_with type confidence [pattern] content)))
            content).
  rewrite Hall. apply redaction_of_positioned; [|intros v Hv; apply (Hspan v Hv)|exact Hord].
  apply Forall_forall. intros v Hv. destruct (Hspan v Hv) as (H1 & H2 & _).
  split; assumption.
Qed.

Lemma disjoint_findings_are_redacted_in_place_witness :
  ForallOrdPairs apart (filter has_position (pattern_layers two_requests)) /\
  string_of_list_ascii (_apply_content_filtering two_requests (pattern_layers two_requests))
    = "Please [CONTACT REQUEST BLOCKED] and [CONTACT REQUEST BLOCKED]".
Proof.
  assert (E : filter has_position (pattern_layers two_requests) =
              [mkViolation "contact_intent" (Some "(?:bypass|skip|avoid)\s+(?:the\s+)?platform")
                 (py "bypass the platform") (Some (7, 26)) 0.85%float None;
               mkViolation "contact_intent"
                 (Some "(?:whatsapp|telegram|signal|discord|messenger)\s+me")
                 (py "whatsapp me") (Some (31, 42)) 0.85%float None])
    by (vm_compute; reflexivity).
  assert (H : ForallOrdPairs apart (filter has_position (pattern_layers two_requests))).
  { rewrite E. constructor; [constructor; [left; cbn; lia|constructor]|].
    constructor; constructor. }
  split; [exact H|].
  destruct (disjoint_findings_are_redacted_in_place two_requests
              (pattern_layers two_requests)) as (R & _ & _).
  - intros v Hin Hpos.
    assert (Hf : In v (filter has_position (pattern_layers two_requests)))
      by (apply filter_In; split; assumption).
    rewrite E in Hf. cbn [In] in Hf.
    destruct Hf as [<- | [<- | []]]; cbn; lia.
  - exact H.
  - rewrite R. vm_compute. reflexivity.
Defined.


(** ** The module's own test list *)

(** X24. The module's own test list.  As the class ships, the scan of each
    of the twelve texts raises AttributeError.  Of the layers the class
    defines, one at least reports something on each of the nine contact
    texts, and none reports anything on any of the three clean texts. *)
Theorem own_test_list_on_the_defined_layers c :
  In c CONTACT_PROTECTION_TEST_CASES ->
  (forall now uid ctx,
      scan_content (detectors := ContactProtectionFilter_detectors) now (PyStr (py c)) uid ctx
      = Raise (undefined_detector "_detect_social_media")) /\
  ((In c contact_cases /\
    forall uid ctx,
      _detect_phones (py c) ++ _detect_emails (py c) ++
      _detect_contact_intent (lower (py c)) ++ _analyze_context (py c) uid ctx <> []) \/
   (In c clean_cases /\
    _detect_phones (py c) = [] /\ _detect_emails (py c) = [] /\
    _detect_contact_intent (lower (py c)) = [] /\
    forall uid ctx, _analyze_context (py c) uid ctx = [])).
Proof.
  intros Hin. split; [reflexivity|].
  unfold CONTACT_PROTECTION_TEST_CASES in Hin. apply in_app_or in Hin.
  destruct Hin as [Hc | Hc]; [left|right]; (split; [exact Hc|]).
  - intros uid ctx.
    change (_analyze_context (py c) uid ctx) with (_analyze_context (py c) EmptyString None).
    assert (H : forallb fires contact_cases = true) by (vm_compute; reflexivity).
    rewrite forallb_forall in H. specialize (H c Hc).
    unfold fires, pattern_layers in H. rewrite <- !app_assoc in H.
    intros E. rewrite E in H. discriminate H.
  - assert (H : forallb (fun c => negb (fires c)) clean_cases = true)
      by (vm_compute; reflexivity).
    rewrite forallb_forall in H. specialize (H c Hc). apply negb_true_iff in H.
    unfold fires, pattern_layers in H.
    destruct (_detect_phones (py c)); [|discriminate H].
    destruct (_detect_emails (py c)); [|discriminate H].
    destruct (_detect_contact_intent (lower (py c))); [|discriminate H].
    cbn [app] in H. repeat (split; [reflexivity|]).
    intros uid ctx.
    change (_analyze_context (py c) uid ctx) with (_analyze_context (py c) EmptyString None).
    destruct (_analyze_context (py c) EmptyString None); [reflexivity|discriminate H].
Qed.


(** ** Instances *)

Lemma pattern_findings_lie_inside_the_text_witness :
  exists v a b,
    In v (_detect_contact_intent (lower two_requests)) /\ v_position v = Some (a, b) /\
    a < b /\ b <= List.length (lower two_requests).
Proof.
  assert (Hin : In (mkViolation "contact_intent"
                      (Some "(?:bypass|skip|avoid)\s+(?:the\s+)?platform")
                      (py "bypass the platform") (Some (7, 26)) 0.85%float None)
                   (_detect_contact_intent (lower two_requests))) by (vm_compute; auto).
  destruct (proj2 (pattern_findings_lie_inside_the_text two_requests (lower two_requests) _)
              Hin) as (a & b & Hp & H1 & H2 & _).
  eexists _, a, b. split; [exact Hin|]. split; [exact Hp|]. split; assumption.
Defined.

Lemma one_pattern_is_redacted_in_place_witness :
  string_of_list_ascii
    (_apply_content_filtering (py "Call 555-123-4567 or 555-987-6543")
       (detect_with "phone_number" 0.95%float [phone_pattern_11]
          (py "Call 555-123-4567 or 555-987-6543")))
  = "Call [PHONE NUMBER BLOCKED] or [PHONE NUMBER BLOCKED]".
Proof.
  destruct (one_pattern_is_redacted_in_place "phone_number" 0.95%float phone_pattern_11
              (py "Call 555-123-4567 or 555-987-6543")) as (_ & R).
  - vm_compute. reflexivity.
  - rewrite R. vm_compute. reflexivity.
Defined.

Lemma own_test_list_on_the_defined_layers_witness :
  In "Let's take this offline" CONTACT_PROTECTION_TEST_CASES /\
  scan_content (detectors := ContactProtectionFilter_detectors) 0%Z
    (PyStr (py "Let's take this offline")) "user-1" None
  = Raise (undefined_detector "_detect_social_media").
Proof.
  assert (Hin : In "Let's take this offline" CONTACT_PROTECTION_TEST_CASES)
    by (cbn; auto 12).
  split; [exact Hin|].
  exact (proj1 (own_test_list_on_the_defined_layers "Let's take this offline" Hin)
           0%Z "user-1" None).
Defined.

End FilterInvariants.

(* ===================================================================== *)
(** * The callers *)
(* ===================================================================== *)

Module CallerFacts.
Import CostBreaker Filter Callers CostBreakerScenarios FilterScenarios ExtraScenarios.
Import CostBreakerFacts FilterFacts.

Local Open Scope string_scope.
Local Open Scope list_scope.

(** X25. The cost guard of the agents, [if not await
    check_cost_approval(cost): raise], never raises: the decision is a
    dictionary of four entries, which is true as a condition whatever its
    "approved" entry says.  The call goes on also when the breaker is open
    and the check was refused, at each of the four call sites. *)
Theorem cost_guard_never_fires {mcp : MCP} now estimated_cost message b :
  cost_control_check now estimated_cost message b =
    (Proceeds, fst (check_cost_approval now estimated_cost "general" [] b),
     snd (check_cost_approval now estimated_cost "general" [] b)) /\
  (is_shutdown b = true ->
   approved (fst (check_cost_approval now estimated_cost "general" [] b)) = false) /\
  (forall item, In item call_sites ->
     fst (fst (cost_control_check now (fst item) (snd item) b)) = Proceeds).
Proof.
  assert (G : forall est msg,
             cost_control_check now est msg b =
             (Proceeds, fst (check_cost_approval now est "general" [] b),
              snd (check_cost_approval now est "general" [] b))).
  { intros est msg. unfold cost_control_check.
    destruct (check_cost_approval now est "general" [] b) as [d b']. reflexivity. }
  split; [apply G|]. split.
  - intros H. unfold check_cost_approval. rewrite H. reflexivity.
  - intros item _. rewrite G. reflexivity.
Qed.

(** As the class ships, the loop ends at the first string it meets. *)
Lemma protect_items_shipped now agent_id items : forall filtered_data,
  protect_items (detectors := ContactProtectionFilter_detectors) now agent_id items
    filtered_data
  = if existsb (fun item => is_str (snd item)) items
    then Raise (undefined_detector "_detect_social_media")
    else Ok (filtered_data ++ items).
Proof.
  induction items as [|[key value] items IH]; intros filtered_data.
  - cbn. rewrite app_nil_r. reflexivity.
  - cbn [protect_items existsb snd].
    destruct value; cbn [is_str orb]; try reflexivity;
      rewrite IH, <- app_assoc; reflexivity.
Qed.

(** X26. [_apply_contact_protection] looks at the top-level values of a
    dictionary only, and as the class ships it cannot scan any of them: when
    one of them is a string the call raises the AttributeError of the scan;
    otherwise, strings lying deeper in nested dictionaries and lists
    included, the dictionary is returned as it is, and so is anything that
    is not a dictionary. *)
Theorem protection_looks_at_top_level_strings_only now agent_id data :
  _apply_contact_protection (detectors := ContactProtectionFilter_detectors)
    now agent_id data
  = match data with
    | DDict items =>
        if existsb (fun item => is_str (snd item)) items
        then Raise (undefined_detector "_detect_social_media")
        else Ok data
    | _ => Ok data
    end.
Proof.
  destruct data as [| | | | |its]; try reflexivity.
  unfold _apply_contact_protection. rewrite protect_items_shipped.
  destruct (existsb _ its); reflexivity.
Qed.

(** A payload whose strings all lie below the top level passes, phone
    numbers and all; with one string at the top level, a clean one, the call
    raises. *)
Example nested_strings_pass :
  _apply_contact_protection (detectors := ContactProtectionFilter_detectors)
    0%Z "agent-1" (DDict nested_items) = Ok (DDict nested_items) /\
  _apply_contact_protection (detectors := ContactProtectionFilter_detectors)
    0%Z "agent-1" (DDict (nested_items ++ [("note", DStr (py "I need bathroom renovation"))]))
  = Raise (undefined_detector "_detect_social_media").
Proof. split; reflexivity. Qed.

End CallerFacts.
